(** * Bulk CSV ingestion and analytics of the civil-servant data service

    A shallow embedding of the [importar_*] routines of [app/utils], of the
    pay and absence analyses of [app/models/insights.py] and of the
    descriptive statistics of [app/api/analytics.py], with the properties
    the specification states about them.

    Conventions.  Text is a [string] whose characters are Latin-1 code
    points: the upload endpoints decode the payload with
    [conteudo.decode("latin1")], so every cell of the frame is made of
    code points 0..255, which is exactly what [ascii] holds.  A frame cell
    is [option string]: [None] is pandas' NaN, what [read_csv(dtype=str)]
    leaves for an empty field. *)

From Stdlib Require Import ZArith QArith Qround Qabs Qminmax Lia Lqa Bool Ascii String List.
From Stdlib Require Import Numbers.DecimalString.
Import ListNotations.

Set Implicit Arguments.

Local Open Scope Z_scope.

(** ** Exceptions and results *)

Inductive excecao : Type :=
| ValueError (msg : string)
| OverflowError
| ZeroDivisionError
| StatisticsError
| DBAPIError.

Inductive resultado (A : Type) : Type :=
| Ok (a : A)
| Raise (e : excecao).

Arguments Ok {A} a.
Arguments Raise {A} e.

Definition bind {A B} (r : resultado A) (k : A -> resultado B) : resultado B :=
  match r with
  | Ok a => k a
  | Raise e => Raise e
  end.

Declare Scope res_scope.
Delimit Scope res_scope with res.
Notation "x <- r ;; k" := (bind r (fun x => k))
  (at level 61, r at next level, right associativity) : res_scope.

(** [try: r except: d] is Python's bare [try ... except: return d]. *)
Definition try_except {A} (r : resultado A) (d : A) : A :=
  match r with
  | Ok a => a
  | Raise _ => d
  end.

Fixpoint mapM {A B} (f : A -> resultado B) (l : list A) : resultado (list B) :=
  match l with
  | [] => Ok []
  | a :: l' =>
      (b <- f a ;; bs <- mapM f l' ;; Ok (b :: bs))%res
  end.

Definition is_ok {A} (r : resultado A) : bool :=
  match r with Ok _ => true | Raise _ => false end.

(** ** Python's [str] on Latin-1 text *)

Module PyStr.

Local Open Scope N_scope.

Definition cod (c : ascii) : N := N_of_ascii c.

Definition entre (a b n : N) : bool := (a <=? n) && (n <=? b).

(** [str.isspace] on one Latin-1 character: TAB..CR, FS..US, space,
    NEL (0x85) and the no-break space (0xA0). *)
Definition isspace (c : ascii) : bool :=
  let n := cod c in
  entre 9 13 n || entre 28 32 n || (n =? 133) || (n =? 160).

(** [str.isdecimal]: the ASCII digits are the only Latin-1 characters of
    category Nd. *)
Definition isdecimal_c (c : ascii) : bool := entre 48 57 (cod c).

(** [str.isdigit] adds the superscripts two, three and one. *)
Definition isdigit_c (c : ascii) : bool :=
  let n := cod c in
  isdecimal_c c || (n =? 178) || (n =? 179) || (n =? 185).

(** [str.isnumeric] adds the vulgar fractions one quarter, one half and
    three quarters. *)
Definition isnumeric_c (c : ascii) : bool :=
  let n := cod c in
  isdigit_c c || (n =? 188) || (n =? 189) || (n =? 190).

Fixpoint todos (p : ascii -> bool) (s : string) : bool :=
  match s with
  | EmptyString => true
  | String c r => p c && todos p r
  end.

Definition nao_vazia (s : string) : bool :=
  match s with EmptyString => false | String _ _ => true end.

Definition isdecimal (s : string) : bool := nao_vazia s && todos isdecimal_c s.
Definition isdigit (s : string) : bool := nao_vazia s && todos isdigit_c s.
Definition isnumeric (s : string) : bool := nao_vazia s && todos isnumeric_c s.

Fixpoint lstrip (s : string) : string :=
  match s with
  | EmptyString => EmptyString
  | String c r => if isspace c then lstrip r else s
  end.

Fixpoint rstrip (s : string) : string :=
  match s with
  | EmptyString => EmptyString
  | String c r =>
      match rstrip r with
      | EmptyString => if isspace c then EmptyString else String c EmptyString
      | r' => String c r'
      end
  end.

Definition strip (s : string) : string := rstrip (lstrip s).

(** The white space [int] and [float] accept around a number.  In a
    text that is not pure ASCII, CPython first rewrites as a space
    every character above 127 that [str.isspace] accepts (in Latin-1:
    NEL and the no-break space); then the parser skips the white space
    of C, TAB..CR and the space.  The separators FS..US (0x1C..0x1F)
    are white space for [str.isspace] and [str.strip], but they are
    below 128 and are not white space in C: a number with one of them
    at an end is refused. *)
Definition espaco_numero (c : ascii) : bool :=
  let n := cod c in
  entre 9 13 n || (n =? 32) || (n =? 133) || (n =? 160).

Fixpoint lstrip_numero (s : string) : string :=
  match s with
  | EmptyString => EmptyString
  | String c r => if espaco_numero c then lstrip_numero r else s
  end.

Fixpoint rstrip_numero (s : string) : string :=
  match s with
  | EmptyString => EmptyString
  | String c r =>
      match rstrip_numero r with
      | EmptyString => if espaco_numero c then EmptyString else String c EmptyString
      | r' => String c r'
      end
  end.

Definition strip_numero (s : string) : string :=
  rstrip_numero (lstrip_numero s).

(** [str.lower] stays inside Latin-1: A..Z and the accented capitals
    0xC0..0xDE (the multiplication sign 0xD7 apart) move up by 32. *)
Definition lower_c (c : ascii) : ascii :=
  let n := cod c in
  if entre 65 90 n || (entre 192 222 n && negb (n =? 215))
  then ascii_of_N (n + 32) else c.

Fixpoint lower (s : string) : string :=
  match s with
  | EmptyString => EmptyString
  | String c r => String (lower_c c) (lower r)
  end.

(** [s.replace(old, new)] for a one-character [old]. *)
Fixpoint replace (old : ascii) (new : string) (s : string) : string :=
  match s with
  | EmptyString => EmptyString
  | String c r =>
      if Ascii.eqb c old then (new ++ replace old new r)%string
      else String c (replace old new r)
  end.

(** [pat in s]. *)
Fixpoint contains (pat s : string) : bool :=
  String.prefix pat s ||
  match s with
  | EmptyString => false
  | String _ r => contains pat r
  end.

Definition membro (s : string) (l : list string) : bool :=
  existsb (String.eqb s) l.

Definition valor_digito (c : ascii) : Z := Z.of_N (cod c - 48).

(** Digits with PEP 515 underscores, to the end of the text: an
    underscore stands only between two digits.  Returns the value and
    the number of digits read. *)
Fixpoint parse_digitos (s : string) (ultimo : bool) (acc : Z) (n : nat)
  : option (Z * nat) :=
  match s with
  | EmptyString => if ultimo then Some (acc, n) else None
  | String c r =>
      if isdecimal_c c
      then parse_digitos r true (10 * acc + valor_digito c)%Z (S n)
      else if Ascii.eqb c "_" && ultimo then parse_digitos r false acc n
           else None
  end.

Definition sinal (s : string) : bool * string :=
  match s with
  | String "-" r => (true, r)
  | String "+" r => (false, r)
  | _ => (false, s)
  end.

(** [sys.get_int_max_str_digits()], the default of CPython 3.11 and
    later: a decimal text with more digits is refused, leading zeros
    counted. *)
Definition max_str_digits : nat := 4300.

(** [int(s)] for a [str]: surrounding white space, an optional sign,
    decimal digits, no more of them than the limit.  The result is a
    Python [int], of any size. *)
Definition int (s : string) : resultado Z :=
  let (neg, r) := sinal (strip_numero s) in
  match parse_digitos r false 0%Z 0 with
  | Some (v, n) =>
      if Nat.ltb max_str_digits n
      then Raise (ValueError "Exceeds the limit (4300 digits) for integer string conversion")
      else Ok (if neg then (- v)%Z else v)
  | None => Raise (ValueError "invalid literal for int() with base 10")
  end.

(** [str(n)] for an [int]. *)
Definition str_int (z : Z) : string := NilZero.string_of_int (Z.to_int z).

End PyStr.

(** The range of numpy's [int64], which [Series.astype(int)] targets, and
    of the store's BIGINT columns. *)
Definition BIGINT_MAX : Z := 9223372036854775807.
Definition BIGINT_MIN : Z := -9223372036854775808.

Definition em_bigint (z : Z) : bool := (BIGINT_MIN <=? z) && (z <=? BIGINT_MAX).

(** One element of [Series.astype(int)] over an object column of [str]:
    [int(x)], then the store into an [int64] array. *)
Definition astype_int (s : string) : resultado Z :=
  (z <- PyStr.int s ;;
   if em_bigint z then Ok z else Raise OverflowError)%res.

(** ** Data frames *)

Definition cell : Type := option string.

Record DataFrame : Type := mkDF {
  columns : list string;
  linhas : list (list cell)
}.

Fixpoint indice (col : string) (cols : list string) : option nat :=
  match cols with
  | [] => None
  | c :: cs => if String.eqb col c then Some O
               else option_map S (indice col cs)
  end.

(** [row[col]]; a short row reads as NaN, as [read_csv] pads it. *)
Definition campo (cols : list string) (row : list cell) (col : string) : cell :=
  match indice col cols with
  | Some i => nth i row None
  | None => None
  end.

Definition tem_coluna (df : DataFrame) (col : string) : bool :=
  existsb (String.eqb col) (columns df).

(** The loop every importer opens with:
<<
    for col in colunas_necessarias:
        if col not in df.columns:
            raise ValueError(f"Coluna ausente no CSV: {col}")
>> *)
Fixpoint verificar_colunas (df : DataFrame) (necessarias : list string)
  : resultado unit :=
  match necessarias with
  | [] => Ok tt
  | col :: resto =>
      if tem_coluna df col then verificar_colunas df resto
      else Raise (ValueError ("Coluna ausente no CSV: " ++ col)%string)
  end.

(** ** The store session and the chunked loader *)

(** What the importers write with [logger]. *)
Inductive registro_log : Type :=
| LogLote (lote tamanho : nat)
| LogErroLote (lote : nat)
| LogConcluida (total : nat)
| LogSkip (id_servidor : Z) (descricao : string)
| LogNenhumVinculo.

Definition chunk_size : nat := 1000.

Section Loader.

(** The row type of the target table. *)
Variable A : Type.

(** The store's side of [session.execute(text(sql), chunk)].
    [rejeita t chunk] says that the statement fails on table contents
    [t] (a constraint the [ON CONFLICT DO NOTHING] clause does not
    cover, a lost connection); [conflita t r] says that the clause
    skips row [r]. *)
Variable rejeita : list A -> list A -> bool.
Variable conflita : list A -> A -> bool.

(** [confirmadas] is what the store holds durably; [visao] is the table
    as the open transaction sees it. *)
Record Estado : Type := mkEstado {
  confirmadas : list A;
  visao : list A;
  log : list registro_log
}.

Definition logar (e : registro_log) (st : Estado) : Estado :=
  mkEstado (confirmadas st) (visao st) (log st ++ [e]).

Definition inserir (t : list A) (chunk : list A) : list A :=
  fold_left (fun t r => if conflita t r then t else t ++ [r]) chunk t.

Definition execute (chunk : list A) (st : Estado) : resultado unit * Estado :=
  if rejeita (visao st) chunk then (Raise DBAPIError, st)
  else (Ok tt, mkEstado (confirmadas st) (inserir (visao st) chunk) (log st)).

Definition commit (st : Estado) : Estado :=
  mkEstado (visao st) (visao st) (log st).

Definition rollback (st : Estado) : Estado :=
  mkEstado (confirmadas st) (confirmadas st) (log st).

(** [registros[i:i + k]] for [i] in [range(0, len(registros), k)]. *)
Fixpoint fatiar_aux (fuel k : nat) (l : list A) : list (list A) :=
  match fuel with
  | O => []
  | S f =>
      match l with
      | [] => []
      | _ :: _ => firstn k l :: fatiar_aux f k (skipn k l)
      end
  end.

Definition fatiar (k : nat) (l : list A) : list (list A) :=
  fatiar_aux (length l) k l.

(** The loop of [importar_cargosfuncoes_dataframe] and
    [importar_funcaocargo_dataframe]:
<<
  for i in range(0, len(registros), chunk_size):
      chunk = registros[i:i + chunk_size]
      try:
          session.execute(text(sql), chunk)
          session.commit()
          logger.info(...)
          total_processados += len(chunk)
      except Exception as e:
          logger.exception(...)
          session.rollback()
>> *)
Fixpoint laco_protegido (lotes : list (list A)) (n total : nat) (st : Estado)
  : nat * Estado :=
  match lotes with
  | [] => (total, st)
  | chunk :: resto =>
      match execute chunk st with
      | (Ok _, st1) =>
          laco_protegido resto (S n) (total + length chunk)
            (logar (LogLote n (length chunk)) (commit st1))
      | (Raise _, st1) =>
          laco_protegido resto (S n) total
            (rollback (logar (LogErroLote n) st1))
      end
  end.

(** The loop of the other four importers, with no [try]:
<<
  for i in range(0, len(registros), chunk_size):
      chunk = registros[i:i + chunk_size]
      session.execute(text(sql), chunk)
      session.commit()
      logger.info(...)
      total_processados += len(chunk)
>> *)
Fixpoint laco (lotes : list (list A)) (n total : nat) (st : Estado)
  : resultado nat * Estado :=
  match lotes with
  | [] => (Ok total, st)
  | chunk :: resto =>
      match execute chunk st with
      | (Ok _, st1) =>
          laco resto (S n) (total + length chunk)
            (logar (LogLote n (length chunk)) (commit st1))
      | (Raise e, st1) => (Raise e, st1)
      end
  end.

Definition carregar_protegido (registros : list A) (st : Estado)
  : resultado nat * Estado :=
  let (total, st') := laco_protegido (fatiar chunk_size registros) 1 0 st in
  (Ok total, logar (LogConcluida total) st').

Definition carregar (registros : list A) (st : Estado)
  : resultado nat * Estado :=
  match laco (fatiar chunk_size registros) 1 0 st with
  | (Ok total, st') => (Ok total, logar (LogConcluida total) st')
  | (Raise e, st') => (Raise e, st')
  end.

(** The frame of every importer: the column check, the normalisation
    (which may raise), the load. *)
Definition importar
    (necessarias : list string)
    (normalizar : DataFrame -> resultado (list A))
    (carga : list A -> Estado -> resultado nat * Estado)
    (df : DataFrame) (st : Estado) : resultado nat * Estado :=
  match verificar_colunas df necessarias with
  | Raise e => (Raise e, st)
  | Ok _ =>
      match normalizar df with
      | Raise e => (Raise e, st)
      | Ok registros => carga registros st
      end
  end.

End Loader.

Arguments mkEstado {A} _ _ _.

(** ** Python's [float] *)

(** A [float] is an IEEE 754 binary64 value.  A finite one is kept as the
    rational it denotes, in lowest terms; the two zeros are identified
    (they compare equal in Python). *)
Inductive pyfloat : Type :=
| PFin (q : Q)
| PInf (neg : bool)
| PNan.

Module PyFloat.

Local Open Scope Q_scope.

Definition pow2 (e : Z) : Q :=
  if (0 <=? e)%Z then inject_Z (2 ^ e) else 1 # Z.to_pos (2 ^ (- e)).

Definition pow10 (e : Z) : Q :=
  if (0 <=? e)%Z then inject_Z (10 ^ e) else 1 # Z.to_pos (10 ^ (- e)).

(** Round to the nearest integer, ties to even. *)
Definition round_half_even (x : Q) : Z :=
  let f := Qfloor x in
  match Qcompare (x - inject_Z f) (1 # 2) with
  | Lt => f
  | Gt => (f + 1)%Z
  | Eq => if Z.even f then f else (f + 1)%Z
  end.

(** [floor (log2 a)] for [a > 0]. *)
Definition ilog2 (a : Q) : Z :=
  let e0 := (Z.log2 (Qnum a) - Z.log2 (Zpos (Qden a)))%Z in
  if Qle_bool (pow2 e0) a then e0 else (e0 - 1)%Z.

(** Correct rounding of a rational to binary64: 53 significant bits,
    subnormals down to [2^-1074], overflow to infinity. *)
Definition b64 (q : Q) : pyfloat :=
  if Qeq_bool q 0 then PFin 0
  else
    let a := Qabs q in
    let u := Z.max (ilog2 a - 52) (-1074) in
    let v := inject_Z (round_half_even (a / pow2 u)) * pow2 u in
    if Qle_bool (pow2 1024) v then PInf (negb (Qle_bool 0 q))
    else PFin (Qred (if Qle_bool 0 q then v else - v)).

Fixpoint span (p : ascii -> bool) (s : string) : string * string :=
  match s with
  | EmptyString => (EmptyString, EmptyString)
  | String c r =>
      if p c then let (a, b) := span p r in (String c a, b)
      else (EmptyString, s)
  end.

Definition e_corrida (c : ascii) : bool :=
  PyStr.isdecimal_c c || Ascii.eqb c "_".

(** The longest run of digits and underscores at the head of [s]; an
    empty run is allowed here, a run with a misplaced underscore is
    not. *)
Definition ler_digitos (s : string) : option ((Z * nat) * string) :=
  let (run, rest) := span e_corrida s in
  match run with
  | EmptyString => Some ((0%Z, O), rest)
  | String _ _ =>
      match PyStr.parse_digitos run false 0%Z 0 with
      | Some vn => Some (vn, rest)
      | None => None
      end
  end.

Definition parte_fracao (s : string) : option ((Z * nat) * string) :=
  match s with
  | String "." r => ler_digitos r
  | _ => Some ((0%Z, O), s)
  end.

Definition parte_expoente (s : string) : option Z :=
  match s with
  | EmptyString => Some 0%Z
  | String c r =>
      if Ascii.eqb c "e" || Ascii.eqb c "E" then
        let (neg, r') := PyStr.sinal r in
        match PyStr.parse_digitos r' false 0%Z 0 with
        | Some (v, _) => Some (if neg then (- v)%Z else v)
        | None => None
        end
      else None
  end.

(** An unsigned decimal literal: digits, an optional fraction, an
    optional exponent; at least one digit in the mantissa. *)
Definition decimal (s : string) : option Q :=
  match ler_digitos s with
  | Some ((i, ni), r1) =>
      match parte_fracao r1 with
      | Some ((f, nf), r2) =>
          if Nat.eqb (ni + nf) 0 then None
          else
            match parte_expoente r2 with
            | Some e =>
                Some (inject_Z (i * 10 ^ Z.of_nat nf + f)
                      * pow10 (e - Z.of_nat nf))
            | None => None
            end
      | None => None
      end
  | None => None
  end.

(** [float(s)] for a [str]: the white space of [int] around it, a
    sign, then an infinity, a NaN or a decimal literal. *)
Definition float (s : string) : resultado pyfloat :=
  let (neg, r) := PyStr.sinal (PyStr.strip_numero s) in
  let l := PyStr.lower r in
  if PyStr.membro l ["inf"; "infinity"]%string then Ok (PInf neg)
  else if String.eqb l "nan" then Ok PNan
  else
    match decimal r with
    | Some q => Ok (b64 (if neg then - q else q))
    | None => Raise (ValueError "could not convert string to float")
    end.

(** A decimal literal of the Python source, such as [1234.56]. *)
Definition literal (q : Q) : pyfloat := b64 q.

(** [int(x)] for a finite float: truncation towards zero. *)
Definition trunc (q : Q) : Z :=
  if Qle_bool 0 q then Qfloor q else Qceiling q.

(** [a / b] and [a * b], each correctly rounded. *)
Definition div (a b : Q) : pyfloat := b64 (a / b).
Definition mul (a b : Q) : pyfloat := b64 (a * b).

(** [a / b] on two finite floats, as the operator does it:
    [ZeroDivisionError] on a zero divisor, an infinity on overflow. *)
Definition truediv (a b : Q) : resultado pyfloat :=
  if Qeq_bool b 0 then Raise ZeroDivisionError else Ok (div a b).

(** [x * k] for a float [x] and a positive finite [k]. *)
Definition vezes (x : pyfloat) (k : Q) : pyfloat :=
  match x with
  | PFin q => mul q k
  | f => f
  end.

(** [f"{x:.1f}"] for an exactly known value: one fraction digit, ties
    to even, the sign kept even when the digits round to zero. *)
Definition format_1f (q : Q) : string :=
  let t := round_half_even (Qabs q * 10) in
  ((if Qle_bool 0 q then "" else "-")
     ++ PyStr.str_int (t / 10)%Z ++ "." ++ PyStr.str_int (t mod 10)%Z)%string.

End PyFloat.

(** ** Frame operations shared by the importers *)

Definition lat (n : N) : string := String (ascii_of_N n) EmptyString.

Definition isna (c : cell) : bool :=
  match c with None => true | Some _ => false end.

(** [fillna(v).astype(str)] on one cell. *)
Definition fillna (v : string) (c : cell) : string :=
  match c with None => v | Some s => s end.

(** One element of the mask [df[col].str.isnumeric()]: NaN stays NaN. *)
Definition mascara_isnumeric (c : cell) : option bool :=
  option_map PyStr.isnumeric c.

(** [df[mask]] with an object mask: pandas refuses a mask that holds
    NaN ("Cannot mask with non-boolean array containing NA / NaN
    values"). *)
Definition filtrar_mascara {A} (mask : A -> option bool) (l : list A)
  : resultado (list A) :=
  if existsb (fun a => match mask a with None => true | Some _ => false end) l
  then Raise (ValueError "Cannot mask with non-boolean array containing NA / NaN values")
  else Ok (filter (fun a => match mask a with Some b => b | None => false end) l).

Section DropDuplicates.

Variables (A K : Type) (eqb : K -> K -> bool) (chave : A -> K).

(** [df.drop_duplicates(subset=...)], which keeps the first row of
    each key. *)
Fixpoint drop_duplicates_aux (vistos : list K) (l : list A) : list A :=
  match l with
  | [] => []
  | a :: r =>
      if existsb (eqb (chave a)) vistos then drop_duplicates_aux vistos r
      else a :: drop_duplicates_aux (chave a :: vistos) r
  end.

Definition drop_duplicates (l : list A) : list A := drop_duplicates_aux [] l.

End DropDuplicates.

(** ** [importar_servidores_dataframe] *)

Module Servidores.

Record Servidor : Type := mkServidor {
  id_servidor : Z;
  nome : string;
  cpf : string;
  descr_cargo : string;
  org_superior : string;
  org_exercicio : string;
  regime : string;
  jornada_trabalho : string
}.

Definition colunas_necessarias : list (string * string) :=
  [ ("Id_SERVIDOR_PORTAL", "id_servidor");
    ("NOME", "nome");
    ("CPF", "cpf");
    ("DESCRICAO_CARGO", "descr_cargo");
    ("ORGSUP_EXERCICIO", "org_superior");
    ("ORG_EXERCICIO", "org_exercicio");
    ("REGIME_JURIDICO", "regime");
    ("JORNADA_DE_TRABALHO", "jornada_trabalho") ]%string.

Section Importador.

(** [str.upper] leaves Latin-1 (the sharp s becomes two letters, the
    micro sign a Greek capital), so it stays a parameter. *)
Variable upper : string -> string.

Variables (rejeita : list Servidor -> list Servidor -> bool)
          (conflita : list Servidor -> Servidor -> bool).

(** A row after the text columns are cleaned and before the id is
    converted. *)
Definition limpar (cols : list string) (row : list cell) : cell * Servidor :=
  let texto c := PyStr.strip (fillna "" (campo cols row c)) in
  let caixa c := upper (texto c) in
  (campo cols row "Id_SERVIDOR_PORTAL",
   mkServidor 0 (texto "NOME") (texto "CPF") (texto "DESCRICAO_CARGO")
     (caixa "ORGSUP_EXERCICIO") (caixa "ORG_EXERCICIO")
     (caixa "REGIME_JURIDICO") (caixa "JORNADA_DE_TRABALHO"))%string.

Definition com_id (r : cell * Servidor) (i : Z) : Servidor :=
  let s := snd r in
  mkServidor i (nome s) (cpf s) (descr_cargo s) (org_superior s)
    (org_exercicio s) (regime s) (jornada_trabalho s).

Definition normalizar (df : DataFrame) : resultado (list Servidor) :=
  let limpas := map (limpar (columns df)) (linhas df) in
  (numericas <- filtrar_mascara (fun r => mascara_isnumeric (fst r)) limpas ;;
   let unicas := drop_duplicates String.eqb (fun r => fillna "" (fst r)) numericas in
   ids <- mapM (fun r => astype_int (fillna "" (fst r))) unicas ;;
   Ok (map (fun p => com_id (fst p) (snd p)) (combine unicas ids)))%res.

Definition importar_servidores_dataframe
  : DataFrame -> Estado Servidor -> resultado nat * Estado Servidor :=
  importar (map fst colunas_necessarias) normalizar
    (carregar rejeita conflita).

End Importador.

End Servidores.

(** A row with its three key columns still text, as the pay, absence and
    remark importers hold it between [dropna] and [astype(int)]. *)
Record Chaves : Type := mkChaves {
  texto_id : string;
  texto_ano : string;
  texto_mes : string
}.

Definition chaves (cols : list string) (row : list cell) : option Chaves :=
  match campo cols row "Id_SERVIDOR_PORTAL", campo cols row "ANO",
        campo cols row "MES" with
  | Some i, Some a, Some m => Some (mkChaves i a m)
  | _, _, _ => None
  end.

Section ChavesInteiras.

Variable R : Type.

(** [dropna(subset=[id, ano, mes])], the [isnumeric] mask, and the
    three [astype(int)], column after column. *)
Definition converter_chaves (brutas : list (Chaves * R))
  : resultado (list ((Z * Z * Z) * R)) :=
  let numericas := filter (fun r => PyStr.isnumeric (texto_id (fst r))) brutas in
  (ids <- mapM (fun r => astype_int (texto_id (fst r))) numericas ;;
   anos <- mapM (fun r => astype_int (texto_ano (fst r))) numericas ;;
   meses <- mapM (fun r => astype_int (texto_mes (fst r))) numericas ;;
   Ok (map (fun '(_, r, i, a, m) => ((i, a, m), r))
          (combine (combine (combine numericas ids) anos) meses)))%res.

Fixpoint dropna_chaves (f : list cell -> option (Chaves * R))
    (rows : list (list cell)) : list (Chaves * R) :=
  match rows with
  | [] => []
  | row :: resto =>
      match f row with
      | Some r => r :: dropna_chaves f resto
      | None => dropna_chaves f resto
      end
  end.

End ChavesInteiras.

(** ** [importar_remuneracoes_dataframe] *)

Module Remuneracoes.

Record Remuneracao : Type := mkRemuneracao {
  id_servidor : Z;
  ano : Z;
  mes : Z;
  remuneracao : pyfloat;
  irrf : pyfloat;
  pss_rpgs : pyfloat;
  remuneracao_final : pyfloat
}.

Definition col_remuneracao : string :=
  Eval cbv in
    ("REMUNERA" ++ lat 199 ++ lat 195 ++ "O B" ++ lat 193
       ++ "SICA BRUTA (R$)")%string.

Definition col_remuneracao_final : string :=
  Eval cbv in
    ("REMUNERA" ++ lat 199 ++ lat 195 ++ "O AP" ++ lat 211 ++ "S DEDU"
       ++ lat 199 ++ lat 213 ++ "ES OBRIGAT" ++ lat 211
       ++ "RIAS (R$)")%string.

Definition colunas_necessarias : list (string * string) :=
  [ ("Id_SERVIDOR_PORTAL", "id_servidor");
    ("ANO", "ano");
    ("MES", "mes");
    (col_remuneracao, "remuneracao");
    ("IRRF (R$)", "irrf");
    ("PSS/RPGS (R$)", "pss_rpgs");
    (col_remuneracao_final, "remuneracao_final") ]%string.

(**
<<
  def to_float(val: str) -> float:
      try:
          return float(val.replace(".", "").replace(",", "."))
      except:
          return 0.0
>> *)
Definition to_float (val : string) : pyfloat :=
  try_except
    (PyFloat.float (PyStr.replace "," "." (PyStr.replace "." "" val)))
    (PFin 0).

(** [df[campo].fillna("0,00").astype(str).apply(to_float)] on one cell. *)
Definition moeda (c : cell) : pyfloat := to_float (fillna "0,00" c).

Definition bruta (cols : list string) (row : list cell)
  : option (Chaves * (cell * cell * cell * cell)) :=
  match chaves cols row with
  | Some k =>
      Some (k, (campo cols row col_remuneracao,
                campo cols row "IRRF (R$)",
                campo cols row "PSS/RPGS (R$)",
                campo cols row col_remuneracao_final))
  | None => None
  end.

Definition registro (r : (Z * Z * Z) * (cell * cell * cell * cell))
  : Remuneracao :=
  let '((i, a, m), (c1, c2, c3, c4)) := r in
  mkRemuneracao i a m (moeda c1) (moeda c2) (moeda c3) (moeda c4).

Definition normalizar (df : DataFrame) : resultado (list Remuneracao) :=
  (convertidas <- converter_chaves
                    (dropna_chaves (bruta (columns df)) (linhas df)) ;;
   Ok (map registro convertidas))%res.

Section Importador.

Variables (rejeita : list Remuneracao -> list Remuneracao -> bool)
          (conflita : list Remuneracao -> Remuneracao -> bool).

Definition importar_remuneracoes_dataframe
  : DataFrame -> Estado Remuneracao -> resultado nat * Estado Remuneracao :=
  importar (map fst colunas_necessarias) normalizar
    (carregar rejeita conflita).

End Importador.

End Remuneracoes.

(** ** [importar_afastamentos_dataframe] *)

Module Afastamentos.

Section Importador.

(** [datetime.date] and [datetime.strptime(text, format).date()] are
    the standard library's. *)
Variable data : Type.
Variable strptime : string -> string -> resultado data.

Record Afastamento : Type := mkAfastamento {
  id_servidor : Z;
  ano : Z;
  mes : Z;
  inicio_afastamento : option data;
  duracao_dias : Z
}.

Definition colunas_necessarias : list (string * string) :=
  [ ("Id_SERVIDOR_PORTAL", "id_servidor");
    ("ANO", "ano");
    ("MES", "mes");
    ("DATA_INICIO_AFASTAMENTO", "inicio_afastamento") ]%string.

(**
<<
def parse_data(valor):
    if pd.isna(valor):
        return None
    try:
        return datetime.strptime(valor.strip(), "%d/%m/%Y").date()
    except:
        return None
>> *)
Definition parse_data (valor : cell) : option data :=
  match valor with
  | None => None
  | Some s =>
      try_except
        (d <- strptime (PyStr.strip s) "%d/%m/%Y" ;; Ok (Some d))%res
        None
  end.

Definition bruta (cols : list string) (row : list cell)
  : option (Chaves * cell) :=
  match chaves cols row with
  | Some k => Some (k, campo cols row "DATA_INICIO_AFASTAMENTO")
  | None => None
  end.

(** [df["duracao_dias"] = 1]: the constant column. *)
Definition registro (r : (Z * Z * Z) * cell) : Afastamento :=
  let '((i, a, m), c) := r in
  mkAfastamento i a m (parse_data c) 1.

Definition normalizar (df : DataFrame) : resultado (list Afastamento) :=
  (convertidas <- converter_chaves
                    (dropna_chaves (bruta (columns df)) (linhas df)) ;;
   Ok (map registro convertidas))%res.

Variables (rejeita : list Afastamento -> list Afastamento -> bool)
          (conflita : list Afastamento -> Afastamento -> bool).

Definition importar_afastamentos_dataframe
  : DataFrame -> Estado Afastamento -> resultado nat * Estado Afastamento :=
  importar (map fst colunas_necessarias) normalizar
    (carregar rejeita conflita).

End Importador.

End Afastamentos.

(** ** [importar_observacoes_dataframe] *)

Module Observacoes.

Record Observacao : Type := mkObservacao {
  id_servidor : Z;
  ano : Z;
  mes : Z;
  observacao : string;
  flag_teto : bool
}.

Definition colunas_necessarias : list (string * string) :=
  [ ("Id_SERVIDOR_PORTAL", "id_servidor");
    ("ANO", "ano");
    ("MES", "mes");
    ("OBSERVACAO", "observacao") ]%string.

Section Importador.

Variable upper : string -> string.

Definition bruta (cols : list string) (row : list cell)
  : option (Chaves * string) :=
  match chaves cols row, campo cols row "OBSERVACAO" with
  | Some k, Some o => Some (k, o)
  | _, _ => None
  end.

Definition registro (r : (Z * Z * Z) * string) : Observacao :=
  let '((i, a, m), o) := r in
  let texto := PyStr.strip o in
  mkObservacao i a m texto (PyStr.contains "ACIMA DO TETO" (upper texto)).

Definition normalizar (df : DataFrame) : resultado (list Observacao) :=
  (convertidas <- converter_chaves
                    (dropna_chaves (bruta (columns df)) (linhas df)) ;;
   Ok (map registro convertidas))%res.

Variables (rejeita : list Observacao -> list Observacao -> bool)
          (conflita : list Observacao -> Observacao -> bool).

Definition importar_observacoes_dataframe
  : DataFrame -> Estado Observacao -> resultado nat * Estado Observacao :=
  importar (map fst colunas_necessarias) normalizar
    (carregar rejeita conflita).

End Importador.

End Observacoes.

(** ** [importar_cargosfuncoes_dataframe] *)

Definition sem_informacao : string :=
  Eval cbv in ("sem informa" ++ lat 231 ++ lat 227 ++ "o")%string.

Definition sem_informac : string :=
  Eval cbv in ("sem informa" ++ lat 231)%string.

Module CargosFuncoes.

Record Registro : Type := mkRegistro {
  classe_cargo : option string;
  referencia_cargo : option Z;
  padrao_cargo : option Z;
  nivel_cargo : option Z;
  funcao : option string;
  descricao_cargo : string;
  nivel_funcao : option Z
}.

Definition colunas_necessarias : list (string * string) :=
  [ ("CLASSE_CARGO", "classe_cargo");
    ("REFERENCIA_CARGO", "referencia_cargo");
    ("PADRAO_CARGO", "padrao_cargo");
    ("NIVEL_CARGO", "nivel_cargo");
    ("FUNCAO", "funcao");
    ("DESCRICAO_CARGO", "descricao_cargo");
    ("NIVEL_FUNCAO", "nivel_funcao") ]%string.

(**
<<
  def limpar_str(val):
      if not isinstance(val, str):
          return None
      val = val.strip()
      if val.lower() in ["sem informação", "sem informaç", ""]:
          return None
      return val
>> *)
Definition limpar_str (val : cell) : option string :=
  match val with
  | None => None
  | Some s =>
      let v := PyStr.strip s in
      if PyStr.membro (PyStr.lower v) [sem_informacao; sem_informac; ""%string]
      then None else Some v
  end.

(**
<<
  def limpar_int(val):
      try:
          val = float(val)
          if not pd.notna(val) or val in [-1.0, 0.0]:
              return None
          val_int = int(val)
          return val_int if BIGINT_MIN <= val_int <= BIGINT_MAX else None
      except:
          return None
>>
    [float] of the NaN cell is NaN; [int] of an infinity raises
    [OverflowError]. *)
Definition limpar_int (val : cell) : option Z :=
  try_except
    (v <- match val with
          | None => Ok PNan
          | Some s => PyFloat.float s
          end ;;
     match v with
     | PNan => Ok None
     | PInf _ => Raise OverflowError
     | PFin q =>
         if Qeq_bool q (-1) || Qeq_bool q 0 then Ok None
         else
           let val_int := PyFloat.trunc q in
           Ok (if em_bigint val_int then Some val_int else None)
     end)%res
    None.

Definition limpar (cols : list string) (row : list cell) : Registro :=
  mkRegistro
    (limpar_str (campo cols row "CLASSE_CARGO"))
    (limpar_int (campo cols row "REFERENCIA_CARGO"))
    (limpar_int (campo cols row "PADRAO_CARGO"))
    (limpar_int (campo cols row "NIVEL_CARGO"))
    (limpar_str (campo cols row "FUNCAO"))
    (PyStr.strip (fillna "" (campo cols row "DESCRICAO_CARGO")))
    (limpar_int (campo cols row "NIVEL_FUNCAO")).

(** The sanitising pass over one numeric field: NaN and the infinities
    become [None], and so does a value outside BIGINT. *)
Definition sanitizar_campo (v : option Z) : option Z :=
  match v with
  | Some z => if em_bigint z then Some z else None
  | None => None
  end.

Definition sanitizar (r : Registro) : Registro :=
  mkRegistro (classe_cargo r)
    (sanitizar_campo (referencia_cargo r))
    (sanitizar_campo (padrao_cargo r))
    (sanitizar_campo (nivel_cargo r))
    (funcao r) (descricao_cargo r)
    (sanitizar_campo (nivel_funcao r)).

(** [astype(str)] on an object column of [str] and [None]. *)
Definition str_obj (o : option string) : string :=
  match o with None => "None"%string | Some s => s end.

Section Importador.

(** [astype(str)] on one element of a column produced by
    [apply(limpar_int)].  pandas chooses the dtype of such a column
    from all of its values (integers alone, integers mixed with
    [None], [None] alone), and the text of an element follows the
    dtype; the rendering is therefore a function of the column and
    of the element. *)
Variable str_coluna : list (option Z) -> option Z -> string.

(**
<<
df["chave_logica"] = df[[
    "classe_cargo", "referencia_cargo", "padrao_cargo",
    "nivel_cargo", "funcao", "descricao_cargo", "nivel_funcao"
]].astype(str).agg("|".join, axis=1)
>> *)
Definition chave_logica (limpas : list Registro) (r : Registro) : string :=
  (str_obj (classe_cargo r)
     ++ "|" ++ str_coluna (map referencia_cargo limpas) (referencia_cargo r)
     ++ "|" ++ str_coluna (map padrao_cargo limpas) (padrao_cargo r)
     ++ "|" ++ str_coluna (map nivel_cargo limpas) (nivel_cargo r)
     ++ "|" ++ str_obj (funcao r)
     ++ "|" ++ descricao_cargo r
     ++ "|" ++ str_coluna (map nivel_funcao limpas) (nivel_funcao r))%string.

(** The cleaned frame, [df.drop_duplicates(subset="chave_logica")]. *)
Definition deduplicar (limpas : list Registro) : list Registro :=
  drop_duplicates String.eqb (chave_logica limpas) limpas.

(** On a frame without rows [.agg("|".join, axis=1)] takes pandas'
    path for empty frames and gives back a frame, of seven columns,
    instead of a column of texts; the assignment to
    [df["chave_logica"]] then raises [ValueError]. *)
Definition normalizar (df : DataFrame) : resultado (list Registro) :=
  match linhas df with
  | [] =>
      Raise (ValueError
               "Cannot set a DataFrame with multiple columns to the single column chave_logica")
  | _ :: _ =>
      let limpas := map (limpar (columns df)) (linhas df) in
      Ok (map sanitizar (deduplicar limpas))
  end.

Variables (rejeita : list Registro -> list Registro -> bool)
          (conflita : list Registro -> Registro -> bool).

Definition importar_cargosfuncoes_dataframe
  : DataFrame -> Estado Registro -> resultado nat * Estado Registro :=
  importar (map fst colunas_necessarias) normalizar
    (carregar_protegido rejeita conflita).

End Importador.

End CargosFuncoes.

(** ** The role catalogue as the ORM reads it *)

Module Catalogo.

Record CargoFuncao : Type := mkCargoFuncao {
  id_cargo_funcao : Z;
  classe_cargo : option string;
  referencia_cargo : option Z;
  padrao_cargo : option Z;
  nivel_cargo : option Z;
  funcao : option string;
  descricao_cargo : string;
  nivel_funcao : option Z
}.

End Catalogo.

(** ** [importar_funcaocargo_dataframe] *)

Module FuncaoCargo.

(** The Python values a cleaned field can be. *)
Inductive valor : Type :=
| VInt (z : Z)
| VStr (s : string).

Definition valor_eqb (a b : valor) : bool :=
  match a, b with
  | VInt x, VInt y => Z.eqb x y
  | VStr x, VStr y => String.eqb x y
  | _, _ => false
  end.

Definition opt_eqb (a b : option valor) : bool :=
  match a, b with
  | None, None => true
  | Some x, Some y => valor_eqb x y
  | _, _ => false
  end.

(** The tuple [(classe_cargo, padrao_cargo, nivel_cargo,
    descricao_cargo)]. *)
Definition chave : Type :=
  (option valor * option valor * option valor * option valor)%type.

Definition chave_eqb (a b : chave) : bool :=
  let '(a1, a2, a3, a4) := a in
  let '(b1, b2, b3, b4) := b in
  opt_eqb a1 b1 && opt_eqb a2 b2 && opt_eqb a3 b3 && opt_eqb a4 b4.

Definition campos_numericos : list string :=
  ["padrao_cargo"; "referencia_cargo"; "nivel_cargo"; "nivel_funcao"]%string.

(**
<<
  def limpar_valor(val, campo=None):
      if pd.isna(val):
          return None
      if isinstance(val, str):
          val = val.strip()
          if val.lower() in ["sem informação", "sem informaç", "", "-1"]:
              return None
          if campo in ["padrao_cargo", "referencia_cargo", "nivel_cargo", "nivel_funcao"]:
              if not val.isdigit():
                  return None
              return int(val)
          return val
      ...
>>
    The last branch, for a value that is neither NaN nor [str], is not
    reached: a cell of the frame is one or the other.  [int(val)] is
    outside any [try]. *)
Definition limpar_valor (val : cell) (campo : string)
  : resultado (option valor) :=
  match val with
  | None => Ok None
  | Some s =>
      let v := PyStr.strip s in
      if PyStr.membro (PyStr.lower v)
           [sem_informacao; sem_informac; ""%string; "-1"%string]
      then Ok None
      else if PyStr.membro campo campos_numericos then
        if negb (PyStr.isdigit v) then Ok None
        else (z <- PyStr.int v ;; Ok (Some (VInt z)))%res
      else Ok (Some (VStr v))
  end.

(** The dict [mapa_cargos]: [atribuir m k v] is [m[k] = v], [get] is
    [m.get(k)]. *)
Fixpoint atribuir (m : list (chave * Z)) (k : chave) (v : Z)
  : list (chave * Z) :=
  match m with
  | [] => [(k, v)]
  | (k', v') :: r =>
      if chave_eqb k k' then (k', v) :: r else (k', v') :: atribuir r k v
  end.

Fixpoint get (m : list (chave * Z)) (k : chave) : option Z :=
  match m with
  | [] => None
  | (k', v) :: r => if chave_eqb k k' then Some v else get r k
  end.

Definition chave_cargo (cargo : Catalogo.CargoFuncao) : chave :=
  (option_map VStr (Catalogo.classe_cargo cargo),
   option_map VInt (Catalogo.padrao_cargo cargo),
   option_map VInt (Catalogo.nivel_cargo cargo),
   Some (VStr (Catalogo.descricao_cargo cargo))).

(**
<<
  mapa_cargos = {}
  for cargo in todos_cargos:
      chave = (cargo.classe_cargo, cargo.padrao_cargo,
               cargo.nivel_cargo, cargo.descricao_cargo)
      mapa_cargos[chave] = cargo.id_cargo_funcao
>> *)
Definition mapa_cargos (todos_cargos : list Catalogo.CargoFuncao)
  : list (chave * Z) :=
  fold_left
    (fun m cargo => atribuir m (chave_cargo cargo) (Catalogo.id_cargo_funcao cargo))
    todos_cargos [].

(** [str(v)] inside the f-string of the warning. *)
Definition texto_valor (v : option valor) : string :=
  match v with
  | None => "None"%string
  | Some (VInt z) => PyStr.str_int z
  | Some (VStr s) => s
  end.

Section Importador.

Variable data : Type.
Variable strptime : string -> string -> resultado data.

(** A resolved record, as handed to the [INSERT]. *)
Record Vinculo : Type := mkVinculo {
  id_servidor : Z;
  id_cargo_funcao : Z;
  data_ingresso_funcao : option data
}.

(** A normalised row of the frame, as [df.iterrows()] yields it. *)
Record Linha : Type := mkLinha {
  l_id_servidor : Z;
  l_data_ingresso_funcao : option data;
  l_classe_cargo : cell;
  l_padrao_cargo : cell;
  l_nivel_cargo : cell;
  l_descricao_cargo : cell
}.

Definition colunas_necessarias : list (string * string) :=
  [ ("Id_SERVIDOR_PORTAL", "id_servidor");
    ("DATA_INGRESSO_CARGOFUNCAO", "data_ingresso_funcao");
    ("CLASSE_CARGO", "classe_cargo");
    ("REFERENCIA_CARGO", "referencia_cargo");
    ("PADRAO_CARGO", "padrao_cargo");
    ("NIVEL_CARGO", "nivel_cargo");
    ("FUNCAO", "funcao");
    ("DESCRICAO_CARGO", "descricao_cargo");
    ("NIVEL_FUNCAO", "nivel_funcao") ]%string.

Definition parse_data (val : cell) : option data :=
  match val with
  | None => None
  | Some s =>
      try_except
        (d <- strptime (PyStr.strip s) "%d/%m/%Y" ;; Ok (Some d))%res
        None
  end.

(** [dropna(subset=["id_servidor", "descricao_cargo"])] and the
    [isnumeric] mask. *)
Definition manter (cols : list string) (row : list cell) : bool :=
  match campo cols row "Id_SERVIDOR_PORTAL",
        campo cols row "DESCRICAO_CARGO" with
  | Some i, Some _ => PyStr.isnumeric i
  | _, _ => false
  end.

Definition linha (cols : list string) (row : list cell) (i : Z) : Linha :=
  mkLinha i
    (parse_data (campo cols row "DATA_INGRESSO_CARGOFUNCAO"))
    (campo cols row "CLASSE_CARGO")
    (campo cols row "PADRAO_CARGO")
    (campo cols row "NIVEL_CARGO")
    (campo cols row "DESCRICAO_CARGO").

Definition normalizar (df : DataFrame) : resultado (list Linha) :=
  let cols := columns df in
  let mantidas := filter (manter cols) (linhas df) in
  (ids <- mapM (fun row => astype_int (fillna "" (campo cols row "Id_SERVIDOR_PORTAL")))
            mantidas ;;
   Ok (map (fun p => linha cols (fst p) (snd p)) (combine mantidas ids)))%res.

(** The dict [valores] of one row, as the tuple [chave]. *)
Definition valores (row : Linha) : resultado chave :=
  (c <- limpar_valor (l_classe_cargo row) "classe_cargo" ;;
   p <- limpar_valor (l_padrao_cargo row) "padrao_cargo" ;;
   n <- limpar_valor (l_nivel_cargo row) "nivel_cargo" ;;
   d <- limpar_valor (l_descricao_cargo row) "descricao_cargo" ;;
   Ok (c, p, n, d))%res.

(** [if id_cargo:] is false for [None] and for [0]. *)
Definition verdadeiro (id_cargo : option Z) : bool :=
  match id_cargo with
  | Some i => negb (Z.eqb i 0)
  | None => false
  end.

(** The loop over [df.iterrows()]. *)
Fixpoint resolver (mapa : list (chave * Z)) (rows : list Linha)
    (registros : list Vinculo) (st : Estado Vinculo)
  : resultado (list Vinculo) * Estado Vinculo :=
  match rows with
  | [] => (Ok registros, st)
  | row :: resto =>
      match valores row with
      | Raise e => (Raise e, st)
      | Ok k =>
          let id_cargo := get mapa k in
          if verdadeiro id_cargo then
            resolver mapa resto
              (registros
                 ++ [mkVinculo (l_id_servidor row)
                       (match id_cargo with Some i => i | None => 0 end)
                       (l_data_ingresso_funcao row)])
              st
          else
            let '(_, _, _, d) := k in
            resolver mapa resto registros
              (logar (LogSkip (l_id_servidor row) (texto_valor d)) st)
      end
  end.

Variables (rejeita : list Vinculo -> list Vinculo -> bool)
          (conflita : list Vinculo -> Vinculo -> bool).

(** [consulta] is the outcome of
    [session.exec(select(CargoFuncao)).all()] at line 61: the entries
    of the catalogue, or the exception of the store, which nothing
    catches.  The query comes after the column check and the
    normalisation of the frame. *)
Definition importar_funcaocargo_dataframe
    (consulta : resultado (list Catalogo.CargoFuncao))
    (df : DataFrame) (st : Estado Vinculo)
  : resultado nat * Estado Vinculo :=
  match verificar_colunas df (map fst colunas_necessarias) with
  | Raise e => (Raise e, st)
  | Ok _ =>
      match normalizar df with
      | Raise e => (Raise e, st)
      | Ok rows =>
          match consulta with
          | Raise e => (Raise e, st)
          | Ok todos_cargos =>
              match resolver (mapa_cargos todos_cargos) rows [] st with
              | (Raise e, st1) => (Raise e, st1)
              | (Ok [], st1) => (Ok O, logar LogNenhumVinculo st1)
              | (Ok registros, st1) =>
                  carregar_protegido rejeita conflita registros st1
              end
          end
      end
  end.

End Importador.

End FuncaoCargo.

(** ** The analytics engine, [ServidorAnalytics] *)

Module Insights.

Local Open Scope Q_scope.

Record InsightSummary : Type := mkInsight {
  tipo : string;
  titulo : string;
  valor : string;
  descricao : string;
  periodo : option string
}.

(** A row of [remuneracoes] as the queries read it.  The pay columns
    are [Numeric(10, 2)], which the ORM returns as [Decimal]: an exact
    decimal, kept here as a rational; the column is nullable. *)
Record LinhaRemuneracao : Type := mkLinhaRemuneracao {
  r_id_servidor : Z;
  r_ano : Z;
  r_remuneracao_final : option Q
}.

(** A row of [afastamentos] as the queries read it. *)
Record LinhaAfastamento : Type := mkLinhaAfastamento {
  a_id_servidor : Z;
  a_ano : Z;
  a_mes : Z;
  a_duracao_dias : Z
}.

Record Base : Type := mkBase {
  servidores : list Z;
  remuneracoes : list LinhaRemuneracao;
  afastamentos : list LinhaAfastamento
}.

(** SQL aggregates skip NULL and are NULL over no row. *)
Definition nao_nulos (l : list (option Q)) : list Q :=
  flat_map (fun o => match o with Some q => [q] | None => [] end) l.

Definition sql_min (l : list Q) : option Q :=
  match l with
  | [] => None
  | x :: r => Some (fold_left Qmin r x)
  end.

Definition sql_max (l : list Q) : option Q :=
  match l with
  | [] => None
  | x :: r => Some (fold_left Qmax r x)
  end.

Definition sql_avg (l : list Q) : option Q :=
  match l with
  | [] => None
  | _ :: _ =>
      Some (Qred (fold_left Qplus l 0 / inject_Z (Z.of_nat (length l))))
  end.

Definition sql_sum (l : list Z) : option Z :=
  match l with
  | [] => None
  | _ :: _ => Some (fold_left Z.add l 0%Z)
  end.

(** Truth value of a [Decimal] or [None]. *)
Definition verdade (o : option Q) : bool :=
  match o with
  | Some q => negb (Qeq_bool q 0)
  | None => false
  end.

(** [x or 0]. *)
Definition ou_zero (o : option Q) : Q :=
  match o with
  | Some q => if Qeq_bool q 0 then 0%Q else q
  | None => 0%Q
  end.

(** [round(x, 2)] on a [Decimal]: ties to even. *)
Definition round2 (q : Q) : Q :=
  Qred (inject_Z (PyFloat.round_half_even (q * 100)) / 100).

Record Estatisticas : Type := mkEstatisticas {
  minima : Q;
  maxima : Q;
  media : Q;
  total_registros : nat
}.

Definition do_ano (b : Base) (ano : Z) : list LinhaRemuneracao :=
  filter (fun r => Z.eqb (r_ano r) ano) (remuneracoes b).

Definition texto_disparidade : string :=
  Eval cbv in
    ("A maior remunera" ++ lat 231 ++ lat 227 ++ "o " ++ lat 233 ++ " ")%string.

(** [Decimal] division is taken as exact: the 28 significant digits of
    the default context are not modelled. *)
Definition disparidade (maxima minima : Q) : Q :=
  if Qlt_le_dec 0 minima then (maxima / minima)%Q else 0%Q.

Definition insight_disparidade (ano : Z) (maxima minima : Q) : InsightSummary :=
  let d := PyFloat.format_1f (disparidade maxima minima) in
  mkInsight "remuneracao" "Disparidade Salarial"
    (d ++ "x")
    (texto_disparidade ++ d ++ " vezes maior que a menor")
    (Some (PyStr.str_int ano)).

(** [_analise_remuneracao]: the basic statistics of the year and the
    disparity insight appended to [self.insights].  The two rankings
    of the returned dict (top ten persons, mean pay by role) join
    [servidores] and do not touch the accumulator; they are left out.

<<
      if stats.maxima and stats.minima:
          disparidade = stats.maxima / stats.minima if stats.minima > 0 else 0
          self.insights.append(InsightSummary(
              tipo="remuneracao",
              titulo="Disparidade Salarial",
              valor=f"{disparidade:.1f}x",
              descricao=f"A maior remuneração é {disparidade:.1f} vezes maior que a menor",
              periodo=str(ano)
          ))
>> *)
Definition _analise_remuneracao (b : Base) (ano : Z)
    (insights : list InsightSummary)
  : Estatisticas * list InsightSummary :=
  let linhas_ano := do_ano b ano in
  let pagos := nao_nulos (map r_remuneracao_final linhas_ano) in
  let stats_minima := sql_min pagos in
  let stats_maxima := sql_max pagos in
  let stats_media := sql_avg pagos in
  let insights' :=
    if verdade stats_maxima && verdade stats_minima then
      match stats_maxima, stats_minima with
      | Some mx, Some mn => insights ++ [insight_disparidade ano mx mn]
      | _, _ => insights
      end
    else insights in
  (mkEstatisticas (round2 (ou_zero stats_minima))
     (round2 (ou_zero stats_maxima))
     (round2 (ou_zero stats_media))
     (length linhas_ano),
   insights').

Record ResumoAfastamentos : Type := mkResumoAfastamentos {
  total_afastamentos : nat;
  total_dias_afastamento : Z;
  taxa_afastamento : pyfloat
}.

(** Persons of [servidores] with a pay row in the year, counted once. *)
Definition servidores_ativos (b : Base) (ano : Z) : nat :=
  length
    (nodup Z.eq_dec
       (filter
          (fun i => existsb (fun r => Z.eqb (r_id_servidor r) i && Z.eqb (r_ano r) ano)
                      (remuneracoes b))
          (servidores b))).

(** [(total_afastamentos / servidores_ativos) * 100 if servidores_ativos > 0 else 0],
    in floats. *)
Definition taxa (total ativos : nat) : pyfloat :=
  if Nat.ltb 0 ativos then
    match PyFloat.div (inject_Z (Z.of_nat total)) (inject_Z (Z.of_nat ativos)) with
    | PFin q => PyFloat.mul q 100
    | f => f
    end
  else PFin 0.

Definition texto_taxa (t : pyfloat) : string :=
  match t with
  | PFin q => (PyFloat.format_1f q ++ "%")%string
  | PInf false => "inf%"%string
  | PInf true => "-inf%"%string
  | PNan => "nan%"%string
  end.

Definition descricao_taxa : string :=
  Eval cbv in
    ("Taxa de afastamentos em rela" ++ lat 231 ++ lat 227
       ++ "o aos servidores ativos")%string.

(** [round(taxa, 2)] on a float. *)
Definition round2_float (t : pyfloat) : pyfloat :=
  match t with
  | PFin q => PyFloat.b64 (inject_Z (PyFloat.round_half_even (q * 100)) / 100)
  | f => f
  end.

(** [_analise_afastamentos]: the totals of the year, the rate and its
    insight.  The two grouped listings of the returned dict are left
    out.

<<
      total_afastamentos = self.session.query(Afastamento)\
          .filter(Afastamento.ano == ano).count()
      total_dias_afastamento = self.session.query(func.sum(Afastamento.duracao_dias))\
          .filter(Afastamento.ano == ano).scalar() or 0
>> *)
Definition _analise_afastamentos (b : Base) (ano : Z)
    (insights : list InsightSummary)
  : ResumoAfastamentos * list InsightSummary :=
  let do_ano := filter (fun a => Z.eqb (a_ano a) ano) (afastamentos b) in
  let total := length do_ano in
  let dias :=
    match sql_sum (map a_duracao_dias do_ano) with
    | Some s => s
    | None => 0%Z
    end in
  let t := taxa total (servidores_ativos b ano) in
  (mkResumoAfastamentos total dias (round2_float t),
   insights
     ++ [mkInsight "afastamento" "Taxa de Afastamento" (texto_taxa t)
           descricao_taxa
           (Some (PyStr.str_int ano))]).

End Insights.

(** ** The descriptive statistics of [_gerar_estatisticas_completas] *)

Module Estatisticas.

Local Open Scope Q_scope.

(** The values are finite floats, each given by the rational it is;
    so is a result of [statistics]. *)

Definition soma (l : list Q) : Q := fold_right Qplus 0 l.

(** The conversion of an exact quotient to a float: one rounding, and
    [OverflowError] when it is too large. *)
Definition converter (q : Q) : resultado Q :=
  match PyFloat.b64 q with
  | PFin r => Ok r
  | _ => Raise OverflowError
  end.

(** [statistics.mean]: the exact mean of the values, converted to a
    float; [StatisticsError] on no data. *)
Definition mean (l : list Q) : resultado Q :=
  match l with
  | [] => Raise StatisticsError
  | _ :: _ => converter (soma l / inject_Z (Z.of_nat (length l)))
  end.

(** [max(valores)] and [min(valores)]. *)
Definition maximo (l : list Q) : Q :=
  match l with [] => 0 | x :: r => fold_left Qmax r x end.

Definition minimo (l : list Q) : Q :=
  match l with [] => 0 | x :: r => fold_left Qmin r x end.

Record Descritivas : Type := mkDescritivas {
  media_remuneracao : Q;
  desvio_padrao : Q;
  variancia : Q;
  amplitude : pyfloat;
  coeficiente_variacao : pyfloat
}.

Section Biblioteca.

(** [statistics.stdev] and [statistics.variance], the sample standard
    deviation and the sample variance of the standard library.  How
    they round has changed between versions of CPython, so they stay
    the library's: a finite float, or the exception raised. *)
Variable stdev : list Q -> resultado Q.
Variable variance : list Q -> resultado Q.

(**
<<
  "coeficiente_variacao":
      (statistics.stdev(valores) / statistics.mean(valores)) * 100
      if len(valores) > 1 and statistics.mean(valores) > 0 else 0
>> *)
Definition coeficiente (valores : list Q) : resultado pyfloat :=
  (cond <- (if Nat.ltb 1 (length valores)
            then (m <- mean valores ;; Ok (negb (Qle_bool m 0)))
            else Ok false) ;;
   if cond : bool
   then (s <- stdev valores ;;
         m <- mean valores ;;
         q <- PyFloat.truediv s m ;;
         Ok (PyFloat.vezes q 100))
   else Ok (PFin 0))%res.

(** The dict [resultado["estatisticas_descritivas"]], built under
    [if valores:]; [None] is the dict left unset.  The median and the
    mode are not modelled.

<<
  "media_remuneracao": statistics.mean(valores),
  "desvio_padrao": statistics.stdev(valores) if len(valores) > 1 else 0,
  "variancia": statistics.variance(valores) if len(valores) > 1 else 0,
  "amplitude": max(valores) - min(valores),
>> *)
Definition estatisticas_descritivas (valores : list Q)
  : resultado (option Descritivas) :=
  match valores with
  | [] => Ok None
  | _ :: _ =>
      (media <- mean valores ;;
       dp <- (if Nat.ltb 1 (length valores) then stdev valores else Ok 0) ;;
       var <- (if Nat.ltb 1 (length valores) then variance valores else Ok 0) ;;
       cv <- coeficiente valores ;;
       Ok (Some (mkDescritivas media dp var
                   (PyFloat.b64 (maximo valores - minimo valores)) cv)))%res
  end.

End Biblioteca.

End Estatisticas.

(** * Specification predicates and sample inputs *)

Definition mensagem_coluna (col : string) : excecao :=
  ValueError ("Coluna ausente no CSV: " ++ col)%string.

(** Some required column is absent from the frame. *)
Definition falta (df : DataFrame) (necessarias : list string) : Prop :=
  exists col, In col necessarias /\ tem_coluna df col = false.

(** The call raised the error that names an absent required column and
    left the session and the log as they were. *)
Definition aborta {A} (r : resultado nat * Estado A) (st : Estado A)
    (df : DataFrame) (necessarias : list string) : Prop :=
  exists col,
    In col necessarias /\ tem_coluna df col = false /\
    r = (Raise (mensagem_coluna col), st).

(** A frame with the pay columns but no [MES] column, and a frame with
    no column at all. *)
Definition df_sem_mes : DataFrame :=
  mkDF [ "Id_SERVIDOR_PORTAL"; "ANO"; Remuneracoes.col_remuneracao;
         "IRRF (R$)"; "PSS/RPGS (R$)"; Remuneracoes.col_remuneracao_final ]%string
       [ [Some "12"; Some "2023"; Some "1.000,00"; None; None; Some "900,50"]%string ].

Definition df_vazio : DataFrame := mkDF [] [].

(** The rows a log entry reports as committed. *)
Definition tamanho_confirmado (e : registro_log) : nat :=
  match e with
  | LogLote _ t => t
  | _ => O
  end.

Definition soma_lotes (es : list registro_log) : nat :=
  fold_right (fun e n => tamanho_confirmado e + n)%nat O es.

(** The entry the guarded loop writes for a chunk: the commit with the
    chunk's size, or the error. *)
Definition entrada_do_lote {A} (e : registro_log) (chunk : list A) : Prop :=
  (exists n, e = LogLote n (length chunk)) \/ (exists n, e = LogErroLote n).

(** A session with no uncommitted change, as the endpoint opens it. *)
Definition limpa {A} (st : Estado A) : Prop := visao st = confirmadas st.

(** The pay columns, in the order of the source file. *)
Definition colunas_remuneracoes : list string :=
  [ "Id_SERVIDOR_PORTAL"; "ANO"; "MES"; Remuneracoes.col_remuneracao;
    "IRRF (R$)"; "PSS/RPGS (R$)"; Remuneracoes.col_remuneracao_final ]%string.

(** One well-formed pay row. *)
Definition df_um_pagamento : DataFrame :=
  mkDF colunas_remuneracoes
    [ [Some "12"; Some "2023"; Some "1"; Some "1.000,00"; None; None;
       Some "900,50"]%string ].

(** Two pay rows; the id of the second is the superscript two, the
    Latin-1 byte 0xB2. *)
Definition df_id_sobrescrito : DataFrame :=
  mkDF colunas_remuneracoes
    [ [Some "12"; Some "2023"; Some "1"; Some "1.000,00"; None; None;
       Some "900,50"]%string;
      [Some (lat 178); Some "2023"; Some "1"; Some "1.000,00"; None; None;
       Some "900,50"]%string ].

Definition sem_separador (s : string) : Prop :=
  PyStr.todos (fun c => negb (Ascii.eqb c ".") && negb (Ascii.eqb c ",")) s = true.

(** The non-null net pay of a year, as the aggregates of
    [_analise_remuneracao] see it. *)
Definition pagos (b : Insights.Base) (ano : Z) : list Q :=
  Insights.nao_nulos (map Insights.r_remuneracao_final (Insights.do_ano b ano)).

(** The insight C8 describes: the ratio is max / min whenever both are
    truthy. *)
Definition insight_razao (ano : Z) (maxima minima : Q) : Insights.InsightSummary :=
  let d := PyFloat.format_1f (maxima / minima) in
  Insights.mkInsight "remuneracao" "Disparidade Salarial"
    (d ++ "x")
    (Insights.texto_disparidade ++ d ++ " vezes maior que a menor")
    (Some (PyStr.str_int ano)).

Definition disparidade_declarada (b : Insights.Base) (ano : Z)
    (insights : list Insights.InsightSummary) : Prop :=
  forall mx mn,
    Insights.sql_max (pagos b ano) = Some mx ->
    Insights.sql_min (pagos b ano) = Some mn ->
    Insights.verdade (Some mx) = true ->
    Insights.verdade (Some mn) = true ->
    snd (Insights._analise_remuneracao b ano insights)
    = insights ++ [insight_razao ano mx mn].

(** Person 1 with a net pay of 100.00 and, after a clawback, one of
    -50.00 in 2023. *)
Definition base_negativa : Insights.Base :=
  Insights.mkBase [1]
    [ Insights.mkLinhaRemuneracao 1 2023 (Some (100 # 1));
      Insights.mkLinhaRemuneracao 1 2023 (Some (-50 # 1)) ]
    [].

(** The absence table holds only what [importar_afastamentos_dataframe]
    wrote: it started empty and every later state is the one a call of
    the importer left, whatever the frame and whatever the store did
    during that call. *)
Inductive so_importador (data : Type)
    (strptime : string -> string -> resultado data)
  : Estado (Afastamentos.Afastamento data) -> Prop :=
| so_vazio : forall l, so_importador strptime (mkEstado [] [] l)
| so_importa : forall rejeita conflita df st,
    so_importador strptime st ->
    so_importador strptime
      (snd (Afastamentos.importar_afastamentos_dataframe strptime
              rejeita conflita df st)).

(** The columns of an absence row the analytics queries read. *)
Definition linha_afastamento (data : Type) (a : Afastamentos.Afastamento data)
  : Insights.LinhaAfastamento :=
  Insights.mkLinhaAfastamento (Afastamentos.id_servidor a)
    (Afastamentos.ano a) (Afastamentos.mes a) (Afastamentos.duracao_dias a).

Definition df_um_afastamento : DataFrame :=
  mkDF [ "Id_SERVIDOR_PORTAL"; "ANO"; "MES"; "DATA_INICIO_AFASTAMENTO" ]%string
       [ [Some "12"; Some "2023"; Some "3"; None]%string;
         [Some "15"; Some "2023"; Some "4"; None]%string ].

(** A role-catalogue frame whose second row repeats the first. *)
Definition df_cargos_repetidos : DataFrame :=
  mkDF [ "CLASSE_CARGO"; "REFERENCIA_CARGO"; "PADRAO_CARGO"; "NIVEL_CARGO";
         "FUNCAO"; "DESCRICAO_CARGO"; "NIVEL_FUNCAO" ]%string
       [ [Some "A"; Some "1"; Some "2"; Some "3"; None; Some "ANALISTA"; None]%string;
         [Some "A"; Some "1"; Some "2"; Some "3"; None; Some " ANALISTA "; None]%string;
         [Some "B"; Some "1"; Some "2"; Some "3"; None; Some "TECNICO"; None]%string ].

(** A role-catalogue frame of four rows with one description: the
    second row repeats the first, the third differs from it in the last
    field alone, the fourth in the first field alone. *)
Definition df_cargos_mesma_descricao : DataFrame :=
  mkDF [ "CLASSE_CARGO"; "REFERENCIA_CARGO"; "PADRAO_CARGO"; "NIVEL_CARGO";
         "FUNCAO"; "DESCRICAO_CARGO"; "NIVEL_FUNCAO" ]%string
       [ [Some "A"; Some "1"; Some "2"; Some "3"; Some "CHEFE"; Some "ANALISTA";
          Some "4"]%string;
         [Some " A"; Some "1.0"; Some "2"; Some "3"; Some "CHEFE"; Some "ANALISTA ";
          Some "4"]%string;
         [Some "A"; Some "1"; Some "2"; Some "3"; Some "CHEFE"; Some "ANALISTA";
          Some "5"]%string;
         [Some "B"; Some "1"; Some "2"; Some "3"; Some "CHEFE"; Some "ANALISTA";
          Some "4"]%string ].

(** The texts of the seven key columns of a cleaned row after
    [astype(str)], in the order the key lists them. *)
Definition campos_da_chave (str_coluna : list (option Z) -> option Z -> string)
    (limpas : list CargosFuncoes.Registro) (r : CargosFuncoes.Registro)
  : list string :=
  [ CargosFuncoes.str_obj (CargosFuncoes.classe_cargo r);
    str_coluna (map CargosFuncoes.referencia_cargo limpas)
      (CargosFuncoes.referencia_cargo r);
    str_coluna (map CargosFuncoes.padrao_cargo limpas)
      (CargosFuncoes.padrao_cargo r);
    str_coluna (map CargosFuncoes.nivel_cargo limpas)
      (CargosFuncoes.nivel_cargo r);
    CargosFuncoes.str_obj (CargosFuncoes.funcao r);
    CargosFuncoes.descricao_cargo r;
    str_coluna (map CargosFuncoes.nivel_funcao limpas)
      (CargosFuncoes.nivel_funcao r) ].

(** A text in which the separator of the key does not occur. *)
Definition sem_barra (s : string) : Prop :=
  PyStr.todos (fun c => negb (Ascii.eqb c "|")) s = true.

(** One possible rendering of a numeric column. *)
Definition str_coluna_simples (_ : list (option Z)) (v : option Z) : string :=
  match v with
  | Some z => PyStr.str_int z
  | None => "nan"%string
  end.

Definition cargo_analista : CargosFuncoes.Registro :=
  CargosFuncoes.mkRegistro (Some "A"%string) (Some 1) (Some 2) (Some 3) None
    "ANALISTA"%string None.

Definition cargo_tecnico : CargosFuncoes.Registro :=
  CargosFuncoes.mkRegistro (Some "B"%string) (Some 1) (Some 2) (Some 3) None
    "TECNICO"%string None.

Definition chefe_a4 : CargosFuncoes.Registro :=
  CargosFuncoes.mkRegistro (Some "A"%string) (Some 1) (Some 2) (Some 3)
    (Some "CHEFE"%string) "ANALISTA"%string (Some 4).

Definition chefe_a5 : CargosFuncoes.Registro :=
  CargosFuncoes.mkRegistro (Some "A"%string) (Some 1) (Some 2) (Some 3)
    (Some "CHEFE"%string) "ANALISTA"%string (Some 5).

Definition chefe_b4 : CargosFuncoes.Registro :=
  CargosFuncoes.mkRegistro (Some "B"%string) (Some 1) (Some 2) (Some 3)
    (Some "CHEFE"%string) "ANALISTA"%string (Some 4).

(** Two cleaned rows that differ in two fields and have one key: the
    separator occurs inside a field. *)
Definition barra_na_funcao : CargosFuncoes.Registro :=
  CargosFuncoes.mkRegistro None None None None (Some "a|b"%string) "c"%string None.

Definition barra_na_descricao : CargosFuncoes.Registro :=
  CargosFuncoes.mkRegistro None None None None (Some "a"%string) "b|c"%string None.

(** The catalogue entry with tuple [k] that the loading loop meets
    last. *)
Definition ultimo (k : FuncaoCargo.chave) (todos : list Catalogo.CargoFuncao)
  : option Catalogo.CargoFuncao :=
  find (fun c => FuncaoCargo.chave_eqb (FuncaoCargo.chave_cargo c) k) (rev todos).

Section Reconciliacao.

Variable data : Type.

(** What one normalised row contributes to the batch handed to the
    loader: the resolved record when an entry has its tuple, nothing
    otherwise. *)
Definition emitido (todos : list Catalogo.CargoFuncao)
    (row : FuncaoCargo.Linha data) : list (FuncaoCargo.Vinculo data) :=
  match FuncaoCargo.valores row with
  | Ok k =>
      match ultimo k todos with
      | Some c =>
          [FuncaoCargo.mkVinculo (FuncaoCargo.l_id_servidor row)
             (Catalogo.id_cargo_funcao c)
             (FuncaoCargo.l_data_ingresso_funcao row)]
      | None => []
      end
  | Raise _ => []
  end.

(** What one normalised row contributes to the log: the warning when
    no entry has its tuple. *)
Definition aviso (todos : list Catalogo.CargoFuncao)
    (row : FuncaoCargo.Linha data) : list registro_log :=
  match FuncaoCargo.valores row with
  | Ok (c, p, n, d) =>
      match ultimo (c, p, n, d) todos with
      | Some _ => []
      | None =>
          [LogSkip (FuncaoCargo.l_id_servidor row) (FuncaoCargo.texto_valor d)]
      end
  | Raise _ => []
  end.

(** Every field of the row can be cleaned: no numeric field passes
    [str.isdigit] and fails [int]. *)
Definition limpavel (row : FuncaoCargo.Linha data) : Prop :=
  exists k, FuncaoCargo.valores row = Ok k.

(** C2 as stated, on the persistence of a matched row: the resolved
    record is among the durable rows when the import returns. *)
Definition casada_persistida
    (strptime : string -> string -> resultado data)
    (rejeita : list (FuncaoCargo.Vinculo data) -> list (FuncaoCargo.Vinculo data) -> bool)
    (conflita : list (FuncaoCargo.Vinculo data) -> FuncaoCargo.Vinculo data -> bool)
    (todos : list Catalogo.CargoFuncao) (df : DataFrame)
    (st : Estado (FuncaoCargo.Vinculo data)) : Prop :=
  forall rows row k c,
    FuncaoCargo.normalizar strptime df = Ok rows ->
    In row rows ->
    FuncaoCargo.valores row = Ok k ->
    In c todos -> FuncaoCargo.chave_cargo c = k ->
    exists c',
      In c' todos /\ FuncaoCargo.chave_cargo c' = k
      /\ In (FuncaoCargo.mkVinculo (FuncaoCargo.l_id_servidor row)
               (Catalogo.id_cargo_funcao c')
               (FuncaoCargo.l_data_ingresso_funcao row))
           (confirmadas
              (snd (FuncaoCargo.importar_funcaocargo_dataframe strptime
                      rejeita conflita (Ok todos) df st))).

End Reconciliacao.

(** A catalogue with two entries of one tuple and a third entry. *)
Definition catalogo_exemplo : list Catalogo.CargoFuncao :=
  [ Catalogo.mkCargoFuncao 7 (Some "A"%string) (Some 1) (Some 2) (Some 3) None
      "ANALISTA"%string None;
    Catalogo.mkCargoFuncao 8 (Some "B"%string) None (Some 2) (Some 3) None
      "TECNICO"%string None;
    Catalogo.mkCargoFuncao 9 (Some "A"%string) (Some 5) (Some 2) (Some 3) None
      "ANALISTA"%string (Some 4) ].

Definition chave_analista : FuncaoCargo.chave :=
  (Some (FuncaoCargo.VStr "A"), Some (FuncaoCargo.VInt 2),
   Some (FuncaoCargo.VInt 3), Some (FuncaoCargo.VStr "ANALISTA")).

(** Two assignment rows: person 12 as "ANALISTA", person 15 with a role
    the catalogue does not hold. *)
Definition df_vinculos : DataFrame :=
  mkDF [ "Id_SERVIDOR_PORTAL"; "DATA_INGRESSO_CARGOFUNCAO"; "CLASSE_CARGO";
         "REFERENCIA_CARGO"; "PADRAO_CARGO"; "NIVEL_CARGO"; "FUNCAO";
         "DESCRICAO_CARGO"; "NIVEL_FUNCAO" ]%string
       [ [Some "12"; None; Some "A"; Some "1"; Some "2"; Some "3"; None;
          Some "ANALISTA"; None]%string;
         [Some "15"; None; Some "C"; Some "1"; Some "2"; Some "3"; None;
          Some "MOTORISTA"; None]%string ].

Definition sem_data : string -> string -> resultado unit :=
  fun _ _ => Raise (ValueError EmptyString).

Definition linha_analista : FuncaoCargo.Linha unit :=
  FuncaoCargo.mkLinha 12 None (Some "A"%string) (Some "2"%string)
    (Some "3"%string) (Some "ANALISTA"%string).

Definition linha_motorista : FuncaoCargo.Linha unit :=
  FuncaoCargo.mkLinha 15 None (Some "C"%string) (Some "2"%string)
    (Some "3"%string) (Some "MOTORISTA"%string).

(** * Further specification predicates *)

(** No statement of the store fails. *)
Definition nunca_rejeita {A} (rejeita : list A -> list A -> bool) : Prop :=
  forall t chunk, rejeita t chunk = false.

(** The conflict clause skips every row. *)
Definition sempre_conflita {A} (conflita : list A -> A -> bool) : Prop :=
  forall t r, conflita t r = true.

(** An exception that comes from the input data: a missing column or a
    text that is not an integer, as opposed to a failure of the
    store. *)
Definition erro_de_dados (e : excecao) : Prop :=
  match e with
  | ValueError _ | OverflowError => True
  | _ => False
  end.

(** A text of [n] copies of one character, and one of 4301 decimal
    digits. *)
Fixpoint repetir (n : nat) (c : ascii) : string :=
  match n with
  | O => EmptyString
  | S k => String c (repetir k c)
  end.

Definition muitos_digitos : string := repetir 4301 "1".

(** A warning for a row left out. *)
Definition e_aviso (e : registro_log) : Prop :=
  match e with
  | LogSkip _ _ => True
  | _ => False
  end.

(** ** More of [ServidorAnalytics] *)

Module Relatorio.

Local Open Scope Q_scope.

(** The dict [_resumo_geral] returns.  The counts are Python [int]s,
    the two pay figures are [Decimal]s (or the [int] 0 of [or 0]), the
    rate is a [float] (or the [int] 0 of its [else]). *)
Record Resumo : Type := mkResumo {
  total_servidores : nat;
  servidores_ativos : nat;
  total_remuneracao : Q;
  media_remuneracao : Q;
  taxa_atividade : pyfloat
}.

(** [func.sum] over a [Numeric] column: NULL over no row. *)
Definition sql_sum_q (l : list Q) : option Q :=
  match l with
  | [] => None
  | _ :: _ => Some (Qred (fold_left Qplus l 0))
  end.

(** [round((servidores_ativos / total_servidores) * 100, 2) if total_servidores > 0 else 0] *)
Definition atividade (ativos total : nat) : pyfloat :=
  if Nat.ltb 0 total then
    match PyFloat.div (inject_Z (Z.of_nat ativos)) (inject_Z (Z.of_nat total)) with
    | PFin q => Insights.round2_float (PyFloat.mul q 100)
    | f => f
    end
  else PFin 0.

(** The insight of [_resumo_geral].  Its [valor] is the [int]
    [servidores_ativos]; the record keeps its [str], which is what the
    endpoints and the text report make of it. *)
Definition insight_geral (total ativos : nat) (ano : Z)
  : Insights.InsightSummary :=
  Insights.mkInsight "geral" "Total de Servidores Ativos"
    (PyStr.str_int (Z.of_nat ativos))
    ("De " ++ PyStr.str_int (Z.of_nat total) ++ " servidores cadastrados, "
       ++ PyStr.str_int (Z.of_nat ativos) ++ " estiveram ativos em "
       ++ PyStr.str_int ano)%string
    (Some (PyStr.str_int ano)).

(**
<<
  total_servidores = self.session.query(Servidor).count()
  servidores_ativos = self.session.query(Servidor.id_servidor)\
      .join(Remuneracao).filter(Remuneracao.ano == ano).distinct().count()
  total_remuneracao = self.session.query(func.sum(Remuneracao.remuneracao_final))\
      .filter(Remuneracao.ano == ano).scalar() or 0
  media_remuneracao = self.session.query(func.avg(Remuneracao.remuneracao_final))\
      .filter(Remuneracao.ano == ano).scalar() or 0
  self.insights.append(InsightSummary(...))
  return {
      'total_servidores': total_servidores,
      'servidores_ativos': servidores_ativos,
      'total_remuneracao': round(total_remuneracao, 2),
      'media_remuneracao': round(media_remuneracao, 2),
      'taxa_atividade': round((servidores_ativos / total_servidores) * 100, 2) if total_servidores > 0 else 0
  }
>> *)
Definition _resumo_geral (b : Insights.Base) (ano : Z)
    (insights : list Insights.InsightSummary)
  : Resumo * list Insights.InsightSummary :=
  let total := length (Insights.servidores b) in
  let ativos := Insights.servidores_ativos b ano in
  let pagos :=
    Insights.nao_nulos
      (map Insights.r_remuneracao_final (Insights.do_ano b ano)) in
  let total_remuneracao := Insights.ou_zero (sql_sum_q pagos) in
  let media_remuneracao := Insights.ou_zero (Insights.sql_avg pagos) in
  (mkResumo total ativos
     (Insights.round2 total_remuneracao)
     (Insights.round2 media_remuneracao)
     (atividade ativos total),
   insights ++ [insight_geral total ativos ano]).

(** What [gerar_relatorio_completo] puts in its dict, for the entries
    modelled here.  The entry ['insights'] is [self.insights] itself,
    the accumulator as the three analyses leave it; the second
    component is that accumulator, which stays with the object.  The
    rankings, the organisational distribution and the charts do not
    touch it. *)
Record RelatorioCompleto : Type := mkRelatorio {
  periodo : string;
  resumo_geral : Resumo;
  analise_remuneracao : Insights.Estatisticas;
  analise_afastamentos : Insights.ResumoAfastamentos;
  insights : list Insights.InsightSummary
}.

Definition gerar_relatorio_completo (b : Insights.Base) (ano : Z)
    (acumulado : list Insights.InsightSummary)
  : RelatorioCompleto * list Insights.InsightSummary :=
  let '(resumo, i1) := _resumo_geral b ano acumulado in
  let '(estatisticas, i2) := Insights._analise_remuneracao b ano i1 in
  let '(afastamentos, i3) := Insights._analise_afastamentos b ano i2 in
  (mkRelatorio ("Ano " ++ PyStr.str_int ano) resumo estatisticas afastamentos i3,
   i3).

End Relatorio.

(** ** More of the analytics endpoints *)

Module Api.

Local Open Scope Q_scope.

(** The answer of an endpoint: the body, or the status of the
    [HTTPException] that [except Exception] raises; its detail text is
    not modelled. *)
Inductive resposta (A : Type) : Type :=
| Http200 (corpo : A)
| Http500.

Arguments Http200 {A} corpo.
Arguments Http500 {A}.

Record Comparativo : Type := mkComparativo {
  periodo_comparacao : string;
  diferenca_servidores_ativos : Z;
  diferenca_remuneracao_media : Q;
  percentual_variacao_remuneracao : Q;
  resumo_ano1 : Relatorio.Resumo;
  resumo_ano2 : Relatorio.Resumo
}.

(** [comparativo_anos].  [falha ano] says that a part of the report of
    that year that is not modelled raises (a ranking that rounds the
    mean of a group with no pay value, a failure of the store); the
    exception ends in the [except] like any other.  The object is
    fresh for the first report and its accumulator is cleared before
    the second.  The division is a [Decimal] division (or an [int]
    one when both means are the [int] 0), which raises on a zero
    divisor; as elsewhere it is taken as exact.

<<
  relatorio1 = analytics.gerar_relatorio_completo(ano1)
  analytics.insights.clear()
  relatorio2 = analytics.gerar_relatorio_completo(ano2)
  diferenca_servidores = (relatorio2['resumo_geral']['servidores_ativos'] -
                          relatorio1['resumo_geral']['servidores_ativos'])
  diferenca_remuneracao = (relatorio2['resumo_geral']['media_remuneracao'] -
                           relatorio1['resumo_geral']['media_remuneracao'])
  percentual_variacao = (diferenca_remuneracao / relatorio1['resumo_geral']['media_remuneracao']) * 100
>> *)
Definition comparativo_anos (falha : Z -> bool) (b : Insights.Base)
    (ano1 ano2 : Z) : resposta Comparativo :=
  if falha ano1 then Http500
  else
    let relatorio1 := fst (Relatorio.gerar_relatorio_completo b ano1 []) in
    if falha ano2 then Http500
    else
      let relatorio2 := fst (Relatorio.gerar_relatorio_completo b ano2 []) in
      let r1 := Relatorio.resumo_geral relatorio1 in
      let r2 := Relatorio.resumo_geral relatorio2 in
      let diferenca_servidores :=
        (Z.of_nat (Relatorio.servidores_ativos r2)
         - Z.of_nat (Relatorio.servidores_ativos r1))%Z in
      let diferenca_remuneracao :=
        Relatorio.media_remuneracao r2 - Relatorio.media_remuneracao r1 in
      if Qeq_bool (Relatorio.media_remuneracao r1) 0 then Http500
      else
        let percentual_variacao :=
          diferenca_remuneracao / Relatorio.media_remuneracao r1 * 100 in
        Http200
          (mkComparativo
             (PyStr.str_int ano1 ++ " vs " ++ PyStr.str_int ano2)%string
             diferenca_servidores
             (Insights.round2 diferenca_remuneracao)
             (Insights.round2 percentual_variacao)
             r1 r2).

(** ** [_interpretar_correlacao] *)

(** [abs(x)] on a float. *)
Definition abs (x : pyfloat) : pyfloat :=
  match x with
  | PFin q => PFin (Qabs q)
  | PInf _ => PInf false
  | PNan => PNan
  end.

(** [x >= y] and [x > y] on floats: false when either is NaN. *)
Definition ge (x y : pyfloat) : bool :=
  match x, y with
  | PNan, _ | _, PNan => false
  | PFin a, PFin c => Qle_bool c a
  | PInf false, _ => true
  | PInf true, PInf true => true
  | PInf true, _ => false
  | PFin _, PInf neg => neg
  end.

Definition gt (x y : pyfloat) : bool :=
  match x, y with
  | PNan, _ | _, PNan => false
  | PFin a, PFin c => negb (Qle_bool a c)
  | PInf false, PInf false => false
  | PInf false, _ => true
  | PInf true, _ => false
  | PFin _, PInf neg => neg
  end.

Inductive Intensidade : Type :=
| MuitoFraca | Fraca | Moderada | Forte | MuitoForte.

Definition texto_intensidade (i : Intensidade) : string :=
  match i with
  | MuitoForte => "muito forte"
  | Forte => "forte"
  | Moderada => "moderada"
  | Fraca => "fraca"
  | MuitoFraca => "muito fraca"
  end.

Definition intensidade (coeficiente : pyfloat) : Intensidade :=
  let abs_coef := abs coeficiente in
  if ge abs_coef (PyFloat.literal (9 # 10)) then MuitoForte
  else if ge abs_coef (PyFloat.literal (7 # 10)) then Forte
  else if ge abs_coef (PyFloat.literal (5 # 10)) then Moderada
  else if ge abs_coef (PyFloat.literal (3 # 10)) then Fraca
  else MuitoFraca.

Definition direcao (coeficiente : pyfloat) : string :=
  if gt coeficiente (PFin 0) then "positiva"%string else "negativa"%string.

Definition correlacao : string :=
  Eval cbv in ("Correla" ++ lat 231 ++ lat 227 ++ "o")%string.

(**
<<
  def _interpretar_correlacao(coeficiente: float) -> str:
      abs_coef = abs(coeficiente)
      if abs_coef >= 0.9:
          intensidade = "muito forte"
      elif abs_coef >= 0.7:
          intensidade = "forte"
      elif abs_coef >= 0.5:
          intensidade = "moderada"
      elif abs_coef >= 0.3:
          intensidade = "fraca"
      else:
          intensidade = "muito fraca"
      direcao = "positiva" if coeficiente > 0 else "negativa"
      return f"Correlação {intensidade} {direcao}"
>> *)
Definition _interpretar_correlacao (coeficiente : pyfloat) : string :=
  (correlacao ++ " " ++ texto_intensidade (intensidade coeficiente)
     ++ " " ++ direcao coeficiente)%string.

(** [-x] on a float. *)
Definition neg (x : pyfloat) : pyfloat :=
  match x with
  | PFin q => PFin (- q)
  | PInf s => PInf (negb s)
  | PNan => PNan
  end.

End Api.

(** The order of the intensities, weakest first. *)
Definition grau (i : Api.Intensidade) : nat :=
  match i with
  | Api.MuitoFraca => 0
  | Api.Fraca => 1
  | Api.Moderada => 2
  | Api.Forte => 3
  | Api.MuitoForte => 4
  end.

(** The year has no pay value, or its pay values add up to zero. *)
Definition sem_pagamento (b : Insights.Base) (ano : Z) : Prop :=
  (fold_left Qplus (pagos b ano) 0 == 0)%Q.

(** Person 1 with a net pay of 3000.00 in 2023 and nothing in 2022;
    person 2 without any pay. *)
Definition base_um_pagamento : Insights.Base :=
  Insights.mkBase [1; 2]
    [ Insights.mkLinhaRemuneracao 1 2023 (Some (3000 # 1)) ]
    [].

(** The text fields of a role record as [limpar_str] and [str.strip]
    leave them. *)
Definition texto_limpo (r : CargosFuncoes.Registro) : Prop :=
  PyStr.strip (CargosFuncoes.descricao_cargo r) = CargosFuncoes.descricao_cargo r
  /\ (forall v, CargosFuncoes.classe_cargo r = Some v ->
                CargosFuncoes.limpar_str (Some v) = Some v)
  /\ (forall v, CargosFuncoes.funcao r = Some v ->
                CargosFuncoes.limpar_str (Some v) = Some v).

(** A role frame with every column and a single row, whose description
    has surrounding blanks. *)
Definition df_um_cargo : DataFrame :=
  mkDF [ "CLASSE_CARGO"; "REFERENCIA_CARGO"; "PADRAO_CARGO"; "NIVEL_CARGO";
         "FUNCAO"; "DESCRICAO_CARGO"; "NIVEL_FUNCAO" ]%string
       [ [Some " A "; Some "1"; Some "2"; Some "3"; None; Some " ANALISTA ";
          None]%string ].

(** A role frame with every column and no row, as a file that holds
    the header line alone gives. *)
Definition df_cargos_sem_linhas : DataFrame :=
  mkDF [ "CLASSE_CARGO"; "REFERENCIA_CARGO"; "PADRAO_CARGO"; "NIVEL_CARGO";
         "FUNCAO"; "DESCRICAO_CARGO"; "NIVEL_FUNCAO" ]%string
       [].

(** A person frame in which the same person comes twice, the second
    time with a leading zero in the id. *)
Definition df_id_com_zero : DataFrame :=
  mkDF [ "Id_SERVIDOR_PORTAL"; "NOME"; "CPF"; "DESCRICAO_CARGO";
         "ORGSUP_EXERCICIO"; "ORG_EXERCICIO"; "REGIME_JURIDICO";
         "JORNADA_DE_TRABALHO" ]%string
       [ [Some "7"; Some " ANA "; None; None; None; None; None; None]%string;
         [Some "07"; Some "ANA"; None; None; None; None; None; None]%string ].

(** ** The upload endpoint of the pay importer *)

Module Endpoint.

(** [s.endswith(suf)]. *)
Fixpoint endswith (suf s : string) : bool :=
  String.eqb s suf ||
  match s with
  | EmptyString => false
  | String _ r => endswith suf r
  end.

(** What the endpoint answers: the body of the 200, or the
    [HTTPException] with its status; the detail of the 500 is
    [f"Erro interno: {e}"], kept here as the exception [e]. *)
Inductive Resposta : Type :=
| Sucesso (mensagem : string)
| Erro400 (detail : string)
| Erro500 (e : excecao).

Definition mensagem_sucesso (total : nat) : string :=
  (PyStr.str_int (Z.of_nat total) ++ " remunera" ++ lat 231 ++ lat 245
     ++ "es importadas com sucesso!")%string.

Section Importar.

(** [pd.read_csv(StringIO(...), dtype=str, sep=";")] on the decoded
    upload; its errors ([EmptyDataError], [ParserError]) are
    [ValueError]s. *)
Variable read_csv : string -> resultado DataFrame.

Variables (rejeita : list Remuneracoes.Remuneracao
                     -> list Remuneracoes.Remuneracao -> bool)
          (conflita : list Remuneracoes.Remuneracao
                      -> Remuneracoes.Remuneracao -> bool).

(** Leaving [with ... as session] closes the session, which rolls back
    what is not committed.

<<
  if not arquivo.filename.endswith(".csv"):
      raise HTTPException(status_code=400, detail="O arquivo deve ser um CSV.")
  try:
      conteudo = await arquivo.read()
      df = pd.read_csv(StringIO(conteudo.decode("latin1")), dtype=str, sep=";")
      with next(get_session()) as session:
          total = importar_remuneracoes_dataframe(df, session)
      return {"mensagem": f"{total} remunerações importadas com sucesso!"}
  except Exception as e:
      logger.exception("Erro ao importar remunerações via API")
      raise HTTPException(status_code=500, detail=f"Erro interno: {e}")
>> *)
Definition importar_remuneracoes_csv_api (filename conteudo : string)
    (st : Estado Remuneracoes.Remuneracao)
  : Resposta * Estado Remuneracoes.Remuneracao :=
  if negb (endswith ".csv" filename)
  then (Erro400 "O arquivo deve ser um CSV.", st)
  else
    match read_csv conteudo with
    | Raise e => (Erro500 e, st)
    | Ok df =>
        match Remuneracoes.importar_remuneracoes_dataframe rejeita conflita df st with
        | (Ok total, st') => (Sucesso (mensagem_sucesso total), rollback st')
        | (Raise e, st') => (Erro500 e, rollback st')
        end
    end.

End Importar.

End Endpoint.

(** ** The charts *)

Module Graficos.

(** The five drawing methods of [ServidorAnalytics]. *)
Inductive Metodo : Type :=
| EvolucaoRemuneracao
| RemuneracaoPorCargo
| AfastamentosMensais
| DistribuicaoOrganizacional
| RemuneracaoVsAfastamentos.

Section Desenho.

(** A drawing method queries the store and draws with matplotlib: it
    saves its file, or returns without one when the query has too few
    rows, or raises.  [desenhar m ano] is whether the call returns;
    [_grafico_distribuicao_organizacional] takes no year. *)
Variable desenhar : Metodo -> option Z -> resultado unit.

Definition chamar (m : Metodo) (ano : Z) : resultado unit :=
  match m with
  | DistribuicaoOrganizacional => desenhar m None
  | _ => desenhar m (Some ano)
  end.

(** The calls of [_gerar_graficos], in order, each with the name it
    appends. *)
Definition passos : list (Metodo * string) :=
  [ (EvolucaoRemuneracao, "evolucao_remuneracao_mensal.png");
    (RemuneracaoPorCargo, "remuneracao_por_cargo.png");
    (AfastamentosMensais, "afastamentos_por_mes.png");
    (DistribuicaoOrganizacional, "distribuicao_organizacional.png");
    (RemuneracaoVsAfastamentos, "remuneracao_vs_afastamentos.png") ]%string.

(** The body of the [try]: the first exception ends it, and the
    [except] returns what was appended so far. *)
Fixpoint executar (ps : list (Metodo * string)) (ano : Z)
    (graficos_gerados : list string) : list string :=
  match ps with
  | [] => graficos_gerados
  | (m, nome) :: resto =>
      match chamar m ano with
      | Ok _ => executar resto ano (graficos_gerados ++ [nome])
      | Raise _ => graficos_gerados
      end
  end.

Definition _gerar_graficos (ano : Z) : list string := executar passos ano [].

Definition graficos_map (tipo : string) : option Metodo :=
  if String.eqb tipo "remuneracao" then Some EvolucaoRemuneracao
  else if String.eqb tipo "cargos" then Some RemuneracaoPorCargo
  else if String.eqb tipo "afastamentos" then Some AfastamentosMensais
  else if String.eqb tipo "organizacional" then Some DistribuicaoOrganizacional
  else if String.eqb tipo "correlacao" then Some RemuneracaoVsAfastamentos
  else None.

Definition arquivo_map (tipo : string) : option string :=
  if String.eqb tipo "remuneracao" then Some "evolucao_remuneracao_mensal.png"%string
  else if String.eqb tipo "cargos" then Some "remuneracao_por_cargo.png"%string
  else if String.eqb tipo "afastamentos" then Some "afastamentos_por_mes.png"%string
  else if String.eqb tipo "correlacao" then Some "remuneracao_vs_afastamentos.png"%string
  else None.

(**
<<
  if tipo in graficos_map:
      if tipo == "organizacional":
          graficos_map[tipo]()
          return "distribuicao_organizacional.png"
      else:
          graficos_map[tipo](ano)
      arquivo_map = {...}
      return arquivo_map.get(tipo, f"{tipo}_{ano}.png")
  return None
>> *)
Definition _gerar_grafico_especifico (ano : Z) (tipo : string)
  : resultado (option string) :=
  match graficos_map tipo with
  | Some m =>
      if String.eqb tipo "organizacional" then
        (_ <- desenhar m None ;;
         Ok (Some "distribuicao_organizacional.png"%string))%res
      else
        (_ <- desenhar m (Some ano) ;;
         Ok (Some (match arquivo_map tipo with
                   | Some nome => nome
                   | None => (tipo ++ "_" ++ PyStr.str_int ano ++ ".png")%string
                   end)))%res
  | None => Ok None
  end.

End Desenho.

End Graficos.

(** Drawing methods of which the third, the monthly absences, raises
    and the others return. *)
Definition so_dois_desenhos (m : Graficos.Metodo) (_ : option Z) : resultado unit :=
  match m with
  | Graficos.AfastamentosMensais => Raise DBAPIError
  | _ => Ok tt
  end.


(** ** The statistics export, [download_estatisticas_csv] *)

Module Csv.

(** The end of every number formatting of the export:
<<
  f"{valor:,.2f}".replace(',', 'X').replace('.', ',').replace('X', '.')
>> *)
Definition formato_br (s : string) : string :=
  PyStr.replace "X" "." (PyStr.replace "." "," (PyStr.replace "," "X" s)).

(** What is raised inside the endpoint's [try]: the [HTTPException] of
    its own validation, or anything else. *)
Inductive Levantada : Type :=
| HTTPException (status_code : nat) (detail : string)
| Outra (e : excecao).

Inductive Resposta : Type :=
| Arquivo (caminho : string)
| Http (status_code : nat) (detail : string).

Definition agrupamentos_validos : list string :=
  ["cargo"; "orgao"; "mes"; "servidor"]%string.

(** [mapeamento_colunas] of [_gerar_analise_por_grupo]. *)
Definition mapeamento_colunas (agrupar_por : string) : option string :=
  if String.eqb agrupar_por "cargo" then Some "s.descr_cargo"%string
  else if String.eqb agrupar_por "orgao" then Some "s.org_exercicio"%string
  else if String.eqb agrupar_por "mes" then Some "r.mes"%string
  else if String.eqb agrupar_por "servidor"
       then Some "CONCAT(s.nome, ' (ID: ', s.id_servidor, ')')"%string
  else None.

Definition detalhe_agrupamento : string :=
  Eval cbv in
    ("Agrupamento inv" ++ lat 225 ++ "lido. Use: cargo, orgao, mes, servidor")%string.

Definition prefixo_erro : string :=
  Eval cbv in ("Erro ao gerar CSV estat" ++ lat 237 ++ "stico: ")%string.

Section Download.

(** What follows the validation: the statistics are computed and the
    file is written; the result is its path. *)
Variable gerar : string -> resultado string.

(** [str(e)]. *)
Variable str : Levantada -> string.

(** The body of the [try]. *)
Definition corpo (agrupar_por : string) : Levantada + string :=
  if negb (PyStr.membro agrupar_por agrupamentos_validos)
  then inl (HTTPException 400 detalhe_agrupamento)
  else
    match gerar agrupar_por with
    | Ok caminho => inr caminho
    | Raise e => inl (Outra e)
    end.

(**
<<
  try:
      ...
      if agrupar_por not in agrupamentos_validos:
          raise HTTPException(status_code=400, detail=...)
      ...
      return FileResponse(caminho_arquivo, ...)
  except Exception as e:
      raise HTTPException(status_code=500, detail=f"Erro ao gerar CSV estatístico: {str(e)}")
>> *)
Definition download_estatisticas_csv (agrupar_por : string) : Resposta :=
  match corpo agrupar_por with
  | inr caminho => Arquivo caminho
  | inl e => Http 500 (prefixo_erro ++ str e)
  end.

End Download.

End Csv.

(** Character by character: commas and dots trade places. *)
Definition trocar_c (c : ascii) : ascii :=
  if Ascii.eqb c "," then "."%char
  else if Ascii.eqb c "." then ","%char
  else c.

Fixpoint trocar (s : string) : string :=
  match s with
  | EmptyString => EmptyString
  | String c r => String (trocar_c c) (trocar r)
  end.

Definition sem_X (s : string) : Prop :=
  PyStr.todos (fun c => negb (Ascii.eqb c "X")) s = true.

(** ** The methods of the [Afastamento] model *)

Module ModeloAfastamento.

Section Metodos.

Variable data : Type.

(** [d + timedelta(days=n)]. *)
Variable mais_dias : data -> Z -> data.

(**
<<
  @property
  def data_fim_calculada(self) -> Optional[date]:
      if self.inicio_afastamento and self.duracao_dias:
          from datetime import timedelta
          return self.inicio_afastamento + timedelta(days=self.duracao_dias - 1)
      return None
>>
    A [date] is always truthy. *)
Definition data_fim_calculada (a : Afastamentos.Afastamento data)
  : option data :=
  match Afastamentos.inicio_afastamento a with
  | Some d =>
      if Z.eqb (Afastamentos.duracao_dias a) 0 then None
      else Some (mais_dias d (Afastamentos.duracao_dias a - 1))
  | None => None
  end.

(** [return self.duracao_dias > limite_dias] *)
Definition is_afastamento_longo (a : Afastamentos.Afastamento data)
    (limite_dias : Z) : bool :=
  Z.ltb limite_dias (Afastamentos.duracao_dias a).

End Metodos.

End ModeloAfastamento.

(** One absence row with its start date. *)
Definition df_afastamento_datado : DataFrame :=
  mkDF [ "Id_SERVIDOR_PORTAL"; "ANO"; "MES"; "DATA_INICIO_AFASTAMENTO" ]%string
       [ [Some "12"; Some "2023"; Some "3"; Some " 01/03/2023 "]%string ].

(** * Properties *)

Ltac em_lista := simpl; repeat (first [left; reflexivity | right]).

(** ** The column check *)

Lemma verificar_colunas_falta df necessarias :
  falta df necessarias ->
  exists col,
    In col necessarias /\ tem_coluna df col = false /\
    verificar_colunas df necessarias = Raise (mensagem_coluna col).
Proof.
  induction necessarias as [|c cs IH]; intros [col [Hin Hcol]].
  - destruct Hin.
  - simpl. destruct (tem_coluna df c) eqn:Hc.
    + destruct Hin as [<-|Hin]; [congruence|].
      destruct IH as [col' [Hin' [Hcol' Hv]]]; [exists col; auto|].
      exists col'. auto.
    + exists c. auto.
Qed.

Lemma verificar_colunas_ok df necessarias :
  verificar_colunas df necessarias = Ok tt <->
  forall col, In col necessarias -> tem_coluna df col = true.
Proof.
  induction necessarias as [|c cs IH]; simpl.
  - split; [intros _ col []|reflexivity].
  - destruct (tem_coluna df c) eqn:Hc.
    + rewrite IH. split.
      * intros H col [<-|Hin]; auto.
      * intros H col Hin. apply H. auto.
    + split; [discriminate|].
      intros H. specialize (H c (or_introl eq_refl)). congruence.
Qed.

Lemma importar_aborta A necessarias normalizar carga df (st : Estado A) :
  falta df necessarias ->
  aborta (importar necessarias normalizar carga df st) st df necessarias.
Proof.
  intros H. destruct (verificar_colunas_falta H) as [col [Hin [Hcol Hv]]].
  exists col. repeat split; auto.
  unfold importar. rewrite Hv. reflexivity.
Qed.

Section ColunasAusentes.

Variable upper : string -> string.
Variable data : Type.
Variable strptime : string -> string -> resultado data.
Variable str_coluna : list (option Z) -> option Z -> string.

(** C4. Whatever the store does and whatever the rows hold, each of
    the six importers, called on a frame that lacks one of its
    required columns, raises the [ValueError] naming an absent
    required column, and the session (durable rows, open transaction)
    and the log are exactly those of before the call: no row was
    normalised, nothing was sent to the store. *)
Theorem coluna_ausente_aborta_importacao :
  forall df : DataFrame,
    (forall rejeita conflita st,
        falta df (map fst Servidores.colunas_necessarias) ->
        aborta (Servidores.importar_servidores_dataframe upper rejeita conflita df st)
          st df (map fst Servidores.colunas_necessarias))
    /\ (forall rejeita conflita st,
           falta df (map fst Remuneracoes.colunas_necessarias) ->
           aborta (Remuneracoes.importar_remuneracoes_dataframe rejeita conflita df st)
             st df (map fst Remuneracoes.colunas_necessarias))
    /\ (forall rejeita conflita st,
           falta df (map fst Afastamentos.colunas_necessarias) ->
           aborta (Afastamentos.importar_afastamentos_dataframe strptime rejeita conflita df st)
             st df (map fst Afastamentos.colunas_necessarias))
    /\ (forall rejeita conflita st,
           falta df (map fst Observacoes.colunas_necessarias) ->
           aborta (Observacoes.importar_observacoes_dataframe upper rejeita conflita df st)
             st df (map fst Observacoes.colunas_necessarias))
    /\ (forall rejeita conflita st,
           falta df (map fst CargosFuncoes.colunas_necessarias) ->
           aborta (CargosFuncoes.importar_cargosfuncoes_dataframe str_coluna rejeita conflita df st)
             st df (map fst CargosFuncoes.colunas_necessarias))
    /\ (forall rejeita conflita consulta st,
           falta df (map fst FuncaoCargo.colunas_necessarias) ->
           aborta (FuncaoCargo.importar_funcaocargo_dataframe strptime rejeita conflita
                     consulta df st)
             st df (map fst FuncaoCargo.colunas_necessarias)).
Proof.
  intros df. repeat split; intros; try (apply importar_aborta; assumption).
  destruct (verificar_colunas_falta H) as [col [Hin [Hcol Hv]]].
  exists col. repeat split; auto.
  unfold FuncaoCargo.importar_funcaocargo_dataframe. rewrite Hv. reflexivity.
Qed.

End ColunasAusentes.

Lemma falta_primeira (df : DataFrame) (necessarias : list string) (col : string) :
  In col necessarias -> tem_coluna df col = false -> falta df necessarias.
Proof. intros Hin H. exists col. split; assumption. Qed.

Lemma coluna_ausente_aborta_importacao_witness :
  falta df_sem_mes (map fst Remuneracoes.colunas_necessarias)
  /\ aborta (Remuneracoes.importar_remuneracoes_dataframe
               (fun _ _ => false) (fun _ _ => false) df_sem_mes (mkEstado [] [] []))
       (mkEstado [] [] []) df_sem_mes (map fst Remuneracoes.colunas_necessarias)
  /\ aborta (Servidores.importar_servidores_dataframe (fun s => s)
               (fun _ _ => false) (fun _ _ => false) df_vazio (mkEstado [] [] []))
       (mkEstado [] [] []) df_vazio (map fst Servidores.colunas_necessarias)
  /\ aborta (Afastamentos.importar_afastamentos_dataframe
               (fun _ _ => Ok tt) (fun _ _ => false) (fun _ _ => false)
               df_vazio (mkEstado [] [] []))
       (mkEstado [] [] []) df_vazio (map fst (Afastamentos.colunas_necessarias))
  /\ aborta (Observacoes.importar_observacoes_dataframe (fun s => s)
               (fun _ _ => false) (fun _ _ => false) df_vazio (mkEstado [] [] []))
       (mkEstado [] [] []) df_vazio (map fst Observacoes.colunas_necessarias)
  /\ aborta (CargosFuncoes.importar_cargosfuncoes_dataframe (fun _ _ => EmptyString)
               (fun _ _ => false) (fun _ _ => false) df_vazio (mkEstado [] [] []))
       (mkEstado [] [] []) df_vazio (map fst CargosFuncoes.colunas_necessarias)
  /\ aborta (FuncaoCargo.importar_funcaocargo_dataframe
               (fun _ _ => Ok tt) (fun _ _ => false) (fun _ _ => false) (Ok [])
               df_vazio (mkEstado [] [] []))
       (mkEstado [] [] []) df_vazio (map fst (FuncaoCargo.colunas_necessarias)).
Proof.
  assert (Hmes : falta df_sem_mes (map fst Remuneracoes.colunas_necessarias)).
  { apply (@falta_primeira _ _ "MES"%string); [em_lista | reflexivity]. }
  pose proof (@coluna_ausente_aborta_importacao (fun s => s) unit
                (fun _ _ => Ok tt) (fun _ _ => EmptyString) df_sem_mes)
    as [_ [Hrem _]].
  pose proof (@coluna_ausente_aborta_importacao (fun s => s) unit
                (fun _ _ => Ok tt) (fun _ _ => EmptyString) df_vazio)
    as [Hser [_ [Hafa [Hobs [Hcar Hfun]]]]].
  split; [exact Hmes|].
  split; [apply Hrem; exact Hmes|].
  split; [apply Hser; apply (@falta_primeira _ _ "NOME"%string); [em_lista | reflexivity]|].
  split; [apply Hafa; apply (@falta_primeira _ _ "ANO"%string); [em_lista | reflexivity]|].
  split; [apply Hobs; apply (@falta_primeira _ _ "OBSERVACAO"%string); [em_lista | reflexivity]|].
  split; [apply Hcar; apply (@falta_primeira _ _ "FUNCAO"%string); [em_lista | reflexivity]|].
  apply Hfun; apply (@falta_primeira _ _ "FUNCAO"%string); [em_lista | reflexivity].
Defined.

(** ** The chunked loader *)

Section LoaderProps.

Variable A : Type.
Variables (rejeita : list A -> list A -> bool)
          (conflita : list A -> A -> bool).

Lemma fatiar_aux_concat k fuel (l : list A) :
  (0 < k)%nat -> (length l <= fuel)%nat -> concat (fatiar_aux fuel k l) = l.
Proof.
  intros Hk. revert l. induction fuel as [|fuel IH]; intros l Hl.
  - destruct l; [reflexivity | simpl in Hl; lia].
  - destruct l as [|a l']; [reflexivity|].
    cbn [fatiar_aux concat]. rewrite IH.
    + apply firstn_skipn.
    + rewrite length_skipn. lia.
Qed.

Lemma fatiar_concat (l : list A) : concat (fatiar chunk_size l) = l.
Proof. apply fatiar_aux_concat; [unfold chunk_size; lia | lia]. Qed.

Lemma fatiar_aux_tamanho k fuel (l : list A) :
  (0 < k)%nat ->
  Forall (fun c => c <> [] /\ (length c <= k)%nat) (fatiar_aux fuel k l).
Proof.
  intros Hk. revert l. induction fuel as [|fuel IH]; intros l.
  - constructor.
  - destruct l as [|a l']; [constructor|].
    cbn [fatiar_aux]. constructor; [|apply IH].
    split.
    + destruct k; [lia | discriminate].
    + rewrite length_firstn. lia.
Qed.

Lemma inserir_mantem t chunk (v : A) :
  In v t -> In v (inserir conflita t chunk).
Proof.
  unfold inserir. revert t. induction chunk as [|r chunk IH]; intros t Hin.
  - exact Hin.
  - simpl. apply IH. destruct (conflita t r); [exact Hin|].
    apply in_or_app. left. exact Hin.
Qed.

Lemma inserir_novo t chunk (v : A) :
  In v chunk -> (forall t', conflita t' v = false) ->
  In v (inserir conflita t chunk).
Proof.
  unfold inserir. revert t. induction chunk as [|r chunk IH]; intros t Hin Hc.
  - destruct Hin.
  - simpl. destruct Hin as [->|Hin].
    + rewrite Hc. apply (inserir_mantem (t ++ [v]) chunk).
      apply in_or_app. right. left. reflexivity.
    + apply IH; assumption.
Qed.

(** The guarded loop never raises: it logs one entry per chunk, the
    total it returns is the sum of the sizes of the chunks it
    committed, and it ends with no open change. *)
Lemma laco_protegido_spec lotes : forall n total (st : Estado A),
  exists novos,
    log (snd (laco_protegido rejeita conflita lotes n total st)) = log st ++ novos
    /\ fst (laco_protegido rejeita conflita lotes n total st)
       = (total + soma_lotes novos)%nat
    /\ Forall2 entrada_do_lote novos lotes.
Proof.
  induction lotes as [|chunk resto IH]; intros n total st.
  - exists []. simpl. rewrite app_nil_r. repeat split; [lia | constructor].
  - cbn [laco_protegido]. unfold execute.
    destruct (rejeita (visao st) chunk) eqn:Hr.
    + destruct (IH (S n) total (rollback (logar (LogErroLote n) st)))
        as [novos [Hlog [Htot Hent]]].
      exists (LogErroLote n :: novos). repeat split.
      * rewrite Hlog. simpl. rewrite <- app_assoc. reflexivity.
      * rewrite Htot. reflexivity.
      * constructor; [right; eauto | exact Hent].
    + destruct (IH (S n) (total + length chunk)%nat
                  (logar (LogLote n (length chunk))
                     (commit (mkEstado (confirmadas st)
                                (inserir conflita (visao st) chunk) (log st)))))
        as [novos [Hlog [Htot Hent]]].
      exists (LogLote n (length chunk) :: novos). repeat split.
      * rewrite Hlog. simpl. rewrite <- app_assoc. reflexivity.
      * rewrite Htot. simpl. lia.
      * constructor; [left; eauto | exact Hent].
Qed.

(** A chunk the store rejects leaves the durable rows as they were
    and is followed by the next chunk. *)
Lemma laco_protegido_rejeitado chunk resto n total (st : Estado A) :
  rejeita (visao st) chunk = true ->
  laco_protegido rejeita conflita (chunk :: resto) n total st
  = laco_protegido rejeita conflita resto (S n) total
      (mkEstado (confirmadas st) (confirmadas st) (log st ++ [LogErroLote n])).
Proof.
  intros Hr. cbn [laco_protegido]. unfold execute. rewrite Hr. reflexivity.
Qed.

Lemma laco_protegido_mantem lotes : forall n total (st : Estado A) v,
  limpa st -> In v (confirmadas st) ->
  In v (confirmadas (snd (laco_protegido rejeita conflita lotes n total st))).
Proof.
  induction lotes as [|chunk resto IH]; intros n total st v Hl Hin.
  - exact Hin.
  - cbn [laco_protegido]. unfold execute.
    destruct (rejeita (visao st) chunk) eqn:Hr.
    + apply IH; [reflexivity | exact Hin].
    + apply IH; [reflexivity|].
      simpl. apply inserir_mantem. rewrite Hl. exact Hin.
Qed.

(** A record that the store neither rejects nor skips is durable
    when the guarded loop ends. *)
Lemma laco_protegido_persiste lotes : forall n total (st : Estado A) v,
  limpa st -> In v (concat lotes) ->
  (forall t chunk, In v chunk -> rejeita t chunk = false) ->
  (forall t, conflita t v = false) ->
  In v (confirmadas (snd (laco_protegido rejeita conflita lotes n total st))).
Proof.
  induction lotes as [|chunk resto IH]; intros n total st v Hl Hin Hrej Hcon.
  - destruct Hin.
  - cbn [laco_protegido]. unfold execute.
    simpl in Hin. apply in_app_or in Hin.
    destruct (rejeita (visao st) chunk) eqn:Hr.
    + destruct Hin as [Hin|Hin].
      * rewrite (Hrej _ _ Hin) in Hr. discriminate.
      * apply IH; auto. reflexivity.
    + destruct Hin as [Hin|Hin].
      * apply laco_protegido_mantem; [reflexivity|].
        simpl. apply inserir_novo; assumption.
      * apply IH; auto. reflexivity.
Qed.

Lemma carregar_protegido_ok registros (st : Estado A) :
  exists novos,
    carregar_protegido rejeita conflita registros st
    = (Ok (soma_lotes novos),
       mkEstado
         (confirmadas (snd (laco_protegido rejeita conflita
                              (fatiar chunk_size registros) 1 0 st)))
         (visao (snd (laco_protegido rejeita conflita
                        (fatiar chunk_size registros) 1 0 st)))
         (log st ++ novos ++ [LogConcluida (soma_lotes novos)]))
    /\ Forall2 entrada_do_lote novos (fatiar chunk_size registros).
Proof.
  unfold carregar_protegido.
  destruct (laco_protegido_spec (fatiar chunk_size registros) 1 0 st)
    as [novos [Hlog [Htot Hent]]].
  destruct (laco_protegido rejeita conflita (fatiar chunk_size registros) 1 0 st)
    as [total st'] eqn:E.
  simpl in *. exists novos. split; [|exact Hent].
  subst total. unfold logar. rewrite Hlog, <- app_assoc. reflexivity.
Qed.

Lemma carregar_protegido_persiste registros (st : Estado A) v :
  limpa st -> In v registros ->
  (forall t chunk, In v chunk -> rejeita t chunk = false) ->
  (forall t, conflita t v = false) ->
  In v (confirmadas (snd (carregar_protegido rejeita conflita registros st))).
Proof.
  intros Hl Hin Hrej Hcon. unfold carregar_protegido.
  pose proof (@laco_protegido_persiste (fatiar chunk_size registros) 1 0 st v Hl) as H.
  rewrite fatiar_concat in H. specialize (H Hin Hrej Hcon).
  destruct (laco_protegido rejeita conflita (fatiar chunk_size registros) 1 0 st).
  exact H.
Qed.

(** The unguarded loop stops at the first chunk the store rejects:
    the exception leaves the function, nothing is logged, no total is
    returned. *)
Lemma laco_rejeitado chunk resto n total (st : Estado A) :
  rejeita (visao st) chunk = true ->
  laco rejeita conflita (chunk :: resto) n total st = (Raise DBAPIError, st).
Proof.
  intros Hr. cbn [laco]. unfold execute. rewrite Hr. reflexivity.
Qed.

Lemma carregar_rejeitado registros (st : Estado A) :
  registros <> [] ->
  rejeita (visao st) (firstn chunk_size registros) = true ->
  carregar rejeita conflita registros st = (Raise DBAPIError, st).
Proof.
  intros Hne Hr. unfold carregar, fatiar.
  destruct registros as [|a l]; [congruence|].
  cbn [length fatiar_aux]. rewrite laco_rejeitado; [reflexivity | exact Hr].
Qed.

End LoaderProps.

(** ** Store failures in the importers without a [try] *)

Lemma importar_carregar_rejeitado A rejeita conflita necessarias normalizar
    df (st : Estado A) registros :
  verificar_colunas df necessarias = Ok tt ->
  normalizar df = Ok registros ->
  registros <> [] ->
  rejeita (visao st) (firstn chunk_size registros) = true ->
  importar necessarias normalizar (carregar rejeita conflita) df st
  = (Raise DBAPIError, st).
Proof.
  intros Hv Hn Hne Hr. unfold importar. rewrite Hv, Hn.
  apply carregar_rejeitado; assumption.
Qed.

(** On a frame that has a row, the guarded importer of the job
    catalogue answers a count whatever the store does. *)
Lemma importar_cargosfuncoes_nao_aborta str_coluna rejeita conflita df st :
  verificar_colunas df (map fst CargosFuncoes.colunas_necessarias) = Ok tt ->
  linhas df <> [] ->
  exists total st',
    CargosFuncoes.importar_cargosfuncoes_dataframe str_coluna rejeita conflita df st
    = (Ok total, st').
Proof.
  intros Hv Hne. unfold CargosFuncoes.importar_cargosfuncoes_dataframe, importar.
  rewrite Hv. unfold CargosFuncoes.normalizar.
  destruct (linhas df) as [|l0 ls] eqn:El; [congruence|].
  match goal with
  | |- context [carregar_protegido rejeita conflita ?r st] =>
      destruct (carregar_protegido_ok rejeita conflita r st) as [novos [H _]];
      rewrite H
  end.
  eauto.
Qed.

(** C1, at the failing input.  In [importar_remuneracoes_dataframe]
    the chunk loop has no [try]: when the store rejects the first chunk
    of a non-empty batch, the [DBAPIError] leaves the importer.  The
    session and the log are those of before the call (no rollback, no
    log line), the later chunks are not attempted, and no processed
    count is returned. *)
Theorem lote_rejeitado_aborta_remuneracoes :
  forall rejeita conflita df st registros,
    verificar_colunas df (map fst Remuneracoes.colunas_necessarias) = Ok tt ->
    Remuneracoes.normalizar df = Ok registros ->
    registros <> [] ->
    rejeita (visao st) (firstn chunk_size registros) = true ->
    Remuneracoes.importar_remuneracoes_dataframe rejeita conflita df st
    = (Raise DBAPIError, st).
Proof.
  intros. unfold Remuneracoes.importar_remuneracoes_dataframe.
  eapply importar_carregar_rejeitado; eassumption.
Qed.

Lemma lote_rejeitado_aborta_remuneracoes_witness :
  Remuneracoes.importar_remuneracoes_dataframe
    (fun _ _ => true) (fun _ _ => false) df_um_pagamento (mkEstado [] [] [])
  = (Raise DBAPIError, mkEstado [] [] []).
Proof.
  apply (@lote_rejeitado_aborta_remuneracoes (fun _ _ => true) (fun _ _ => false)
           df_um_pagamento (mkEstado [] [] [])
           [Remuneracoes.mkRemuneracao 12 2023 1 (PFin 1000) (PFin 0) (PFin 0)
              (PFin (1801 # 2))]).
  - reflexivity.
  - vm_compute. reflexivity.
  - discriminate.
  - reflexivity.
Defined.

(** ** Person ids *)

Lemma numerico_c_neutro c :
  PyStr.isnumeric_c c = true ->
  PyStr.isspace c = false /\ Ascii.eqb c "_" = false
  /\ Ascii.eqb c "+" = false /\ Ascii.eqb c "-" = false.
Proof.
  destruct c as [[] [] [] [] [] [] [] []]; vm_compute; intros H;
    try discriminate H; repeat split; reflexivity.
Qed.

Lemma rstrip_sem_espaco s :
  PyStr.todos (fun c => negb (PyStr.isspace c)) s = true -> PyStr.rstrip s = s.
Proof.
  induction s as [|c r IH]; [reflexivity|].
  cbn [PyStr.todos PyStr.rstrip]. intros H. apply andb_prop in H.
  destruct H as [Hc Hr]. rewrite (IH Hr). apply negb_true_iff in Hc.
  destruct r; [rewrite Hc|]; reflexivity.
Qed.

Lemma numerico_sem_espaco s :
  PyStr.todos PyStr.isnumeric_c s = true ->
  PyStr.todos (fun c => negb (PyStr.isspace c)) s = true.
Proof.
  induction s as [|c r IH]; [reflexivity|].
  cbn [PyStr.todos]. intros H. apply andb_prop in H. destruct H as [Hc Hr].
  destruct (numerico_c_neutro _ Hc) as [Hs _]. rewrite Hs, (IH Hr). reflexivity.
Qed.

Lemma strip_numerico s : PyStr.isnumeric s = true -> PyStr.strip s = s.
Proof.
  unfold PyStr.isnumeric, PyStr.strip. intros H. apply andb_prop in H.
  destruct H as [_ H]. pose proof (numerico_sem_espaco _ H) as Hs.
  assert (Hl : PyStr.lstrip s = s).
  { destruct s as [|c r]; [reflexivity|]. cbn [PyStr.todos] in Hs.
    apply andb_prop in Hs. destruct Hs as [Hc _]. apply negb_true_iff in Hc.
    cbn [PyStr.lstrip]. rewrite Hc. reflexivity. }
  rewrite Hl. apply rstrip_sem_espaco. exact Hs.
Qed.

(** The white space [int] and [float] skip is white space for
    [str.isspace] too. *)
Lemma espaco_numero_isspace c :
  PyStr.isspace c = false -> PyStr.espaco_numero c = false.
Proof.
  destruct c as [[] [] [] [] [] [] [] []]; vm_compute; intros H;
    try discriminate H; reflexivity.
Qed.

Lemma rstrip_numero_sem_espaco s :
  PyStr.todos (fun c => negb (PyStr.isspace c)) s = true ->
  PyStr.rstrip_numero s = s.
Proof.
  induction s as [|c r IH]; [reflexivity|].
  cbn [PyStr.todos PyStr.rstrip_numero]. intros H. apply andb_prop in H.
  destruct H as [Hc Hr]. rewrite (IH Hr). apply negb_true_iff in Hc.
  destruct r; [rewrite (espaco_numero_isspace _ Hc)|]; reflexivity.
Qed.

Lemma strip_numero_numerico s :
  PyStr.isnumeric s = true -> PyStr.strip_numero s = s.
Proof.
  unfold PyStr.isnumeric, PyStr.strip_numero. intros H. apply andb_prop in H.
  destruct H as [_ H]. pose proof (numerico_sem_espaco _ H) as Hs.
  assert (Hl : PyStr.lstrip_numero s = s).
  { destruct s as [|c r]; [reflexivity|]. cbn [PyStr.todos] in Hs.
    apply andb_prop in Hs. destruct Hs as [Hc _]. apply negb_true_iff in Hc.
    cbn [PyStr.lstrip_numero]. rewrite (espaco_numero_isspace _ Hc). reflexivity. }
  rewrite Hl. apply rstrip_numero_sem_espaco. exact Hs.
Qed.

Lemma sinal_numerico s :
  PyStr.isnumeric s = true -> PyStr.sinal s = (false, s).
Proof.
  unfold PyStr.isnumeric. intros H. apply andb_prop in H. destruct H as [_ H].
  destruct s as [|c r]; [reflexivity|]. cbn [PyStr.todos] in H.
  apply andb_prop in H. destruct H as [Hc _].
  destruct (numerico_c_neutro _ Hc) as [_ [_ [Hp Hm]]].
  unfold PyStr.sinal.
  destruct c as [[] [] [] [] [] [] [] []]; try reflexivity; discriminate.
Qed.

Lemma parse_digitos_nao_decimal s : forall ultimo acc n,
  PyStr.todos PyStr.isnumeric_c s = true ->
  PyStr.todos PyStr.isdecimal_c s = false ->
  PyStr.parse_digitos s ultimo acc n = None.
Proof.
  induction s as [|c r IH]; intros ultimo acc n Hn Hd; [discriminate Hd|].
  cbn [PyStr.todos] in Hn, Hd. apply andb_prop in Hn. destruct Hn as [Hc Hr].
  cbn [PyStr.parse_digitos].
  destruct (PyStr.isdecimal_c c) eqn:Ec.
  - apply IH; [exact Hr | exact Hd].
  - destruct (numerico_c_neutro _ Hc) as [_ [Hu _]]. rewrite Hu. reflexivity.
Qed.

(** [int] raises [ValueError] on a text that passes [isnumeric] and is
    not made of decimal digits. *)
Lemma astype_int_nao_decimal s :
  PyStr.isnumeric s = true -> PyStr.isdecimal s = false ->
  exists msg, astype_int s = Raise (ValueError msg).
Proof.
  intros Hn Hd. unfold astype_int, PyStr.int.
  rewrite (strip_numero_numerico _ Hn), (sinal_numerico _ Hn).
  unfold PyStr.isnumeric, PyStr.isdecimal in *.
  apply andb_prop in Hn. destruct Hn as [Hne Hn]. rewrite Hne in Hd.
  rewrite (parse_digitos_nao_decimal _ false 0 0 Hn Hd).
  eexists. reflexivity.
Qed.

Lemma mapM_raise A B (f : A -> resultado B) l x e :
  In x l -> f x = Raise e -> exists e', mapM f l = Raise e'.
Proof.
  induction l as [|a l IH]; intros Hin Hx; [destruct Hin|].
  cbn [mapM]. destruct Hin as [->|Hin].
  - rewrite Hx. eexists. reflexivity.
  - destruct (f a) as [b|e0]; cbn [bind]; [|eexists; reflexivity].
    destruct (IH Hin Hx) as [e' He']. rewrite He'. eexists. reflexivity.
Qed.

Lemma dropna_chaves_in R (f : list cell -> option (Chaves * R)) rows row r :
  In row rows -> f row = Some r -> In r (dropna_chaves f rows).
Proof.
  induction rows as [|x rows IH]; intros Hin Hf; [destruct Hin|].
  cbn [dropna_chaves]. destruct Hin as [->|Hin].
  - rewrite Hf. left. reflexivity.
  - destruct (f x); [right|]; apply IH; assumption.
Qed.

(** One id of that kind among the rows that have their three keys
    makes the conversion of the key columns raise, whatever the other
    rows hold. *)
Lemma converter_chaves_nao_decimal R (brutas : list (Chaves * R)) r :
  In r brutas ->
  PyStr.isnumeric (texto_id (fst r)) = true ->
  PyStr.isdecimal (texto_id (fst r)) = false ->
  exists e, converter_chaves brutas = Raise e.
Proof.
  intros Hin Hn Hd. unfold converter_chaves.
  destruct (astype_int_nao_decimal _ Hn Hd) as [msg Hmsg].
  destruct (@mapM_raise _ _ (fun r0 : Chaves * R => astype_int (texto_id (fst r0)))
              (filter (fun r0 : Chaves * R => PyStr.isnumeric (texto_id (fst r0))) brutas)
              r (ValueError msg)) as [e He].
  - apply filter_In. split; assumption.
  - exact Hmsg.
  - rewrite He. eexists. reflexivity.
Qed.

(** In the pay importer: a row with its three keys present and such an
    id makes the whole normalisation raise. *)
Lemma normalizar_remuneracoes_nao_decimal df row k :
  In row (linhas df) ->
  chaves (columns df) row = Some k ->
  PyStr.isnumeric (texto_id k) = true ->
  PyStr.isdecimal (texto_id k) = false ->
  exists e, Remuneracoes.normalizar df = Raise e.
Proof.
  intros Hin Hk Hn Hd. unfold Remuneracoes.normalizar.
  destruct (@converter_chaves_nao_decimal _
              (dropna_chaves (Remuneracoes.bruta (columns df)) (linhas df))
              (k, (campo (columns df) row Remuneracoes.col_remuneracao,
                   campo (columns df) row "IRRF (R$)"%string,
                   campo (columns df) row "PSS/RPGS (R$)"%string,
                   campo (columns df) row Remuneracoes.col_remuneracao_final)))
    as [e He]; try assumption.
  - apply (@dropna_chaves_in _ _ _ row); [exact Hin|].
    unfold Remuneracoes.bruta. rewrite Hk. reflexivity.
  - rewrite He. eexists. reflexivity.
Qed.

(** C5, at the failing input.  The mask is [str.isnumeric], which is
    true of the superscript two; [astype(int)] then calls [int] on it,
    which raises.  Alone, the row with the digit-only id "12" is
    emitted with the integer 12.  With a second row whose id is the
    superscript two, the normalisation, and with it the whole import,
    raises [ValueError]: the second row is not dropped, and the first
    is not emitted. *)
Theorem id_sobrescrito_aborta_importacao :
  PyStr.isnumeric (lat 178) = true
  /\ PyStr.isdecimal (lat 178) = false
  /\ Remuneracoes.normalizar df_um_pagamento
     = Ok [Remuneracoes.mkRemuneracao 12 2023 1 (PFin 1000) (PFin 0) (PFin 0)
             (PFin (1801 # 2))]
  /\ Remuneracoes.normalizar df_id_sobrescrito
     = Raise (ValueError "invalid literal for int() with base 10")
  /\ forall rejeita conflita st,
      Remuneracoes.importar_remuneracoes_dataframe rejeita conflita
        df_id_sobrescrito st
      = (Raise (ValueError "invalid literal for int() with base 10"), st).
Proof.
  split; [vm_compute; reflexivity|].
  split; [vm_compute; reflexivity|].
  split; [vm_compute; reflexivity|].
  split; [vm_compute; reflexivity|].
  intros rejeita conflita st. reflexivity.
Qed.

(** ** Currency parsing *)

Lemma append_assoc (a b c : string) :
  ((a ++ b) ++ c = a ++ (b ++ c))%string.
Proof. induction a as [|x a IH]; simpl; [reflexivity | now rewrite IH]. Qed.

Lemma replace_app old new (a b : string) :
  PyStr.replace old new (a ++ b)%string
  = (PyStr.replace old new a ++ PyStr.replace old new b)%string.
Proof.
  induction a as [|x a IH]; simpl; [reflexivity|].
  rewrite IH. destruct (Ascii.eqb x old); [now rewrite append_assoc | reflexivity].
Qed.

Lemma replace_ausente old new (s : string) :
  PyStr.todos (fun c => negb (Ascii.eqb c old)) s = true ->
  PyStr.replace old new s = s.
Proof.
  induction s as [|x s IH]; simpl; [reflexivity|].
  intros H. apply andb_prop in H. destruct H as [Hx Hs].
  apply negb_true_iff in Hx. rewrite Hx, IH; auto.
Qed.

Lemma sem_separador_ponto s :
  sem_separador s -> PyStr.todos (fun c => negb (Ascii.eqb c ".")) s = true.
Proof.
  unfold sem_separador. induction s as [|x s IH]; simpl; [reflexivity|].
  intros H. apply andb_prop in H. destruct H as [Hx Hs].
  apply andb_prop in Hx. destruct Hx as [Hp _]. rewrite Hp, IH; auto.
Qed.

Lemma sem_separador_virgula s :
  sem_separador s -> PyStr.todos (fun c => negb (Ascii.eqb c ",")) s = true.
Proof.
  unfold sem_separador. induction s as [|x s IH]; simpl; [reflexivity|].
  intros H. apply andb_prop in H. destruct H as [Hx Hs].
  apply andb_prop in Hx. destruct Hx as [_ Hv]. rewrite Hv, IH; auto.
Qed.

(** The text [float] receives: the dots are deleted, then the comma of
    the decimals becomes a dot. *)
Lemma sem_pontos milhares centenas centavos :
  sem_separador milhares -> sem_separador centenas -> sem_separador centavos ->
  PyStr.replace "." "" (milhares ++ "." ++ centenas ++ "," ++ centavos)%string
  = (milhares ++ centenas ++ "," ++ centavos)%string.
Proof.
  intros Hm Hc Hd.
  rewrite !replace_app.
  rewrite (@replace_ausente "." "" _ (sem_separador_ponto Hm)).
  rewrite (@replace_ausente "." "" _ (sem_separador_ponto Hc)).
  rewrite (@replace_ausente "." "" _ (sem_separador_ponto Hd)).
  reflexivity.
Qed.

Lemma virgula_em_ponto milhares centenas centavos :
  sem_separador milhares -> sem_separador centenas -> sem_separador centavos ->
  PyStr.replace "," "." (milhares ++ centenas ++ "," ++ centavos)%string
  = (milhares ++ centenas ++ "." ++ centavos)%string.
Proof.
  intros Hm Hc Hd.
  rewrite !replace_app.
  rewrite (@replace_ausente "," "." _ (sem_separador_virgula Hm)).
  rewrite (@replace_ausente "," "." _ (sem_separador_virgula Hc)).
  rewrite (@replace_ausente "," "." _ (sem_separador_virgula Hd)).
  reflexivity.
Qed.

Lemma separadores milhares centenas centavos :
  sem_separador milhares -> sem_separador centenas -> sem_separador centavos ->
  PyStr.replace "," "." (PyStr.replace "." "" (milhares ++ "." ++ centenas ++ "," ++ centavos)%string)
  = (milhares ++ centenas ++ "." ++ centavos)%string.
Proof.
  intros Hm Hc Hd. rewrite sem_pontos, virgula_em_ponto; auto.
Qed.

(** C6. [to_float] deletes every "." and reads "," as the decimal
    point: "1.234,56" is the float written [1234.56] and "0,00" is
    [0.0]; a missing cell is filled with "0,00" and so is [0.0]; the
    empty text is [0.0]; and whenever [float] raises on the rewritten
    text the result is [0.0].  [to_float] is a total function into the
    floats: the bare [except] leaves no exception to the caller.  In
    general a text with thousands groups separated by "." and decimals
    after "," is read as [float] reads the same digits with a "." before
    the decimals. *)
Theorem to_float_separadores :
  Remuneracoes.to_float "1.234,56" = PyFloat.literal (123456 # 100)
  /\ Remuneracoes.to_float "0,00" = PyFloat.literal 0
  /\ PyFloat.literal 0 = PFin 0
  /\ Remuneracoes.moeda None = PFin 0
  /\ Remuneracoes.to_float "" = PFin 0
  /\ (forall val e,
         PyFloat.float (PyStr.replace "," "." (PyStr.replace "." "" val)) = Raise e ->
         Remuneracoes.to_float val = PFin 0)
  /\ (forall milhares centenas centavos,
         sem_separador milhares -> sem_separador centenas -> sem_separador centavos ->
         Remuneracoes.to_float (milhares ++ "." ++ centenas ++ "," ++ centavos)%string
         = try_except (PyFloat.float (milhares ++ centenas ++ "." ++ centavos)%string)
             (PFin 0)).
Proof.
  split; [vm_compute; reflexivity|].
  split; [vm_compute; reflexivity|].
  split; [vm_compute; reflexivity|].
  split; [vm_compute; reflexivity|].
  split; [vm_compute; reflexivity|].
  split.
  - intros val e H. unfold Remuneracoes.to_float. rewrite H. reflexivity.
  - intros m c d Hm Hc Hd. unfold Remuneracoes.to_float.
    rewrite separadores; auto.
Qed.

Lemma to_float_separadores_witness :
  PyFloat.float (PyStr.replace "," "." (PyStr.replace "." "" "R$ 10"))
  = Raise (ValueError "could not convert string to float")
  /\ Remuneracoes.to_float "R$ 10" = PFin 0
  /\ sem_separador "12" /\ sem_separador "345" /\ sem_separador "67"
  /\ Remuneracoes.to_float ("12" ++ "." ++ "345" ++ "," ++ "67")%string
     = try_except (PyFloat.float ("12" ++ "345" ++ "." ++ "67")%string) (PFin 0).
Proof.
  destruct to_float_separadores as [_ [_ [_ [_ [_ [Hraise Hsep]]]]]].
  assert (H : PyFloat.float (PyStr.replace "," "." (PyStr.replace "." "" "R$ 10"))
              = Raise (ValueError "could not convert string to float"))
    by (vm_compute; reflexivity).
  split; [exact H|].
  split; [exact (Hraise _ _ H)|].
  assert (H1 : sem_separador "12") by reflexivity.
  assert (H2 : sem_separador "345") by reflexivity.
  assert (H3 : sem_separador "67") by reflexivity.
  split; [exact H1|]. split; [exact H2|]. split; [exact H3|].
  exact (Hsep _ _ _ H1 H2 H3).
Defined.

(** ** Bounds on binary64 rounding *)

Lemma round_half_even_limite x (n : Z) :
  (x <= inject_Z n)%Q -> PyFloat.round_half_even x <= n.
Proof.
  intros H. unfold PyFloat.round_half_even.
  pose proof (Qfloor_le x) as Hf.
  assert (Hfn : Qfloor x <= n).
  { rewrite Zle_Qle. apply (Qle_trans _ x); assumption. }
  destruct (Z.eq_dec (Qfloor x) n) as [E|E].
  - assert (Hc : Qcompare (x - inject_Z (Qfloor x))%Q (1 # 2)%Q = Lt).
    { apply Qlt_alt. rewrite E.
      apply (Qle_lt_trans _ 0%Q); [|reflexivity].
      apply Qle_minus_iff in H. apply Qle_minus_iff.
      setoid_replace (0 + - (x - inject_Z n))%Q with (inject_Z n + - x)%Q by ring.
      exact H. }
    rewrite Hc. lia.
  - destruct (Qcompare _ _); [destruct (Z.even _)| |]; lia.
Qed.

Lemma round_half_even_nao_negativo x :
  (0 <= x)%Q -> 0 <= PyFloat.round_half_even x.
Proof.
  intros H. unfold PyFloat.round_half_even.
  pose proof (Qfloor_resp_le _ _ H) as Hf. change (Qfloor 0) with 0 in Hf.
  destruct (Qcompare _ _); [destruct (Z.even _)| |]; lia.
Qed.

Lemma pow2_positivo u : (0 < PyFloat.pow2 u)%Q.
Proof.
  unfold PyFloat.pow2. destruct (0 <=? u) eqn:E.
  - apply Z.leb_le in E. rewrite <- (Zlt_Qlt 0).
    apply Z.pow_pos_nonneg; lia.
  - reflexivity.
Qed.

Lemma pow2_inverso u :
  u <= 0 -> (PyFloat.pow2 u * inject_Z (2 ^ (- u)) == 1)%Q.
Proof.
  intros Hu. unfold PyFloat.pow2. destruct (0 <=? u) eqn:E.
  - apply Z.leb_le in E. assert (u = 0) by lia. subst u. reflexivity.
  - assert (Hp : 0 < 2 ^ (- u)) by (apply Z.pow_pos_nonneg; lia).
    destruct (2 ^ (- u)) as [|p|p] eqn:Ep; try lia.
    cbn [Z.to_pos]. unfold Qeq, Qmult, inject_Z. cbn. lia.
Qed.

Lemma ilog2_limite a :
  (0 < a)%Q -> (a < inject_Z (2 ^ 53))%Q -> PyFloat.ilog2 a <= 52.
Proof.
  intros Hpos Hlt. unfold PyFloat.ilog2.
  set (e0 := Z.log2 (Qnum a) - Z.log2 (Z.pos (Qden a))).
  destruct (Qle_bool (PyFloat.pow2 e0) a) eqn:E.
  - apply Qle_bool_iff in E.
    destruct (Z_le_gt_dec e0 52) as [Hle|Hgt]; [exact Hle|exfalso].
    unfold PyFloat.pow2 in E. replace (0 <=? e0) with true in E
      by (symmetry; apply Z.leb_le; lia).
    assert (H53 : (inject_Z (2 ^ 53) <= inject_Z (2 ^ e0))%Q).
    { rewrite <- Zle_Qle. apply Z.pow_le_mono_r; lia. }
    apply (Qlt_irrefl a). apply (Qlt_le_trans _ _ _ Hlt).
    apply (Qle_trans _ _ _ H53 E).
  - destruct (Z_le_gt_dec e0 53) as [Hle|Hgt]; [lia|exfalso].
    assert (Hnum : 0 < Qnum a).
    { unfold Qlt in Hpos. cbn in Hpos. lia. }
    pose proof (Z.log2_spec (Qnum a) Hnum) as [Hn1 _].
    pose proof (Z.log2_spec (Z.pos (Qden a)) (Pos2Z.is_pos _)) as [_ Hd2].
    pose proof (Z.log2_nonneg (Z.pos (Qden a))) as Hd0.
    unfold Qlt in Hlt. cbn [Qnum Qden inject_Z] in Hlt.
    set (ld := Z.log2 (Z.pos (Qden a))) in *.
    set (ln := Z.log2 (Qnum a)) in *.
    assert (Hln : ln = e0 + ld) by (unfold e0; lia).
    assert (Hge : 2 ^ 54 * 2 ^ ld <= 2 ^ ln).
    { rewrite <- Z.pow_add_r by lia. apply Z.pow_le_mono_r; lia. }
    replace (Z.succ ld) with (ld + 1) in Hd2 by lia.
    rewrite Z.pow_add_r in Hd2 by lia.
    change (2 ^ 1) with 2 in Hd2.
    change (2 ^ 54) with (2 ^ 53 * 2) in Hge.
    assert (H53 : 0 < 2 ^ 53) by reflexivity.
    nia.
Qed.

(** A value between 0 and an integer below [2^53] rounds to a finite
    float between the same bounds. *)
Lemma b64_limite q n :
  (0 <= q)%Q -> (q <= inject_Z n)%Q -> n < 2 ^ 53 ->
  exists r, PyFloat.b64 q = PFin r /\ (0 <= r)%Q /\ (r <= inject_Z n)%Q.
Proof.
  intros H0 Hn H53.
  assert (Hn0 : (0 <= inject_Z n)%Q) by (apply (Qle_trans _ q); assumption).
  unfold PyFloat.b64. destruct (Qeq_bool q 0) eqn:Ez.
  { exists 0%Q. split; [reflexivity|]. split; [apply Qle_refl | exact Hn0]. }
  apply Qeq_bool_neq in Ez.
  assert (Hpos : (0 < q)%Q).
  { apply Qle_lteq in H0. destruct H0 as [H0|H0]; [exact H0|].
    exfalso. apply Ez. symmetry. exact H0. }
  assert (Habs : Qabs q = q).
  { destruct q as [a d]. unfold Qle in H0. cbn in H0. cbn.
    rewrite Z.abs_eq by lia. reflexivity. }
  rewrite Habs.
  set (u := Z.max (PyFloat.ilog2 q - 52) (-1074)).
  assert (Hu : u <= 0).
  { assert (Hl : PyFloat.ilog2 q <= 52).
    { apply ilog2_limite; [exact Hpos|].
      apply (Qle_lt_trans _ _ _ Hn). rewrite <- Zlt_Qlt. exact H53. }
    unfold u. lia. }
  pose proof (pow2_positivo u) as HP.
  pose proof (pow2_inverso Hu) as HK.
  set (P := PyFloat.pow2 u) in *.
  set (K := 2 ^ (- u)) in *.
  assert (HK0 : 0 < K) by (apply Z.pow_pos_nonneg; lia).
  assert (Hdiv : (q / P == q * inject_Z K)%Q).
  { unfold Qdiv. apply Qmult_inj_r with (z := P).
    - intros E. rewrite E in HP. apply (Qlt_irrefl 0). exact HP.
    - rewrite <- !Qmult_assoc. rewrite (Qmult_comm (/ P) P), (Qmult_comm (inject_Z K) P).
      rewrite Qmult_inv_r, HK; [reflexivity|].
      intros E. rewrite E in HP. apply (Qlt_irrefl 0). exact HP. }
  set (m := PyFloat.round_half_even (q / P)).
  assert (Hm0 : 0 <= m).
  { apply round_half_even_nao_negativo. rewrite Hdiv.
    apply Qmult_le_0_compat; [exact H0|]. rewrite <- (Zle_Qle 0). lia. }
  assert (Hmn : m <= n * K).
  { apply round_half_even_limite. rewrite Hdiv, inject_Z_mult.
    apply Qmult_le_compat_r; [exact Hn|]. rewrite <- (Zle_Qle 0). lia. }
  assert (Hv0 : (0 <= inject_Z m * P)%Q).
  { apply Qmult_le_0_compat; [rewrite <- (Zle_Qle 0); exact Hm0|].
    apply Qlt_le_weak. exact HP. }
  assert (Hvn : (inject_Z m * P <= inject_Z n)%Q).
  { apply (Qle_trans _ (inject_Z (n * K) * P)%Q).
    - apply Qmult_le_compat_r; [rewrite <- Zle_Qle; exact Hmn|].
      apply Qlt_le_weak. exact HP.
    - rewrite inject_Z_mult, <- Qmult_assoc, (Qmult_comm (inject_Z K) P), HK.
      rewrite Qmult_1_r. apply Qle_refl. }
  assert (Hover : Qle_bool (PyFloat.pow2 1024) (inject_Z m * P)%Q = false).
  { destruct (Qle_bool _ _) eqn:E; [|reflexivity]. exfalso.
    apply Qle_bool_iff in E.
    assert (Hbig : (inject_Z n < PyFloat.pow2 1024)%Q).
    { change (PyFloat.pow2 1024) with (inject_Z (2 ^ 1024)).
      rewrite <- Zlt_Qlt. apply (Z.lt_trans _ _ _ H53). reflexivity. }
    apply (Qlt_irrefl (inject_Z n)).
    apply (Qlt_le_trans _ _ _ Hbig). apply (Qle_trans _ _ _ E Hvn). }
  rewrite Hover.
  assert (Hq0 : Qle_bool 0 q = true) by (apply Qle_bool_iff; exact H0).
  rewrite Hq0. eexists. split; [reflexivity|].
  rewrite Qred_correct. split; assumption.
Qed.

Lemma pow2_monotona u e : u <= e -> (PyFloat.pow2 u <= PyFloat.pow2 e)%Q.
Proof.
  intros H. unfold PyFloat.pow2.
  destruct (Z.leb_spec 0 u) as [Hu|Hu], (Z.leb_spec 0 e) as [He|He]; try lia.
  - rewrite <- Zle_Qle. apply Z.pow_le_mono_r; lia.
  - assert (H1 : 0 < 2 ^ (- u)) by (apply Z.pow_pos_nonneg; lia).
    assert (H2 : 0 < 2 ^ e) by (apply Z.pow_pos_nonneg; lia).
    unfold Qle. cbn [Qnum Qden inject_Z]. rewrite Z2Pos.id by lia. nia.
  - assert (H1 : 0 < 2 ^ (- u)) by (apply Z.pow_pos_nonneg; lia).
    assert (H2 : 0 < 2 ^ (- e)) by (apply Z.pow_pos_nonneg; lia).
    assert (H3 : 2 ^ (- e) <= 2 ^ (- u)) by (apply Z.pow_le_mono_r; lia).
    unfold Qle. cbn [Qnum Qden]. rewrite !Z2Pos.id by lia. lia.
Qed.

(** [ilog2 a] is not above the binary logarithm of [a]. *)
Lemma ilog2_inferior a :
  (0 < a)%Q -> (PyFloat.pow2 (PyFloat.ilog2 a) <= a)%Q.
Proof.
  intros Hpos. unfold PyFloat.ilog2.
  set (e0 := Z.log2 (Qnum a) - Z.log2 (Z.pos (Qden a))).
  destruct (Qle_bool (PyFloat.pow2 e0) a) eqn:E.
  - apply Qle_bool_iff. exact E.
  - assert (Hnum : 0 < Qnum a).
    { unfold Qlt in Hpos. cbn in Hpos. lia. }
    pose proof (Z.log2_spec (Qnum a) Hnum) as [Hn1 _].
    pose proof (Z.log2_spec (Z.pos (Qden a)) (Pos2Z.is_pos _)) as [_ Hd2].
    pose proof (Z.log2_nonneg (Z.pos (Qden a))) as Hd0.
    pose proof (Z.log2_nonneg (Qnum a)) as Hn0.
    set (ld := Z.log2 (Z.pos (Qden a))) in *.
    set (ln := Z.log2 (Qnum a)) in *.
    replace (Z.succ ld) with (ld + 1) in Hd2 by lia.
    unfold PyFloat.pow2. destruct (Z.leb_spec 0 (e0 - 1)) as [He|He].
    + assert (Hp : 2 ^ (e0 - 1) * 2 ^ (ld + 1) = 2 ^ ln).
      { rewrite <- Z.pow_add_r by lia. f_equal. unfold e0. lia. }
      assert (Hp0 : 0 < 2 ^ (e0 - 1)) by (apply Z.pow_pos_nonneg; lia).
      unfold Qle. cbn [Qnum Qden inject_Z]. nia.
    + assert (Hp : 2 ^ ln * 2 ^ (- (e0 - 1)) = 2 ^ (ld + 1)).
      { rewrite <- Z.pow_add_r by lia. f_equal. unfold e0. lia. }
      assert (Hp0 : 0 < 2 ^ (- (e0 - 1))) by (apply Z.pow_pos_nonneg; lia).
      unfold Qle. cbn [Qnum Qden]. rewrite Z2Pos.id by lia. nia.
Qed.

Lemma round_half_even_piso x : Qfloor x <= PyFloat.round_half_even x.
Proof.
  unfold PyFloat.round_half_even.
  destruct (Qcompare _ _); [destruct (Z.even _)| |]; lia.
Qed.

(** A value that is at least the smallest positive float does not
    round to zero. *)
Lemma b64_positivo q r :
  (PyFloat.pow2 (-1074) <= q)%Q -> PyFloat.b64 q = PFin r -> (0 < r)%Q.
Proof.
  intros Hmin H.
  assert (Hpos : (0 < q)%Q).
  { apply (Qlt_le_trans _ (PyFloat.pow2 (-1074))); [apply pow2_positivo | exact Hmin]. }
  unfold PyFloat.b64 in H.
  destruct (Qeq_bool q 0) eqn:Ez.
  { apply Qeq_bool_iff in Ez. rewrite Ez in Hpos. exfalso. exact (Qlt_irrefl 0 Hpos). }
  assert (Habs : Qabs q = q).
  { destruct q as [a d]. unfold Qlt in Hpos. cbn in Hpos. cbn.
    rewrite Z.abs_eq by lia. reflexivity. }
  rewrite Habs in H.
  set (u := Z.max (PyFloat.ilog2 q - 52) (-1074)) in *.
  assert (Hu : (PyFloat.pow2 u <= q)%Q).
  { unfold u. destruct (Z.max_spec (PyFloat.ilog2 q - 52) (-1074)) as [[_ E]|[_ E]];
      rewrite E.
    - exact Hmin.
    - apply (Qle_trans _ (PyFloat.pow2 (PyFloat.ilog2 q))).
      + apply pow2_monotona. lia.
      + apply ilog2_inferior. exact Hpos. }
  pose proof (pow2_positivo u) as HP.
  assert (H1 : (1 <= q / PyFloat.pow2 u)%Q).
  { apply Qle_shift_div_l; [exact HP|]. rewrite Qmult_1_l. exact Hu. }
  assert (Hm : 1 <= PyFloat.round_half_even (q / PyFloat.pow2 u)).
  { apply (Z.le_trans _ (Qfloor (q / PyFloat.pow2 u))); [|apply round_half_even_piso].
    change 1 with (Qfloor 1). apply Qfloor_resp_le. exact H1. }
  destruct (Qle_bool (PyFloat.pow2 1024) _); [discriminate H|].
  assert (Hq0 : Qle_bool 0 q = true)
    by (apply Qle_bool_iff; apply Qlt_le_weak; exact Hpos).
  rewrite Hq0 in H.
  assert (Hr : r = match PFin r with PFin x => x | _ => r end) by reflexivity.
  rewrite <- H in Hr. rewrite Hr, Qred_correct.
  apply Qmult_lt_0_compat; [|exact HP].
  rewrite <- (Zlt_Qlt 0). lia.
Qed.

(** ** Descriptive statistics *)

Section Descritivas.

Local Open Scope Q_scope.

(** The standard library's [stdev] and [variance]: any functions from
    the values to a finite float or an exception. *)
Variables stdev variance : list Q -> resultado Q.

Lemma positivo_falso m : m <= 0 -> negb (Qle_bool m 0) = false.
Proof.
  intros H. apply negb_false_iff. apply Qle_bool_iff. exact H.
Qed.

Lemma positivo_verdadeiro m : 0 < m -> negb (Qle_bool m 0) = true.
Proof.
  intros H. apply negb_true_iff. destruct (Qle_bool m 0) eqn:E; [|reflexivity].
  apply Qle_bool_iff in E. exfalso. apply (Qlt_irrefl 0).
  apply (Qlt_le_trans _ m); assumption.
Qed.

Lemma truediv_positivo s m :
  0 < m -> PyFloat.truediv s m = Ok (PyFloat.div s m).
Proof.
  intros H. unfold PyFloat.truediv. destruct (Qeq_bool m 0) eqn:E; [|reflexivity].
  apply Qeq_bool_iff in E. rewrite E in H. exfalso. exact (Qlt_irrefl 0 H).
Qed.

Lemma amplitude_unica x :
  PyFloat.b64 (Estatisticas.maximo [x] - Estatisticas.minimo [x]) = PFin 0.
Proof.
  cbn [Estatisticas.maximo Estatisticas.minimo fold_left]. unfold PyFloat.b64.
  assert (E : Qeq_bool (x - x) 0 = true) by (apply Qeq_bool_iff; ring).
  rewrite E. reflexivity.
Qed.

Lemma ltb_dois (valores : list Q) :
  (1 < length valores)%nat -> Nat.ltb 1 (length valores) = true.
Proof. intros H. apply Nat.ltb_lt. exact H. Qed.

Lemma soma_limites (lo hi : Q) (l : list Q) :
  Forall (fun x => lo <= x /\ x <= hi) l ->
  lo * inject_Z (Z.of_nat (length l)) <= Estatisticas.soma l
  /\ Estatisticas.soma l <= hi * inject_Z (Z.of_nat (length l)).
Proof.
  induction 1 as [|x l [Hlo Hhi] _ [IH1 IH2]].
  - cbn. split; rewrite Qmult_0_r; apply Qle_refl.
  - cbn [length Estatisticas.soma fold_right].
    fold (Estatisticas.soma l).
    rewrite Nat2Z.inj_succ. unfold Z.succ. rewrite inject_Z_plus.
    split.
    + setoid_replace (lo * (inject_Z (Z.of_nat (length l)) + inject_Z 1))
        with (lo + lo * inject_Z (Z.of_nat (length l))) by ring.
      apply Qplus_le_compat; assumption.
    + setoid_replace (hi * (inject_Z (Z.of_nat (length l)) + inject_Z 1))
        with (hi + hi * inject_Z (Z.of_nat (length l))) by ring.
      apply Qplus_le_compat; assumption.
Qed.

(** The mean of floats that are positive and no more than an integer
    below [2^53] is a float, positive and no more than that integer. *)
Lemma mean_positiva (valores : list Q) (n : Z) :
  valores <> [] -> (n < 2 ^ 53)%Z ->
  Forall (fun x => PyFloat.pow2 (-1074) <= x /\ x <= inject_Z n) valores ->
  exists m, Estatisticas.mean valores = Ok m /\ 0 < m /\ m <= inject_Z n.
Proof.
  intros Hne H53 Hf. destruct (soma_limites Hf) as [Hlo Hhi].
  set (N := inject_Z (Z.of_nat (length valores))) in *.
  assert (HN : 0 < N).
  { unfold N. rewrite <- (Zlt_Qlt 0).
    destruct valores; [congruence | cbn [length]; lia]. }
  assert (Hq1 : PyFloat.pow2 (-1074) <= Estatisticas.soma valores / N)
    by (apply Qle_shift_div_l; assumption).
  assert (Hq2 : Estatisticas.soma valores / N <= inject_Z n)
    by (apply Qle_shift_div_r; assumption).
  assert (Hq0 : 0 <= Estatisticas.soma valores / N).
  { apply (Qle_trans _ (PyFloat.pow2 (-1074))); [|exact Hq1].
    apply Qlt_le_weak. apply pow2_positivo. }
  destruct (b64_limite Hq0 Hq2 H53) as [r [Hr [_ Hrn]]].
  exists r. split.
  - unfold Estatisticas.mean. destruct valores; [congruence|].
    unfold Estatisticas.converter. fold N. rewrite Hr. reflexivity.
  - split; [exact (b64_positivo Hq1 Hr) | exact Hrn].
Qed.

(** C7.  The values are floats and so are the results; [stdev] and
    [variance] are the standard library's, whatever they answer.
    With no value the dict is left unset.  With fewer than two values
    the coefficient of variation is 0 and nothing is computed for it,
    so nothing can raise; with one value the dict holds the mean, 0
    for the standard deviation, 0 for the variance, 0 for the range
    and 0 for the coefficient.  With two values or more: when the
    mean is 0 or negative the coefficient is 0, and no division takes
    place; when the mean is positive the coefficient is the float
    quotient of the library's standard deviation by the mean, times
    100 in floats, and the dict holds the library's standard deviation
    and variance.  The coefficient raises only what [mean] or [stdev]
    raised: the division never raises.  On values that are positive
    floats and no more than 10^8, which is what the query gives from a
    column [Numeric(10, 2)] filtered by [> 0], the mean is a positive
    float: [mean] does not raise and the case of a mean that is not
    positive does not arise; with one such value the dict is set, with
    the zeros, and nothing raises. *)
Theorem coeficiente_variacao_spec :
  Estatisticas.estatisticas_descritivas stdev variance [] = Ok None
  /\ (forall valores,
         (length valores < 2)%nat ->
         Estatisticas.coeficiente stdev valores = Ok (PFin 0))
  /\ (forall x m,
         Estatisticas.mean [x] = Ok m ->
         Estatisticas.estatisticas_descritivas stdev variance [x]
         = Ok (Some (Estatisticas.mkDescritivas m 0 0 (PFin 0) (PFin 0))))
  /\ (forall valores m,
         (1 < length valores)%nat ->
         Estatisticas.mean valores = Ok m ->
         m <= 0 ->
         Estatisticas.coeficiente stdev valores = Ok (PFin 0))
  /\ (forall valores m s,
         (1 < length valores)%nat ->
         Estatisticas.mean valores = Ok m ->
         0 < m ->
         stdev valores = Ok s ->
         Estatisticas.coeficiente stdev valores
         = Ok (PyFloat.vezes (PyFloat.div s m) 100))
  /\ (forall valores m s v,
         (1 < length valores)%nat ->
         Estatisticas.mean valores = Ok m ->
         0 < m ->
         stdev valores = Ok s ->
         variance valores = Ok v ->
         Estatisticas.estatisticas_descritivas stdev variance valores
         = Ok (Some (Estatisticas.mkDescritivas m s v
                       (PyFloat.b64 (Estatisticas.maximo valores
                                     - Estatisticas.minimo valores))
                       (PyFloat.vezes (PyFloat.div s m) 100))))
  /\ (forall valores e,
         Estatisticas.coeficiente stdev valores = Raise e ->
         (1 < length valores)%nat
         /\ (Estatisticas.mean valores = Raise e \/ stdev valores = Raise e))
  /\ (forall valores,
         valores <> [] ->
         Forall (fun x => PyFloat.pow2 (-1074) <= x /\ x <= inject_Z (10 ^ 8))
           valores ->
         exists m, Estatisticas.mean valores = Ok m /\ 0 < m)
  /\ (forall x,
         PyFloat.pow2 (-1074) <= x -> x <= inject_Z (10 ^ 8) ->
         exists m,
           0 < m
           /\ Estatisticas.estatisticas_descritivas stdev variance [x]
              = Ok (Some (Estatisticas.mkDescritivas m 0 0 (PFin 0) (PFin 0)))).
Proof.
  assert (Hum : forall x m,
             Estatisticas.mean [x] = Ok m ->
             Estatisticas.estatisticas_descritivas stdev variance [x]
             = Ok (Some (Estatisticas.mkDescritivas m 0 0 (PFin 0) (PFin 0)))).
  { intros x m Hm. unfold Estatisticas.estatisticas_descritivas.
    rewrite Hm. cbn [bind length Nat.ltb Nat.leb].
    unfold Estatisticas.coeficiente. cbn [bind length Nat.ltb Nat.leb].
    rewrite amplitude_unica. reflexivity. }
  assert (Hpos : forall valores,
             valores <> [] ->
             Forall (fun x => PyFloat.pow2 (-1074) <= x /\ x <= inject_Z (10 ^ 8))
               valores ->
             exists m, Estatisticas.mean valores = Ok m /\ 0 < m).
  { intros valores Hne Hf.
    destruct (@mean_positiva valores (10 ^ 8) Hne eq_refl Hf) as [m [Hm [H0 _]]].
    exists m. split; assumption. }
  split; [reflexivity|].
  split.
  { intros valores Hn. unfold Estatisticas.coeficiente.
    destruct (Nat.ltb_spec 1 (length valores)) as [H|_]; [lia | reflexivity]. }
  split; [exact Hum|].
  split.
  { intros valores m Hn Hm H0. unfold Estatisticas.coeficiente.
    rewrite (ltb_dois _ Hn), Hm. cbn [bind].
    rewrite (positivo_falso H0). reflexivity. }
  split.
  { intros valores m s Hn Hm H0 Hs. unfold Estatisticas.coeficiente.
    rewrite (ltb_dois _ Hn), Hm. cbn [bind].
    rewrite (positivo_verdadeiro H0), Hs. cbn [bind].
    rewrite (truediv_positivo s H0). reflexivity. }
  split.
  { intros valores m s v Hn Hm H0 Hs Hv.
    unfold Estatisticas.estatisticas_descritivas.
    destruct valores as [|x r] eqn:Ev; [simpl in Hn; lia|].
    rewrite Hm. cbn [bind]. rewrite (ltb_dois _ Hn), Hs, Hv. cbn [bind].
    unfold Estatisticas.coeficiente.
    rewrite (ltb_dois _ Hn), Hm. cbn [bind].
    rewrite (positivo_verdadeiro H0), Hs. cbn [bind].
    rewrite (truediv_positivo s H0). reflexivity. }
  split.
  2:{ split; [exact Hpos|]. intros x Hx1 Hx2.
      destruct (Hpos [x]) as [m [Hm H0]];
        [discriminate | constructor; [split; assumption | constructor] |].
      exists m. split; [exact H0 | exact (Hum _ _ Hm)]. }
  intros valores e. unfold Estatisticas.coeficiente.
  destruct (Nat.ltb_spec 1 (length valores)) as [Hn|Hn]; [|discriminate].
  intros H. split; [exact Hn|].
  destruct (Estatisticas.mean valores) as [m|e'] eqn:Hm; cbn [bind] in H.
  - destruct (negb (Qle_bool m 0)) eqn:Hp; [|discriminate H].
    destruct (stdev valores) as [s|e''] eqn:Hs; cbn [bind] in H.
    + assert (H0 : 0 < m).
      { apply negb_true_iff in Hp. apply Qnot_le_lt. intros Hle.
        apply Qle_bool_iff in Hle. congruence. }
      rewrite (truediv_positivo s H0) in H. discriminate H.
    + right. congruence.
  - left. congruence.
Qed.

End Descritivas.

Lemma coeficiente_variacao_spec_witness :
  let stdev := fun _ : list Q => Ok (3 # 2)%Q in
  let variance := fun _ : list Q => Ok (9 # 4)%Q in
  Estatisticas.coeficiente stdev [5%Q] = Ok (PFin 0)
  /\ Estatisticas.mean [5%Q] = Ok 5%Q
  /\ Estatisticas.estatisticas_descritivas stdev variance [5%Q]
     = Ok (Some (Estatisticas.mkDescritivas 5 0 0 (PFin 0) (PFin 0)))
  /\ Estatisticas.mean [(-1)%Q; 1%Q] = Ok 0%Q
  /\ Estatisticas.coeficiente stdev [(-1)%Q; 1%Q] = Ok (PFin 0)
  /\ Estatisticas.mean [1%Q; 3%Q] = Ok 2%Q
  /\ Estatisticas.coeficiente stdev [1%Q; 3%Q] = Ok (PFin 75)
  /\ Estatisticas.estatisticas_descritivas stdev variance [1%Q; 3%Q]
     = Ok (Some (Estatisticas.mkDescritivas 2 (3 # 2) (9 # 4) (PFin 2) (PFin 75)))
  /\ (forall e, Estatisticas.coeficiente (fun _ => Raise StatisticsError) [1%Q; 3%Q]
                = Raise e -> e = StatisticsError)
  /\ exists m, Estatisticas.mean [1%Q; 3%Q] = Ok m /\ (0 < m)%Q.
Proof.
  intros stdev variance.
  destruct (coeficiente_variacao_spec stdev variance)
    as [_ [Hmenos [Hum [Hzero [Hcv [Hdict [_ [Hpos _]]]]]]]].
  assert (M5 : Estatisticas.mean [5%Q] = Ok 5%Q) by (vm_compute; reflexivity).
  assert (M0 : Estatisticas.mean [(-1)%Q; 1%Q] = Ok 0%Q) by (vm_compute; reflexivity).
  assert (M2 : Estatisticas.mean [1%Q; 3%Q] = Ok 2%Q) by (vm_compute; reflexivity).
  assert (L2 : forall a b : Q, (1 < length [a; b])%nat) by (intros; simpl; lia).
  split; [apply Hmenos; simpl; lia|].
  split; [exact M5|].
  split; [exact (Hum _ _ M5)|].
  split; [exact M0|].
  split; [apply (Hzero _ _ (L2 _ _) M0); apply Qle_refl|].
  split; [exact M2|].
  split.
  { exact (Hcv [1%Q; 3%Q] 2%Q (3 # 2)%Q (L2 _ _) M2 eq_refl eq_refl). }
  split.
  { exact (Hdict [1%Q; 3%Q] 2%Q (3 # 2)%Q (9 # 4)%Q (L2 _ _) M2 eq_refl eq_refl eq_refl). }
  split.
  { intros e He.
    destruct (coeficiente_variacao_spec (fun _ => Raise StatisticsError) variance)
      as [_ [_ [_ [_ [_ [_ [Hraise _]]]]]]].
    destruct (Hraise _ _ He) as [_ [H|H]].
    - rewrite M2 in H. discriminate H.
    - congruence. }
  apply Hpos; [discriminate|].
  repeat constructor; unfold Qle; cbn; lia.
Defined.

(** ** The pay disparity insight *)

Section Disparidade.

Local Open Scope Q_scope.

(** C8 as stated fails when the minimum is negative: both extremes are
    truthy, one insight is appended, but the guard [minima > 0] makes
    its ratio 0 ("0.0x"), not max / min. *)
Lemma disparidade_minimo_negativo :
  ~ disparidade_declarada base_negativa 2023 [].
Proof.
  intros H.
  specialize (H (100 # 1) (-50 # 1) eq_refl eq_refl eq_refl eq_refl).
  vm_compute in H. discriminate H.
Qed.

Lemma verdade_some q : Insights.verdade (Some q) = true <-> ~ q == 0.
Proof.
  unfold Insights.verdade. rewrite negb_true_iff.
  destruct (Qeq_bool q 0) eqn:E.
  - apply Qeq_bool_iff in E. split; [discriminate | tauto].
  - split; [|reflexivity]. intros _ H. apply Qeq_bool_iff in H. congruence.
Qed.

(** C8, amended.  In [_analise_remuneracao], when the year's maximum
    and minimum net pay are both truthy exactly one insight is appended
    to the accumulator; its ratio is max / min when the minimum is
    positive and 0 when it is negative, and its value and description
    carry the ratio with one decimal.  For max = 9000 and min = 1500
    the ratio is 6 and both texts contain "6.0".  When either extreme
    is zero or absent the accumulator is returned unchanged. *)
Theorem disparidade_salarial_spec :
  forall b ano insights,
    (forall mx mn,
        Insights.sql_max (pagos b ano) = Some mx ->
        Insights.sql_min (pagos b ano) = Some mn ->
        ~ mx == 0 -> ~ mn == 0 ->
        snd (Insights._analise_remuneracao b ano insights)
        = insights ++ [Insights.insight_disparidade ano mx mn]
        /\ Insights.valor (Insights.insight_disparidade ano mx mn)
           = (PyFloat.format_1f (Insights.disparidade mx mn) ++ "x")%string
        /\ (0 < mn -> Insights.disparidade mx mn = mx / mn)
        /\ (mn < 0 -> Insights.disparidade mx mn = 0))
    /\ (Insights.verdade (Insights.sql_max (pagos b ano))
        && Insights.verdade (Insights.sql_min (pagos b ano)) = false ->
        snd (Insights._analise_remuneracao b ano insights) = insights)
    /\ Insights.disparidade 9000 1500 == 6
    /\ Insights.valor (Insights.insight_disparidade ano 9000 1500) = "6.0x"%string
    /\ PyStr.contains "6.0"
         (Insights.descricao (Insights.insight_disparidade ano 9000 1500)) = true.
Proof.
  intros b ano insights. split; [|split; [|split; [|split]]].
  - intros mx mn Hmx Hmn Hx Hn.
    split; [|split; [reflexivity|split]].
    + unfold Insights._analise_remuneracao. fold (pagos b ano).
      rewrite Hmx, Hmn.
      rewrite (proj2 (verdade_some mx) Hx), (proj2 (verdade_some mn) Hn).
      reflexivity.
    + intros Hpos. unfold Insights.disparidade.
      destruct (Qlt_le_dec 0 mn) as [_|Hle]; [reflexivity|].
      exfalso. apply (Qlt_not_le _ _ Hpos Hle).
    + intros Hneg. unfold Insights.disparidade.
      destruct (Qlt_le_dec 0 mn) as [Hlt|_]; [|reflexivity].
      exfalso. apply (Qlt_irrefl 0). apply (Qlt_trans _ mn); assumption.
  - intros Hf. unfold Insights._analise_remuneracao. fold (pagos b ano).
    rewrite Hf. reflexivity.
  - vm_compute. reflexivity.
  - reflexivity.
  - reflexivity.
Qed.

Lemma disparidade_salarial_spec_witness :
  Insights.sql_max (pagos base_negativa 2023) = Some (100 # 1)
  /\ Insights.sql_min (pagos base_negativa 2023) = Some (-50 # 1)
  /\ ~ (100 # 1) == 0 /\ ~ (-50 # 1) == 0 /\ (-50 # 1) < 0
  /\ snd (Insights._analise_remuneracao base_negativa 2023 [])
     = [] ++ [Insights.insight_disparidade 2023 (100 # 1) (-50 # 1)]
  /\ Insights.disparidade (100 # 1) (-50 # 1) = 0.
Proof.
  assert (Hx : ~ (100 # 1) == 0) by (intros H; vm_compute in H; discriminate H).
  assert (Hn : ~ (-50 # 1) == 0) by (intros H; vm_compute in H; discriminate H).
  assert (Hneg : (-50 # 1) < 0) by reflexivity.
  destruct (disparidade_salarial_spec base_negativa 2023 []) as [H _].
  destruct (H (100 # 1) (-50 # 1) eq_refl eq_refl Hx Hn) as [Ha [_ [_ Hz]]].
  split; [reflexivity|]. split; [reflexivity|].
  split; [exact Hx|]. split; [exact Hn|]. split; [exact Hneg|].
  split; [exact Ha | exact (Hz Hneg)].
Defined.

End Disparidade.

(** ** Absence durations *)

Section Invariante.

Variable A : Type.
Variable P : A -> Prop.
Variables (rejeita : list A -> list A -> bool)
          (conflita : list A -> A -> bool).

Lemma inserir_forall t chunk :
  Forall P t -> Forall P chunk -> Forall P (inserir conflita t chunk).
Proof.
  unfold inserir. revert t. induction chunk as [|r chunk IH]; intros t Ht Hc.
  - exact Ht.
  - inversion Hc; subst. simpl. apply IH; [|assumption].
    destruct (conflita t r); [exact Ht|].
    apply Forall_app. split; [exact Ht | constructor; [assumption | constructor]].
Qed.

Lemma laco_forall lotes : forall n total (st : Estado A),
  Forall P (confirmadas st) -> Forall P (visao st) ->
  Forall (Forall P) lotes ->
  Forall P (confirmadas (snd (laco rejeita conflita lotes n total st)))
  /\ Forall P (visao (snd (laco rejeita conflita lotes n total st))).
Proof.
  induction lotes as [|chunk resto IH]; intros n total st Hc Hv Hl.
  - split; assumption.
  - inversion Hl; subst. cbn [laco]. unfold execute.
    destruct (rejeita (visao st) chunk).
    + split; assumption.
    + apply IH; try assumption; simpl; apply inserir_forall; assumption.
Qed.

Lemma em_firstn k (l : list A) x : In x (firstn k l) -> In x l.
Proof.
  intros H. rewrite <- (firstn_skipn k l). apply in_or_app. left. exact H.
Qed.

Lemma em_skipn k (l : list A) x : In x (skipn k l) -> In x l.
Proof.
  intros H. rewrite <- (firstn_skipn k l). apply in_or_app. right. exact H.
Qed.

Lemma fatiar_aux_forall fuel k (l : list A) :
  Forall P l -> Forall (Forall P) (fatiar_aux fuel k l).
Proof.
  revert l. induction fuel as [|fuel IH]; intros l Hl; [constructor|].
  destruct l as [|a l']; [constructor|].
  cbn [fatiar_aux]. constructor.
  - apply Forall_forall. intros x Hx. apply em_firstn in Hx.
    rewrite Forall_forall in Hl. auto.
  - apply IH. apply Forall_forall. intros x Hx.
    apply em_skipn in Hx. rewrite Forall_forall in Hl. auto.
Qed.

Lemma carregar_forall registros (st : Estado A) :
  Forall P (confirmadas st) -> Forall P (visao st) -> Forall P registros ->
  Forall P (confirmadas (snd (carregar rejeita conflita registros st)))
  /\ Forall P (visao (snd (carregar rejeita conflita registros st))).
Proof.
  intros Hc Hv Hr. unfold carregar.
  pose proof (@laco_forall (fatiar chunk_size registros) 1 0 st Hc Hv
                (fatiar_aux_forall _ _ Hr)) as H.
  destruct (laco rejeita conflita (fatiar chunk_size registros) 1 0 st)
    as [[total|e] st']; exact H.
Qed.

End Invariante.

Lemma soma_de_uns (l : list Z) (acc : Z) :
  Forall (fun d => d = 1) l -> fold_left Z.add l acc = acc + Z.of_nat (length l).
Proof.
  revert acc. induction l as [|d l IH]; intros acc H.
  - simpl. lia.
  - inversion H; subst. cbn [fold_left length]. rewrite IH by assumption. lia.
Qed.

Section Afastamentos1Dia.

Variable data : Type.
Variable strptime : string -> string -> resultado data.

Lemma normalizar_um_dia df registros :
  Afastamentos.normalizar strptime df = Ok registros ->
  Forall (fun r => Afastamentos.duracao_dias r = 1) registros.
Proof.
  unfold Afastamentos.normalizar.
  destruct (converter_chaves _) as [convertidas|e]; cbn [bind]; [|discriminate].
  intros H. injection H as <-.
  apply Forall_forall. intros r Hr. apply in_map_iff in Hr.
  destruct Hr as [[[[i a] m] c] [<- _]]. reflexivity.
Qed.

Lemma so_importador_um_dia st :
  so_importador strptime st ->
  Forall (fun r => Afastamentos.duracao_dias r = 1) (confirmadas st)
  /\ Forall (fun r => Afastamentos.duracao_dias r = 1) (visao st).
Proof.
  induction 1 as [l|rejeita conflita df st Hst [IHc IHv]].
  - split; constructor.
  - unfold Afastamentos.importar_afastamentos_dataframe, importar.
    destruct (verificar_colunas _ _); [|split; assumption].
    destruct (Afastamentos.normalizar strptime df) as [registros|e] eqn:E;
      [|split; assumption].
    apply carregar_forall; try assumption.
    apply (normalizar_um_dia _ E).
Qed.

(** C9. Every record the absence importer emits has [duracao_dias = 1],
    whatever the row holds; and over an absence table that only this
    importer has written, the total of absence-days that
    [_analise_afastamentos] reports for a year equals its count of
    absences for that year, whatever the other tables hold. *)
Theorem afastamentos_um_dia :
  (forall df registros,
      Afastamentos.normalizar strptime df = Ok registros ->
      Forall (fun r => Afastamentos.duracao_dias r = 1) registros)
  /\ forall st,
      so_importador strptime st ->
      forall servidores remuneracoes ano insights,
        let resumo :=
          fst (Insights._analise_afastamentos
                 (Insights.mkBase servidores remuneracoes
                    (map (@linha_afastamento data) (confirmadas st)))
                 ano insights) in
        Insights.total_dias_afastamento resumo
        = Z.of_nat (Insights.total_afastamentos resumo).
Proof.
  split; [exact normalizar_um_dia|].
  intros st Hst servidores remuneracoes ano insights.
  destruct (so_importador_um_dia Hst) as [Hc _].
  cbn [fst Insights._analise_afastamentos Insights.total_dias_afastamento
       Insights.total_afastamentos Insights.afastamentos].
  set (l := filter _ _).
  assert (Hl : Forall (fun d => d = 1) (map Insights.a_duracao_dias l)).
  { apply Forall_forall. intros d Hd. apply in_map_iff in Hd.
    destruct Hd as [x [<- Hx]]. unfold l in Hx. apply filter_In in Hx.
    destruct Hx as [Hx _]. apply in_map_iff in Hx. destruct Hx as [r [<- Hr]].
    rewrite Forall_forall in Hc. apply (Hc _ Hr). }
  unfold Insights.sql_sum.
  destruct (map Insights.a_duracao_dias l) as [|d ds] eqn:E.
  - apply (f_equal (@length Z)) in E. rewrite length_map in E.
    rewrite E. reflexivity.
  - rewrite (soma_de_uns 0 Hl).
    rewrite <- E, length_map. lia.
Qed.

End Afastamentos1Dia.

Lemma afastamentos_um_dia_witness :
  let st :=
    snd (Afastamentos.importar_afastamentos_dataframe
           (fun _ _ => Raise (ValueError EmptyString) : resultado unit)
           (fun _ _ => false) (fun _ _ => false)
           df_um_afastamento (mkEstado [] [] [])) in
  length (confirmadas st) = 2%nat
  /\ so_importador (fun _ _ => Raise (ValueError EmptyString) : resultado unit) st
  /\ Insights.total_dias_afastamento
       (fst (Insights._analise_afastamentos
               (Insights.mkBase [12; 15] []
                  (map (@linha_afastamento unit) (confirmadas st)))
               2023 []))
     = 2.
Proof.
  intros st.
  assert (Hst : so_importador
                  (fun _ _ => Raise (ValueError EmptyString) : resultado unit) st).
  { unfold st. apply so_importa. apply so_vazio. }
  split; [vm_compute; reflexivity|]. split; [exact Hst|].
  rewrite (proj2 (afastamentos_um_dia
                    (fun _ _ => Raise (ValueError EmptyString) : resultado unit))
             st Hst [12; 15] [] 2023 []).
  vm_compute. reflexivity.
Defined.

(** ** Deduplication by key *)

Section DropDuplicatesProps.

Variables (A K : Type) (eqb : K -> K -> bool) (chave : A -> K).
Hypothesis eqb_eq : forall a b, eqb a b = true <-> a = b.

Lemma visto_iff k vistos : existsb (eqb k) vistos = true <-> In k vistos.
Proof.
  rewrite existsb_exists. split.
  - intros [x [Hin Hx]]. apply eqb_eq in Hx. subst. exact Hin.
  - intros Hin. exists k. split; [exact Hin | apply eqb_eq; reflexivity].
Qed.

Lemma visto_ext k v1 v2 :
  (forall x, In x v1 <-> In x v2) ->
  existsb (eqb k) v1 = existsb (eqb k) v2.
Proof.
  intros H. apply eq_true_iff_eq. rewrite !visto_iff. apply H.
Qed.

(** Only the set of keys seen so far matters. *)
Lemma aux_ext l : forall v1 v2,
  (forall x, In x v1 <-> In x v2) ->
  drop_duplicates_aux eqb chave v1 l = drop_duplicates_aux eqb chave v2 l.
Proof.
  induction l as [|a l IH]; intros v1 v2 H; [reflexivity|].
  cbn [drop_duplicates_aux]. rewrite (@visto_ext (chave a) _ _ H).
  destruct (existsb (eqb (chave a)) v2).
  - apply IH. exact H.
  - f_equal. apply IH. intros x. simpl. rewrite H. tauto.
Qed.

Lemma aux_app l1 : forall v l2,
  drop_duplicates_aux eqb chave v (l1 ++ l2)
  = drop_duplicates_aux eqb chave v l1
    ++ drop_duplicates_aux eqb chave (map chave l1 ++ v) l2.
Proof.
  induction l1 as [|a l1 IH]; intros v l2; [reflexivity|].
  cbn [app drop_duplicates_aux map].
  destruct (existsb (eqb (chave a)) v) eqn:E.
  - rewrite IH. f_equal. apply aux_ext. intros x.
    apply visto_iff in E. simpl. rewrite !in_app_iff.
    split; [tauto|]. intros [<-|H]; tauto.
  - rewrite IH. cbn [app]. f_equal. f_equal. apply aux_ext. intros x.
    simpl. rewrite !in_app_iff. simpl. tauto.
Qed.

(** The survivors are rows of the batch whose key was not seen. *)
Lemma aux_in l : forall v b,
  In b (drop_duplicates_aux eqb chave v l) -> In b l /\ ~ In (chave b) v.
Proof.
  induction l as [|a l IH]; intros v b H; [destruct H|].
  cbn [drop_duplicates_aux] in H.
  destruct (existsb (eqb (chave a)) v) eqn:E.
  - destruct (IH _ _ H). split; [right|]; assumption.
  - destruct H as [<-|H].
    + split; [left; reflexivity|]. intros Hin. apply visto_iff in Hin. congruence.
    + destruct (IH _ _ H) as [Hl Hv]. split; [right; exact Hl|].
      intros Hin. apply Hv. right. exact Hin.
Qed.

(** Every key of the batch that was not seen has a survivor. *)
Lemma aux_representa l : forall v a,
  In a l -> ~ In (chave a) v ->
  exists b, In b (drop_duplicates_aux eqb chave v l) /\ chave b = chave a.
Proof.
  induction l as [|x l IH]; intros v a Hin Hv; [destruct Hin|].
  cbn [drop_duplicates_aux].
  destruct (existsb (eqb (chave x)) v) eqn:E.
  - destruct Hin as [->|Hin].
    + apply visto_iff in E. contradiction.
    + apply IH; assumption.
  - destruct Hin as [->|Hin]; [exists a; split; [left|]; reflexivity|].
    destruct (eqb (chave a) (chave x)) eqn:Ek.
    + apply eqb_eq in Ek. exists x. split; [left; reflexivity | congruence].
    + destruct (IH (chave x :: v) a Hin) as [b [Hb Hk]].
      * intros [Heq|H]; [|contradiction].
        assert (eqb (chave a) (chave x) = true) by (apply eqb_eq; congruence).
        congruence.
      * exists b. split; [right; exact Hb | exact Hk].
Qed.

Lemma aux_nodup l : forall v,
  NoDup (map chave (drop_duplicates_aux eqb chave v l)).
Proof.
  induction l as [|a l IH]; intros v; [constructor|].
  cbn [drop_duplicates_aux].
  destruct (existsb (eqb (chave a)) v); [apply IH|].
  cbn [map]. constructor; [|apply IH].
  intros Hin. apply in_map_iff in Hin. destruct Hin as [b [Hk Hb]].
  apply aux_in in Hb. destruct Hb as [_ Hv]. apply Hv. left. congruence.
Qed.

Lemma nodup_injetiva (l : list A) x y :
  NoDup (map chave l) -> In x l -> In y l -> chave x = chave y -> x = y.
Proof.
  induction l as [|a l IH]; intros Hnd Hx Hy Hk; [destruct Hx|].
  cbn [map] in Hnd. inversion Hnd as [|? ? Hnot Hnd']; subst.
  destruct Hx as [->|Hx], Hy as [->|Hy]; auto.
  - exfalso. apply Hnot. rewrite Hk. apply in_map. exact Hy.
  - exfalso. apply Hnot. rewrite <- Hk. apply in_map. exact Hx.
Qed.

(** The row at any position of the batch is kept exactly when no row
    before it has its key, and it is then placed after the survivors of
    the rows before it and before the survivors of the rows after it. *)
Lemma drop_duplicates_posicao l1 a l2 :
  drop_duplicates eqb chave (l1 ++ a :: l2)
  = drop_duplicates eqb chave l1
    ++ (if existsb (eqb (chave a)) (map chave l1) then [] else [a])
    ++ drop_duplicates_aux eqb chave (map chave (l1 ++ [a])) l2.
Proof.
  unfold drop_duplicates. rewrite aux_app. f_equal.
  rewrite app_nil_r. cbn [drop_duplicates_aux].
  destruct (existsb (eqb (chave a)) (map chave l1)) eqn:E; cbn [app].
  - apply aux_ext. intros x. rewrite map_app, in_app_iff. simpl.
    apply visto_iff in E. split; [tauto|]. intros [H|[<-|[]]]; assumption.
  - f_equal. apply aux_ext. intros x. rewrite map_app, in_app_iff. simpl. tauto.
Qed.

Lemma drop_duplicates_pares l i j a b :
  nth_error (drop_duplicates eqb chave l) i = Some a ->
  nth_error (drop_duplicates eqb chave l) j = Some b ->
  (i <> j <-> chave a <> chave b).
Proof.
  intros Hi Hj.
  pose proof (aux_nodup l []) as Hnd. fold (drop_duplicates eqb chave l) in Hnd.
  split.
  - intros Hne Hk. apply Hne.
    assert (Hi' : nth_error (map chave (drop_duplicates eqb chave l)) i = Some (chave a))
      by (rewrite nth_error_map, Hi; reflexivity).
    assert (Hj' : nth_error (map chave (drop_duplicates eqb chave l)) j = Some (chave b))
      by (rewrite nth_error_map, Hj; reflexivity).
    rewrite NoDup_nth_error in Hnd. apply Hnd.
    + apply nth_error_Some. congruence.
    + congruence.
  - intros Hk Heq. subst j. apply Hk. congruence.
Qed.

Lemma drop_duplicates_representantes l a b :
  In a l -> In b l ->
  (chave a <> chave b <->
   exists ra rb,
     In ra (drop_duplicates eqb chave l) /\ In rb (drop_duplicates eqb chave l)
     /\ chave ra = chave a /\ chave rb = chave b /\ ra <> rb).
Proof.
  intros Ha Hb. split.
  - intros Hk.
    destruct (@aux_representa l [] a Ha (fun H => H)) as [ra [Hra Hka]].
    destruct (@aux_representa l [] b Hb (fun H => H)) as [rb [Hrb Hkb]].
    exists ra, rb. repeat split; try assumption. intros ->. congruence.
  - intros [ra [rb [Hra [Hrb [Hka [Hkb Hne]]]]]] Hk. apply Hne.
    apply (@nodup_injetiva (drop_duplicates eqb chave l)); try assumption.
    + apply aux_nodup.
    + congruence.
Qed.

End DropDuplicatesProps.

(** ** The key of a catalogue row *)

(** A field without the separator is cut off the key at the first
    separator. *)
Lemma separa_campo a : forall a' x x',
  sem_barra a -> sem_barra a' ->
  (a ++ "|" ++ x = a' ++ "|" ++ x')%string -> a = a' /\ x = x'.
Proof.
  unfold sem_barra.
  induction a as [|c r IH]; intros [|c' r'] x x' Ha Ha' E.
  - cbn in E. injection E as E. split; [reflexivity | exact E].
  - cbn in E. injection E as Ec _. subst c'. cbn in Ha'. discriminate Ha'.
  - cbn in E. injection E as Ec _. subst c. cbn in Ha. discriminate Ha.
  - cbn [append] in E. injection E as Ec E. subst c'.
    cbn [PyStr.todos] in Ha, Ha'.
    apply andb_prop in Ha. apply andb_prop in Ha'.
    destruct (IH r' x x' (proj2 Ha) (proj2 Ha') E) as [Hr Hx].
    subst r'. split; [reflexivity | exact Hx].
Qed.

(** Texts joined with "|" are recovered from the joined text when the
    separator occurs in none of them, the last apart. *)
Lemma concat_injetiva l : forall l',
  length l = length l' ->
  Forall sem_barra (removelast l) -> Forall sem_barra (removelast l') ->
  String.concat "|" l = String.concat "|" l' -> l = l'.
Proof.
  induction l as [|x xs IH]; intros [|y ys] Hlen Hl Hl' E;
    try discriminate Hlen; [reflexivity|].
  destruct xs as [|x2 xs], ys as [|y2 ys]; try discriminate Hlen.
  - cbn in E. subst y. reflexivity.
  - change (removelast (x :: x2 :: xs)) with (x :: removelast (x2 :: xs)) in Hl.
    change (removelast (y :: y2 :: ys)) with (y :: removelast (y2 :: ys)) in Hl'.
    change (String.concat "|" (x :: x2 :: xs))
      with (x ++ "|" ++ String.concat "|" (x2 :: xs))%string in E.
    change (String.concat "|" (y :: y2 :: ys))
      with (y ++ "|" ++ String.concat "|" (y2 :: ys))%string in E.
    destruct (@separa_campo x y _ _ (Forall_inv Hl) (Forall_inv Hl') E) as [Ex Er].
    subst y. f_equal.
    apply IH; [simpl in Hlen |- *; lia | exact (Forall_inv_tail Hl)
               | exact (Forall_inv_tail Hl') | exact Er].
Qed.

(** C3. After the fields are cleaned, the role-catalogue importer keys
    every row by the text [chave_logica] and keeps the first row of
    each key, in the order of the frame.  The key of a row is the
    texts of its seven fields (class, reference, standard, level,
    function, description, function level, as [astype(str)] renders
    them) joined with "|": rows with the same seven texts have the same
    key, and when "|" occurs in none of the first six texts of two rows
    their keys are equal only if their seven texts are; a "|" inside a
    field can make two rows of different fields share a key.  On a
    frame that has a row the normalisation answers the survivors,
    sanitised; on a frame without rows the assignment of the key
    raises [ValueError].  The row at any position is kept exactly when
    no earlier row has an equal key, between the survivors of the rows
    before it and those of the rows after it.  The keys of the
    surviving rows are pairwise distinct: two surviving rows are two
    different rows if and only if their keys differ.  And two rows of
    the batch are represented by two different surviving rows if and
    only if their keys differ: rows of equal key collapse to the first
    of them, rows of different keys never do.  This holds whatever
    text pandas gives the numeric columns. *)
Theorem primeira_ocorrencia_por_chave :
  forall (str_coluna : list (option Z) -> option Z -> string) (df : DataFrame),
    let limpas := map (CargosFuncoes.limpar (columns df)) (linhas df) in
    let chave := CargosFuncoes.chave_logica str_coluna limpas in
    let campos := campos_da_chave str_coluna limpas in
    let unicas := CargosFuncoes.deduplicar str_coluna limpas in
    (forall r, chave r = String.concat "|" (campos r))
    /\ (forall a b, campos a = campos b -> chave a = chave b)
    /\ (forall a b,
           Forall sem_barra (firstn 6 (campos a)) ->
           Forall sem_barra (firstn 6 (campos b)) ->
           chave a = chave b -> campos a = campos b)
    /\ (campos barra_na_funcao <> campos barra_na_descricao
        /\ chave barra_na_funcao = chave barra_na_descricao)
    /\ (linhas df <> [] ->
        CargosFuncoes.normalizar str_coluna df
        = Ok (map CargosFuncoes.sanitizar unicas))
    /\ (linhas df = [] ->
        exists msg,
          CargosFuncoes.normalizar str_coluna df = Raise (ValueError msg))
    /\ (forall l1 a l2,
           limpas = l1 ++ a :: l2 ->
           unicas
           = drop_duplicates String.eqb chave l1
             ++ (if existsb (String.eqb (chave a)) (map chave l1) then [] else [a])
             ++ drop_duplicates_aux String.eqb chave (map chave (l1 ++ [a])) l2)
    /\ NoDup (map chave unicas)
    /\ (forall a, In a unicas -> In a limpas)
    /\ (forall i j a b,
           nth_error unicas i = Some a -> nth_error unicas j = Some b ->
           (i <> j <-> chave a <> chave b))
    /\ (forall a b,
           In a limpas -> In b limpas ->
           (chave a <> chave b <->
            exists ra rb,
              In ra unicas /\ In rb unicas
              /\ chave ra = chave a /\ chave rb = chave b /\ ra <> rb)).
Proof.
  intros str_coluna df limpas chave campos unicas.
  assert (Hforma : forall r, chave r = String.concat "|" (campos r))
    by (intros r; reflexivity).
  split; [exact Hforma|].
  split.
  { intros a b E. rewrite !Hforma, E. reflexivity. }
  split.
  { intros a b Ha Hb E. rewrite !Hforma in E.
    apply concat_injetiva; [reflexivity | exact Ha | exact Hb | exact E]. }
  split.
  { split; [|reflexivity].
    unfold campos, campos_da_chave, barra_na_funcao, barra_na_descricao.
    intros E. apply (f_equal (fun l => nth 4 l EmptyString)) in E.
    cbn in E. discriminate E. }
  split.
  { intros Hne. unfold CargosFuncoes.normalizar.
    destruct (linhas df) eqn:El; [congruence | reflexivity]. }
  split.
  { intros Hv. unfold CargosFuncoes.normalizar. rewrite Hv.
    eexists. reflexivity. }
  split.
  { intros l1 a l2 E.
    pose proof (@drop_duplicates_posicao _ _ String.eqb chave String.eqb_eq l1 a l2) as H.
    rewrite <- E in H. exact H. }
  split; [apply aux_nodup; exact String.eqb_eq|].
  split.
  { intros a Ha. apply (@aux_in _ _ String.eqb chave String.eqb_eq limpas [] a Ha). }
  split.
  { intros i j a b. apply drop_duplicates_pares. exact String.eqb_eq. }
  intros a b. apply drop_duplicates_representantes. exact String.eqb_eq.
Qed.

Lemma primeira_ocorrencia_por_chave_witness :
  let limpas := map (CargosFuncoes.limpar (columns df_cargos_mesma_descricao))
                  (linhas df_cargos_mesma_descricao) in
  limpas = [chefe_a4] ++ chefe_a4 :: [chefe_a5; chefe_b4]
  /\ linhas df_cargos_mesma_descricao <> []
  /\ CargosFuncoes.normalizar str_coluna_simples df_cargos_mesma_descricao
     = Ok (map CargosFuncoes.sanitizar
             (CargosFuncoes.deduplicar str_coluna_simples limpas))
  /\ CargosFuncoes.deduplicar str_coluna_simples limpas
     = [chefe_a4; chefe_a5; chefe_b4]
  /\ CargosFuncoes.chave_logica str_coluna_simples limpas chefe_a4
     = "A|1|2|3|CHEFE|ANALISTA|4"%string
  /\ Forall sem_barra (firstn 6 (campos_da_chave str_coluna_simples limpas chefe_a4))
  /\ Forall sem_barra (firstn 6 (campos_da_chave str_coluna_simples limpas chefe_a5))
  /\ CargosFuncoes.chave_logica str_coluna_simples limpas chefe_a4
     <> CargosFuncoes.chave_logica str_coluna_simples limpas chefe_a5.
Proof.
  intros limpas.
  assert (E : limpas = [chefe_a4] ++ chefe_a4 :: [chefe_a5; chefe_b4])
    by (vm_compute; reflexivity).
  assert (Hne : linhas df_cargos_mesma_descricao <> []) by discriminate.
  destruct (primeira_ocorrencia_por_chave str_coluna_simples df_cargos_mesma_descricao)
    as [Hforma [_ [Hinj [_ [Hnorm [_ [Hpos _]]]]]]].
  fold limpas in Hforma, Hinj, Hnorm, Hpos.
  assert (H4 : Forall sem_barra
                 (firstn 6 (campos_da_chave str_coluna_simples limpas chefe_a4))).
  { rewrite E. repeat constructor. }
  assert (H5 : Forall sem_barra
                 (firstn 6 (campos_da_chave str_coluna_simples limpas chefe_a5))).
  { rewrite E. repeat constructor. }
  split; [exact E|].
  split; [exact Hne|].
  split; [exact (Hnorm Hne)|].
  split; [rewrite (Hpos _ _ _ E); vm_compute; reflexivity|].
  split; [rewrite Hforma, E; vm_compute; reflexivity|].
  split; [exact H4|].
  split; [exact H5|].
  intros Hk. pose proof (Hinj _ _ H4 H5 Hk) as Hc.
  rewrite E in Hc. vm_compute in Hc. discriminate Hc.
Defined.

(** ** Reconciliation of role assignments *)

Lemma valor_eqb_eq a b : FuncaoCargo.valor_eqb a b = true <-> a = b.
Proof.
  destruct a as [x|x], b as [y|y]; simpl;
    try (split; [discriminate | intros H; discriminate H]).
  - rewrite Z.eqb_eq. split; [intros ->; reflexivity | intros H; injection H; auto].
  - rewrite String.eqb_eq. split; [intros ->; reflexivity | intros H; injection H; auto].
Qed.

Lemma opt_eqb_eq a b : FuncaoCargo.opt_eqb a b = true <-> a = b.
Proof.
  destruct a as [x|], b as [y|]; simpl;
    try (split; [discriminate | intros H; discriminate H]).
  - rewrite valor_eqb_eq. split; [intros ->; reflexivity | intros H; injection H; auto].
  - split; reflexivity.
Qed.

Lemma chave_eqb_eq a b : FuncaoCargo.chave_eqb a b = true <-> a = b.
Proof.
  destruct a as [[[a1 a2] a3] a4], b as [[[b1 b2] b3] b4]. simpl.
  rewrite !andb_true_iff, !opt_eqb_eq. split.
  - intros [[[-> ->] ->] ->]. reflexivity.
  - intros H. injection H. auto.
Qed.

Lemma chave_eqb_refl k : FuncaoCargo.chave_eqb k k = true.
Proof. apply chave_eqb_eq. reflexivity. Qed.

Lemma chave_eqb_dif a b : a <> b -> FuncaoCargo.chave_eqb a b = false.
Proof.
  intros H. destruct (FuncaoCargo.chave_eqb a b) eqn:E; [|reflexivity].
  apply chave_eqb_eq in E. contradiction.
Qed.

Lemma get_atribuir_mesmo m k v :
  FuncaoCargo.get (FuncaoCargo.atribuir m k v) k = Some v.
Proof.
  induction m as [|[k' v'] m IH]; simpl.
  - rewrite chave_eqb_refl. reflexivity.
  - destruct (FuncaoCargo.chave_eqb k k') eqn:E; simpl; rewrite E; auto.
Qed.

Lemma get_atribuir_outro m k v k' :
  k <> k' ->
  FuncaoCargo.get (FuncaoCargo.atribuir m k v) k' = FuncaoCargo.get m k'.
Proof.
  intros Hne. induction m as [|[k1 v1] m IH]; simpl.
  - rewrite chave_eqb_dif; [reflexivity | congruence].
  - destruct (FuncaoCargo.chave_eqb k k1) eqn:E; simpl.
    + apply chave_eqb_eq in E. subst k1.
      rewrite chave_eqb_dif; [reflexivity | congruence].
    + destruct (FuncaoCargo.chave_eqb k' k1); [reflexivity | exact IH].
Qed.

Lemma mapa_cargos_snoc todos c :
  FuncaoCargo.mapa_cargos (todos ++ [c])
  = FuncaoCargo.atribuir (FuncaoCargo.mapa_cargos todos)
      (FuncaoCargo.chave_cargo c) (Catalogo.id_cargo_funcao c).
Proof. unfold FuncaoCargo.mapa_cargos. rewrite fold_left_app. reflexivity. Qed.

Lemma ultimo_snoc k todos c :
  ultimo k (todos ++ [c])
  = if FuncaoCargo.chave_eqb (FuncaoCargo.chave_cargo c) k then Some c
    else ultimo k todos.
Proof. unfold ultimo. rewrite rev_unit. reflexivity. Qed.

(** The dict binds a tuple to the id of the last entry that has it. *)
Lemma get_mapa_cargos todos k :
  FuncaoCargo.get (FuncaoCargo.mapa_cargos todos) k
  = option_map Catalogo.id_cargo_funcao (ultimo k todos).
Proof.
  induction todos as [|c todos IH] using rev_ind; [reflexivity|].
  rewrite mapa_cargos_snoc, ultimo_snoc.
  destruct (FuncaoCargo.chave_eqb (FuncaoCargo.chave_cargo c) k) eqn:E.
  - apply chave_eqb_eq in E. subst k. apply get_atribuir_mesmo.
  - rewrite get_atribuir_outro; [exact IH|].
    intros H. rewrite H, chave_eqb_refl in E. discriminate.
Qed.

Lemma ultimo_some k todos c :
  ultimo k todos = Some c -> In c todos /\ FuncaoCargo.chave_cargo c = k.
Proof.
  unfold ultimo. intros H. apply find_some in H. destruct H as [Hin Hk].
  split; [apply in_rev; exact Hin | apply chave_eqb_eq; exact Hk].
Qed.

Lemma ultimo_none k todos :
  ultimo k todos = None <->
  forall c, In c todos -> FuncaoCargo.chave_cargo c <> k.
Proof.
  unfold ultimo. split.
  - intros H c Hin Hk.
    pose proof (find_none _ _ H c (proj1 (in_rev _ _) Hin)) as Hf.
    cbv beta in Hf. rewrite Hk, chave_eqb_refl in Hf. discriminate.
  - intros H. destruct (find _ (rev todos)) as [c|] eqn:E; [|reflexivity].
    apply find_some in E. destruct E as [Hin Hk].
    apply chave_eqb_eq in Hk. apply in_rev in Hin. elim (H c Hin Hk).
Qed.

Lemma ultimo_posicao antes c depois k :
  FuncaoCargo.chave_cargo c = k ->
  (forall c', In c' depois -> FuncaoCargo.chave_cargo c' <> k) ->
  ultimo k (antes ++ c :: depois) = Some c.
Proof.
  intros Hk. revert antes.
  induction depois as [|d depois IH] using rev_ind; intros antes Hd.
  - rewrite ultimo_snoc, Hk, chave_eqb_refl. reflexivity.
  - replace (antes ++ c :: depois ++ [d]) with ((antes ++ c :: depois) ++ [d])
      by (rewrite <- app_assoc; reflexivity).
    rewrite ultimo_snoc, chave_eqb_dif.
    + apply IH. intros c' Hc'. apply Hd. apply in_or_app. left. exact Hc'.
    + apply Hd. apply in_or_app. right. left. reflexivity.
Qed.

Section ReconciliacaoProps.

Variable data : Type.

(** One turn of the loop over a row whose tuple the dict binds to a
    non-zero id. *)
Lemma resolver_casada mapa (row : FuncaoCargo.Linha data) resto registros st k i :
  FuncaoCargo.valores row = Ok k ->
  FuncaoCargo.get mapa k = Some i -> i <> 0 ->
  FuncaoCargo.resolver mapa (row :: resto) registros st
  = FuncaoCargo.resolver mapa resto
      (registros
         ++ [FuncaoCargo.mkVinculo (FuncaoCargo.l_id_servidor row) i
               (FuncaoCargo.l_data_ingresso_funcao row)])
      st.
Proof.
  intros Hv Hg Hi. cbn [FuncaoCargo.resolver]. rewrite Hv, Hg.
  unfold FuncaoCargo.verdadeiro.
  destruct (Z.eqb_spec i 0) as [H0|_]; [contradiction | reflexivity].
Qed.

(** One turn of the loop over a row whose tuple the dict does not
    hold. *)
Lemma resolver_solta mapa (row : FuncaoCargo.Linha data) resto (registros : list (FuncaoCargo.Vinculo data)) st c p n d :
  FuncaoCargo.valores row = Ok (c, p, n, d) ->
  FuncaoCargo.get mapa (c, p, n, d) = None ->
  FuncaoCargo.resolver mapa (row :: resto) registros st
  = FuncaoCargo.resolver mapa resto registros
      (logar (LogSkip (FuncaoCargo.l_id_servidor row) (FuncaoCargo.texto_valor d)) st).
Proof.
  intros Hv Hg. cbn [FuncaoCargo.resolver]. rewrite Hv, Hg. reflexivity.
Qed.

Lemma resolver_spec todos (rows : list (FuncaoCargo.Linha data)) :
  Forall (fun c => Catalogo.id_cargo_funcao c <> 0) todos ->
  Forall (@limpavel data) rows ->
  forall registros st,
    FuncaoCargo.resolver (FuncaoCargo.mapa_cargos todos) rows registros st
    = (Ok (registros ++ flat_map (emitido todos) rows),
       mkEstado (confirmadas st) (visao st)
         (log st ++ flat_map (aviso todos) rows)).
Proof.
  intros Hids. induction rows as [|row resto IH]; intros Hl registros st.
  - simpl. rewrite !app_nil_r. destruct st; reflexivity.
  - inversion Hl as [|? ? [k Hk] Hresto]; subst.
    specialize (IH Hresto).
    destruct (ultimo k todos) as [c|] eqn:Eu.
    + destruct (ultimo_some _ _ Eu) as [Hin _].
      rewrite Forall_forall in Hids.
      rewrite (@resolver_casada _ row resto registros st k (Catalogo.id_cargo_funcao c));
        [|exact Hk | rewrite get_mapa_cargos, Eu; reflexivity | apply Hids; exact Hin].
      rewrite IH. cbn [flat_map]. unfold emitido at 2, aviso at 2.
      rewrite Hk. destruct k as [[[c0 p0] n0] d0]. rewrite Eu.
      rewrite <- app_assoc. reflexivity.
    + destruct k as [[[c0 p0] n0] d0].
      rewrite (@resolver_solta _ row resto registros st c0 p0 n0 d0);
        [|exact Hk | rewrite get_mapa_cargos, Eu; reflexivity].
      rewrite IH. cbn [flat_map]. unfold emitido at 2, aviso at 2.
      rewrite Hk, Eu. cbn [logar confirmadas visao log app].
      rewrite <- app_assoc. reflexivity.
Qed.

(** Every record of the batch carries an id that the dict holds. *)
Lemma resolver_ids mapa (rows : list (FuncaoCargo.Linha data)) :
  forall registros st registros' st',
    FuncaoCargo.resolver mapa rows registros st = (Ok registros', st') ->
    forall v, In v registros' ->
      In v registros
      \/ exists k, FuncaoCargo.get mapa k = Some (FuncaoCargo.id_cargo_funcao v).
Proof.
  induction rows as [|row resto IH]; intros registros st registros' st' H v Hv.
  - injection H as <- _. left. exact Hv.
  - cbn [FuncaoCargo.resolver] in H.
    destruct (FuncaoCargo.valores row) as [k|e]; [|discriminate].
    destruct (FuncaoCargo.get mapa k) as [i|] eqn:Eg.
    + unfold FuncaoCargo.verdadeiro in H.
      destruct (negb (i =? 0)).
      * destruct (IH _ _ _ _ H v Hv) as [Hin|Hex]; [|right; exact Hex].
        apply in_app_or in Hin. destruct Hin as [Hin|[<-|[]]]; [left; exact Hin|].
        right. exists k. exact Eg.
      * destruct k as [[[c0 p0] n0] d0]. apply (IH _ _ _ _ H v Hv).
    + destruct k as [[[c0 p0] n0] d0]. apply (IH _ _ _ _ H v Hv).
Qed.


Variable strptime : string -> string -> resultado data.
Variables (rejeita : list (FuncaoCargo.Vinculo data) -> list (FuncaoCargo.Vinculo data) -> bool)
          (conflita : list (FuncaoCargo.Vinculo data) -> FuncaoCargo.Vinculo data -> bool).

(** The importer, once the columns are there and the rows can be
    cleaned: the batch is what the rows emit, in order, the warnings
    are logged, and the guarded loader takes over. *)
Lemma importar_funcaocargo_passos todos df rows st :
  Forall (fun c => Catalogo.id_cargo_funcao c <> 0) todos ->
  verificar_colunas df (map fst FuncaoCargo.colunas_necessarias) = Ok tt ->
  FuncaoCargo.normalizar strptime df = Ok rows ->
  Forall (@limpavel data) rows ->
  FuncaoCargo.importar_funcaocargo_dataframe strptime rejeita conflita (Ok todos) df st
  = match flat_map (emitido todos) rows with
    | [] =>
        (Ok O,
         logar LogNenhumVinculo
           (mkEstado (confirmadas st) (visao st)
              (log st ++ flat_map (aviso todos) rows)))
    | _ :: _ =>
        carregar_protegido rejeita conflita (flat_map (emitido todos) rows)
          (mkEstado (confirmadas st) (visao st)
             (log st ++ flat_map (aviso todos) rows))
    end.
Proof.
  intros Hids Hv Hn Hl. unfold FuncaoCargo.importar_funcaocargo_dataframe.
  rewrite Hv, Hn, (resolver_spec Hids Hl). cbn [app]. reflexivity.
Qed.

(** C2, amended.  The catalogue's ids being non-zero (they are
    autoincrement keys) and the rows being cleanable, a normalised
    role-assignment row whose cleaned tuple no catalogue entry has
    contributes nothing to the batch and one warning to the log; a row
    whose tuple some entry has contributes exactly one record, made of
    the row's person id, the id of a catalogue entry with that tuple
    and the parsed assignment date, and no warning.  The import
    returns a count and never fails on an unmatched row.  A record of
    the batch is durable at the end whenever the store neither rejects
    the chunk that carries it nor skips it as a conflict.  [todos] is
    what the query of the catalogue returned. *)
Theorem vinculo_resolvido_spec :
  forall todos df rows st,
    Forall (fun c => Catalogo.id_cargo_funcao c <> 0) todos ->
    verificar_colunas df (map fst FuncaoCargo.colunas_necessarias) = Ok tt ->
    FuncaoCargo.normalizar strptime df = Ok rows ->
    Forall (@limpavel data) rows ->
    limpa st ->
    let registros := flat_map (emitido todos) rows in
    let st1 := mkEstado (confirmadas st) (visao st)
                 (log st ++ flat_map (aviso todos) rows) in
    let r := FuncaoCargo.importar_funcaocargo_dataframe strptime rejeita
               conflita (Ok todos) df st in
    (forall row k,
        In row rows -> FuncaoCargo.valores row = Ok k ->
        ((forall c, In c todos -> FuncaoCargo.chave_cargo c <> k) ->
         emitido todos row = []
         /\ exists d, aviso todos row = [LogSkip (FuncaoCargo.l_id_servidor row) d])
        /\ (forall c, In c todos -> FuncaoCargo.chave_cargo c = k ->
            exists c',
              In c' todos /\ FuncaoCargo.chave_cargo c' = k
              /\ emitido todos row
                 = [FuncaoCargo.mkVinculo (FuncaoCargo.l_id_servidor row)
                      (Catalogo.id_cargo_funcao c')
                      (FuncaoCargo.l_data_ingresso_funcao row)]
              /\ aviso todos row = []))
    /\ r = match registros with
           | [] => (Ok O, logar LogNenhumVinculo st1)
           | _ :: _ => carregar_protegido rejeita conflita registros st1
           end
    /\ (exists total, fst r = Ok total)
    /\ (forall v,
           In v registros ->
           (forall t chunk, In v chunk -> rejeita t chunk = false) ->
           (forall t, conflita t v = false) ->
           In v (confirmadas (snd r))).
Proof.
  intros todos df rows st Hids Hv Hn Hl Hst registros st1 r.
  assert (Hr : r = match registros with
                   | [] => (Ok O, logar LogNenhumVinculo st1)
                   | _ :: _ => carregar_protegido rejeita conflita registros st1
                   end)
    by (apply importar_funcaocargo_passos; assumption).
  split; [|split; [exact Hr|split]].
  - intros row k Hin Hk. split.
    + intros Hnone. apply ultimo_none in Hnone.
      unfold emitido, aviso. rewrite Hk. destruct k as [[[c0 p0] n0] d0].
      rewrite Hnone. split; [reflexivity | eexists; reflexivity].
    + intros c Hc Hck.
      destruct (ultimo k todos) as [c'|] eqn:Eu.
      * destruct (ultimo_some _ _ Eu) as [Hin' Hk'].
        exists c'. split; [exact Hin'|]. split; [exact Hk'|].
        unfold emitido, aviso. rewrite Hk. destruct k as [[[c0 p0] n0] d0].
        rewrite Eu. split; reflexivity.
      * exfalso. apply (proj1 (ultimo_none k todos) Eu c Hc Hck).
  - rewrite Hr. destruct registros as [|v resto]; [exists O; reflexivity|].
    destruct (carregar_protegido_ok rejeita conflita (v :: resto) st1)
      as [novos [H _]].
    rewrite H. eexists. reflexivity.
  - intros v Hin Hrej Hcon. rewrite Hr.
    destruct registros as [|v0 resto]; [destruct Hin|].
    apply carregar_protegido_persiste; assumption.
Qed.

End ReconciliacaoProps.

(** C2 as stated fails when the store rejects the chunk: the row of
    person 12 has the tuple of two catalogue entries, its record is
    put in the batch, the chunk is rolled back, and no record of
    person 12 is durable when the import returns 0. *)
Lemma vinculo_casado_nao_persistido :
  ~ casada_persistida sem_data (fun _ _ => true) (fun _ _ => false)
      catalogo_exemplo df_vinculos (mkEstado [] [] []).
Proof.
  intros H.
  destruct (H [linha_analista; linha_motorista] linha_analista chave_analista
              (Catalogo.mkCargoFuncao 7 (Some "A"%string) (Some 1) (Some 2) (Some 3)
                 None "ANALISTA"%string None)
              eq_refl (or_introl eq_refl) eq_refl (or_introl eq_refl) eq_refl)
    as [c' [_ [_ Hin]]].
  vm_compute in Hin. exact Hin.
Qed.

Lemma vinculo_resolvido_spec_witness :
  FuncaoCargo.importar_funcaocargo_dataframe sem_data
    (fun _ _ => false) (fun _ _ => false) (Ok catalogo_exemplo) df_vinculos
    (mkEstado [] [] [])
  = carregar_protegido (fun _ _ => false) (fun _ _ => false)
      [FuncaoCargo.mkVinculo 12 9 None]
      (mkEstado [] [] [LogSkip 15 "MOTORISTA"])
  /\ In (FuncaoCargo.mkVinculo 12 9 (None : option unit))
       (confirmadas
          (snd (FuncaoCargo.importar_funcaocargo_dataframe sem_data
                  (fun _ _ => false) (fun _ _ => false) (Ok catalogo_exemplo)
                  df_vinculos (mkEstado [] [] [])))).
Proof.
  assert (Hids : Forall (fun c => Catalogo.id_cargo_funcao c <> 0) catalogo_exemplo).
  { repeat constructor; discriminate. }
  assert (Hl : Forall (@limpavel unit) [linha_analista; linha_motorista]).
  { repeat constructor; eexists; vm_compute; reflexivity. }
  destruct (@vinculo_resolvido_spec unit sem_data (fun _ _ => false) (fun _ _ => false)
              catalogo_exemplo df_vinculos [linha_analista; linha_motorista]
              (mkEstado [] [] []) Hids eq_refl eq_refl Hl eq_refl)
    as [_ [Hr [_ Hp]]].
  split; [exact Hr|].
  apply Hp; [left; reflexivity | reflexivity | reflexivity].
Defined.

(** ** Catalogue entries that share a tuple *)

Lemma ids_unicos todos a b :
  NoDup (map Catalogo.id_cargo_funcao todos) ->
  In a todos -> In b todos ->
  Catalogo.id_cargo_funcao a = Catalogo.id_cargo_funcao b -> a = b.
Proof.
  induction todos as [|c todos IH]; intros Hnd Ha Hb Hid; [destruct Ha|].
  cbn [map] in Hnd. inversion Hnd as [|? ? Hnot Hnd']; subst.
  destruct Ha as [->|Ha], Hb as [->|Hb]; auto.
  - exfalso. apply Hnot. rewrite Hid. apply in_map. exact Hb.
  - exfalso. apply Hnot. rewrite <- Hid. apply in_map. exact Ha.
Qed.

(** C10. Let [c] be the entry with tuple [k] that the loading loop
    meets last: the catalogue is [antes ++ c :: depois] and no entry of
    [depois] has the tuple.  Then the lookup map binds [k] to the id of
    [c]; every role-assignment row whose cleaned tuple is [k] is put in
    the batch with that id; and, the ids being the distinct primary
    keys of the table, no record of the batch carries the id of any
    other entry with tuple [k]. *)
Theorem ultimo_cargo_vence :
  forall (data : Type) antes c depois k,
    let todos := antes ++ c :: depois in
    let mapa := FuncaoCargo.mapa_cargos todos in
    NoDup (map Catalogo.id_cargo_funcao todos) ->
    Catalogo.id_cargo_funcao c <> 0 ->
    FuncaoCargo.chave_cargo c = k ->
    (forall c', In c' depois -> FuncaoCargo.chave_cargo c' <> k) ->
    FuncaoCargo.get mapa k = Some (Catalogo.id_cargo_funcao c)
    /\ (forall (row : FuncaoCargo.Linha data) resto registros st,
           FuncaoCargo.valores row = Ok k ->
           FuncaoCargo.resolver mapa (row :: resto) registros st
           = FuncaoCargo.resolver mapa resto
               (registros
                  ++ [FuncaoCargo.mkVinculo (FuncaoCargo.l_id_servidor row)
                        (Catalogo.id_cargo_funcao c)
                        (FuncaoCargo.l_data_ingresso_funcao row)])
               st)
    /\ (forall (rows : list (FuncaoCargo.Linha data)) st registros st',
           FuncaoCargo.resolver mapa rows [] st = (Ok registros, st') ->
           forall c', In c' todos -> FuncaoCargo.chave_cargo c' = k -> c' <> c ->
           forall v, In v registros ->
             FuncaoCargo.id_cargo_funcao v <> Catalogo.id_cargo_funcao c').
Proof.
  intros data antes c depois k todos mapa Hnd Hid Hk Hdepois.
  assert (Hu : ultimo k todos = Some c) by (apply ultimo_posicao; assumption).
  assert (Hg : FuncaoCargo.get mapa k = Some (Catalogo.id_cargo_funcao c)).
  { unfold mapa. rewrite get_mapa_cargos, Hu. reflexivity. }
  split; [exact Hg|]. split.
  - intros row resto registros st Hv. apply (@resolver_casada data mapa row resto registros st k _ Hv Hg Hid).
  - intros rows st registros st' Hres c' Hc' Hk' Hne v Hv Heq.
    destruct (@resolver_ids data mapa rows [] st registros st' Hres v Hv) as [[]|[k' Hg']].
    unfold mapa in Hg'. rewrite get_mapa_cargos in Hg'.
    destruct (ultimo k' todos) as [c''|] eqn:Eu; [|discriminate].
    destruct (ultimo_some _ _ Eu) as [Hin'' Hk''].
    cbn [option_map] in Hg'. injection Hg' as Hid''.
    assert (c'' = c') by (apply (@ids_unicos todos c'' c' Hnd Hin'' Hc'); congruence).
    subst c''. rewrite Hk' in Hk''. subst k'.
    rewrite Hu in Eu. injection Eu as ->. apply Hne. reflexivity.
Qed.

Lemma ultimo_cargo_vence_witness :
  catalogo_exemplo
  = [ Catalogo.mkCargoFuncao 7 (Some "A"%string) (Some 1) (Some 2) (Some 3) None
        "ANALISTA"%string None;
      Catalogo.mkCargoFuncao 8 (Some "B"%string) None (Some 2) (Some 3) None
        "TECNICO"%string None ]
    ++ Catalogo.mkCargoFuncao 9 (Some "A"%string) (Some 5) (Some 2) (Some 3) None
         "ANALISTA"%string (Some 4) :: []
  /\ FuncaoCargo.get (FuncaoCargo.mapa_cargos catalogo_exemplo) chave_analista
     = Some 9
  /\ FuncaoCargo.resolver (FuncaoCargo.mapa_cargos catalogo_exemplo)
       [linha_analista] [] (mkEstado [] [] [])
     = (Ok [FuncaoCargo.mkVinculo 12 9 None], mkEstado [] [] []).
Proof.
  assert (Hnd : NoDup (map Catalogo.id_cargo_funcao catalogo_exemplo)).
  { repeat constructor; simpl; intuition discriminate. }
  destruct (@ultimo_cargo_vence unit
              [ Catalogo.mkCargoFuncao 7 (Some "A"%string) (Some 1) (Some 2) (Some 3)
                  None "ANALISTA"%string None;
                Catalogo.mkCargoFuncao 8 (Some "B"%string) None (Some 2) (Some 3)
                  None "TECNICO"%string None ]
              (Catalogo.mkCargoFuncao 9 (Some "A"%string) (Some 5) (Some 2) (Some 3)
                 None "ANALISTA"%string (Some 4))
              [] chave_analista Hnd)
    as [Hg [Hstep _]].
  - discriminate.
  - reflexivity.
  - intros c' [].
  - split; [reflexivity|]. split; [exact Hg|].
    change (FuncaoCargo.mapa_cargos catalogo_exemplo)
      with (FuncaoCargo.mapa_cargos
              ([ Catalogo.mkCargoFuncao 7 (Some "A"%string) (Some 1) (Some 2) (Some 3)
                   None "ANALISTA"%string None;
                 Catalogo.mkCargoFuncao 8 (Some "B"%string) None (Some 2) (Some 3)
                   None "TECNICO"%string None ]
               ++ Catalogo.mkCargoFuncao 9 (Some "A"%string) (Some 5) (Some 2) (Some 3)
                    None "ANALISTA"%string (Some 4) :: [])).
    rewrite (Hstep linha_analista [] [] (mkEstado [] [] []) eq_refl).
    reflexivity.
Defined.

(** * Further properties of the loaders *)

Section LoaderExtras.

Variable A : Type.
Variables (rejeita : list A -> list A -> bool)
          (conflita : list A -> A -> bool).

Lemma fatiar_aux_cheios k fuel (l : list A) :
  forall pre last,
    fatiar_aux fuel k l = pre ++ [last] ->
    Forall (fun c => length c = k) pre.
Proof.
  revert l. induction fuel as [|fuel IH]; intros l pre last H.
  - destruct pre; discriminate H.
  - destruct l as [|a l']; [destruct pre; discriminate H|].
    cbn [fatiar_aux] in H. destruct pre as [|c pre].
    + constructor.
    + cbn [app] in H. injection H as Hc Hr. constructor.
      * subst c. rewrite length_firstn.
        destruct fuel as [|fuel']; [destruct pre; discriminate Hr|].
        cbn [fatiar_aux] in Hr.
        destruct (skipn k (a :: l')) as [|b r] eqn:E; [destruct pre; discriminate Hr|].
        assert (Hlen : length (skipn k (a :: l')) = (length (a :: l') - k)%nat)
          by apply length_skipn.
        rewrite E in Hlen. simpl length in Hlen at 1. lia.
      * apply (IH _ _ _ Hr).
Qed.

(** X1. The chunks the loops cut are a partition of the batch in
    order: concatenated they give the batch back, none is empty, none
    has more than 1000 records, and every chunk but the last has
    exactly 1000. *)
Theorem fatiar_particiona :
  forall l : list A,
    concat (fatiar chunk_size l) = l
    /\ Forall (fun c => c <> [] /\ (length c <= chunk_size)%nat)
         (fatiar chunk_size l)
    /\ (forall pre last,
           fatiar chunk_size l = pre ++ [last] ->
           Forall (fun c => length c = chunk_size) pre)
    /\ (fatiar chunk_size l = [] <-> l = []).
Proof.
  intros l. split; [apply fatiar_concat|].
  split; [apply fatiar_aux_tamanho; unfold chunk_size; lia|].
  split; [apply fatiar_aux_cheios|].
  unfold fatiar. destruct l; simpl; split; intros H; try reflexivity; discriminate H.
Qed.

Lemma soma_lotes_limite novos (lotes : list (list A)) :
  Forall2 entrada_do_lote novos lotes ->
  (soma_lotes novos <= length (concat lotes))%nat.
Proof.
  induction 1 as [|e chunk novos lotes He _ IH]; [simpl; lia|].
  cbn [soma_lotes fold_right concat]. fold (soma_lotes novos).
  rewrite length_app.
  destruct He as [[n ->]|[n ->]]; simpl; lia.
Qed.

Lemma laco_protegido_aceito lotes : forall n total (st : Estado A),
  nunca_rejeita rejeita ->
  fst (laco_protegido rejeita conflita lotes n total st)
  = (total + length (concat lotes))%nat.
Proof.
  induction lotes as [|chunk resto IH]; intros n total st Hr.
  - simpl. lia.
  - cbn [laco_protegido]. unfold execute. rewrite Hr.
    rewrite IH by exact Hr. cbn [concat]. rewrite length_app. lia.
Qed.

Lemma laco_protegido_limpa lotes : forall n total (st : Estado A),
  limpa st ->
  limpa (snd (laco_protegido rejeita conflita lotes n total st)).
Proof.
  induction lotes as [|chunk resto IH]; intros n total st Hl; [exact Hl|].
  cbn [laco_protegido]. unfold execute.
  destruct (rejeita (visao st) chunk); apply IH; reflexivity.
Qed.

(** X2. The guarded loader always returns a count.  It writes one log
    entry per chunk and a closing one; the count is the sum of the
    sizes of the chunks it committed, never more than the batch, and
    the whole batch when the store rejects nothing. *)
Theorem carregar_protegido_contabiliza :
  forall registros (st : Estado A),
    exists novos st',
      carregar_protegido rejeita conflita registros st
      = (Ok (soma_lotes novos), st')
      /\ log st' = log st ++ novos ++ [LogConcluida (soma_lotes novos)]
      /\ Forall2 entrada_do_lote novos (fatiar chunk_size registros)
      /\ (soma_lotes novos <= length registros)%nat
      /\ (nunca_rejeita rejeita -> soma_lotes novos = length registros).
Proof.
  intros registros st.
  destruct (laco_protegido_spec rejeita conflita (fatiar chunk_size registros) 1 0 st)
    as [novos [Hlog [Htot Hent]]].
  pose proof (laco_protegido_aceito (fatiar chunk_size registros) 1 0 st) as Hac.
  unfold carregar_protegido.
  destruct (laco_protegido rejeita conflita (fatiar chunk_size registros) 1 0 st)
    as [total st1] eqn:E.
  cbn [fst snd Nat.add] in *. subst total.
  exists novos, (logar (LogConcluida (soma_lotes novos)) st1).
  split; [reflexivity|].
  split; [cbn [logar log]; rewrite Hlog, <- app_assoc; reflexivity|].
  split; [exact Hent|].
  split.
  - pose proof (soma_lotes_limite Hent) as H. rewrite fatiar_concat in H. exact H.
  - intros Hr. rewrite (Hac Hr), fatiar_concat. reflexivity.
Qed.

(** X3. The guarded loader is transactional per chunk: entered with
    no open change it leaves none, and every row that was durable
    before the call is durable after it, whatever the store rejected. *)
Theorem carregar_protegido_transacional :
  forall registros (st : Estado A),
    limpa st ->
    limpa (snd (carregar_protegido rejeita conflita registros st))
    /\ incl (confirmadas st)
         (confirmadas (snd (carregar_protegido rejeita conflita registros st))).
Proof.
  intros registros st Hl. unfold carregar_protegido.
  pose proof (laco_protegido_limpa (fatiar chunk_size registros) 1 0 Hl) as H1.
  pose proof (fun v => @laco_protegido_mantem _ rejeita conflita
                         (fatiar chunk_size registros) 1 0 st v Hl) as H2.
  destruct (laco_protegido rejeita conflita (fatiar chunk_size registros) 1 0 st)
    as [total st1].
  split; [exact H1 | exact H2].
Qed.

Lemma inserir_sem_conflito t chunk :
  (forall t' r, conflita t' r = false) -> inserir conflita t chunk = t ++ chunk.
Proof.
  intros Hc. unfold inserir. revert t.
  induction chunk as [|r chunk IH]; intros t; [rewrite app_nil_r; reflexivity|].
  simpl. rewrite Hc, IH, <- app_assoc. reflexivity.
Qed.

Lemma inserir_tudo_conflita t chunk :
  sempre_conflita conflita -> inserir conflita t chunk = t.
Proof.
  intros Hc. unfold inserir. revert t.
  induction chunk as [|r chunk IH]; intros t; [reflexivity|].
  simpl. rewrite Hc. apply IH.
Qed.

Lemma laco_aceito lotes : forall n total (st : Estado A),
  nunca_rejeita rejeita ->
  fst (laco rejeita conflita lotes n total st)
  = Ok (total + length (concat lotes))%nat
  /\ visao (snd (laco rejeita conflita lotes n total st))
     = fold_left (inserir conflita) lotes (visao st)
  /\ (limpa st -> limpa (snd (laco rejeita conflita lotes n total st))).
Proof.
  induction lotes as [|chunk resto IH]; intros n total st Hr.
  - simpl. repeat split; [f_equal; lia | auto].
  - cbn [laco]. unfold execute. rewrite Hr.
    destruct (IH (S n) (total + length chunk)%nat
                (logar (LogLote n (length chunk))
                   (commit (mkEstado (confirmadas st)
                              (inserir conflita (visao st) chunk) (log st)))) Hr)
      as [H1 [H2 H3]].
    split; [rewrite H1; cbn [concat]; rewrite length_app; f_equal; lia|].
    split; [rewrite H2; reflexivity|].
    intros _. apply H3. reflexivity.
Qed.

Lemma fold_inserir_sem_conflito lotes : forall t,
  (forall t' r, conflita t' r = false) ->
  fold_left (inserir conflita) lotes t = t ++ concat lotes.
Proof.
  induction lotes as [|chunk resto IH]; intros t Hc;
    [simpl; rewrite app_nil_r; reflexivity|].
  cbn [fold_left concat]. rewrite IH by exact Hc.
  rewrite inserir_sem_conflito by exact Hc. rewrite <- app_assoc. reflexivity.
Qed.

Lemma fold_inserir_tudo_conflita lotes : forall t,
  sempre_conflita conflita -> fold_left (inserir conflita) lotes t = t.
Proof.
  induction lotes as [|chunk resto IH]; intros t Hc; [reflexivity|].
  cbn [fold_left]. rewrite inserir_tudo_conflita by exact Hc. apply IH. exact Hc.
Qed.

(** X4. When the store rejects nothing, the unguarded loader returns
    the number of records it submitted, whatever the conflict clause
    did with them: if the clause skips every record the durable rows
    are those of before and the count is still the size of the batch;
    if it skips none, the batch is appended to the durable rows in
    order. *)
Theorem carregar_conta_submetidos :
  forall registros (st : Estado A),
    nunca_rejeita rejeita -> limpa st ->
    fst (carregar rejeita conflita registros st) = Ok (length registros)
    /\ limpa (snd (carregar rejeita conflita registros st))
    /\ (sempre_conflita conflita ->
        confirmadas (snd (carregar rejeita conflita registros st))
        = confirmadas st)
    /\ ((forall t r, conflita t r = false) ->
        confirmadas (snd (carregar rejeita conflita registros st))
        = confirmadas st ++ registros).
Proof.
  intros registros st Hr Hl. unfold carregar.
  destruct (laco_aceito (fatiar chunk_size registros) 1 0 st Hr) as [H1 [H2 H3]].
  specialize (H3 Hl).
  destruct (laco rejeita conflita (fatiar chunk_size registros) 1 0 st)
    as [[total|e] st1]; cbn [fst snd] in *; [|discriminate H1].
  injection H1 as ->. rewrite fatiar_concat.
  split; [reflexivity|]. split; [exact H3|].
  cbn [logar confirmadas]. rewrite <- H3, H2. split.
  - intros Hc. rewrite fold_inserir_tudo_conflita by exact Hc. exact Hl.
  - intros Hc. rewrite fold_inserir_sem_conflito by exact Hc.
    rewrite fatiar_concat, Hl. reflexivity.
Qed.

Lemma laco_app lotes1 : forall lotes2 n total (st : Estado A),
  laco rejeita conflita (lotes1 ++ lotes2) n total st
  = match laco rejeita conflita lotes1 n total st with
    | (Ok total1, st1) =>
        laco rejeita conflita lotes2 (n + length lotes1)%nat total1 st1
    | (Raise e, st1) => (Raise e, st1)
    end.
Proof.
  induction lotes1 as [|chunk resto IH]; intros lotes2 n total st.
  - simpl. rewrite Nat.add_0_r. reflexivity.
  - cbn [app laco]. destruct (execute rejeita conflita chunk st) as [[u|e] st1].
    + rewrite IH. cbn [length]. rewrite Nat.add_succ_r. reflexivity.
    + reflexivity.
Qed.

(** X5. The unguarded loop gives no all-or-nothing guarantee: when the
    chunks before a rejected one were committed, the exception leaves
    the session exactly as the successful load of those chunks left
    it, with their rows durable and no open change; the later chunks
    are never sent. *)
Theorem laco_falha_parcial :
  forall anteriores chunk resto n total (st : Estado A) total1 st1,
    limpa st ->
    laco rejeita conflita anteriores n total st = (Ok total1, st1) ->
    rejeita (visao st1) chunk = true ->
    laco rejeita conflita (anteriores ++ chunk :: resto) n total st
    = (Raise DBAPIError, st1)
    /\ limpa st1
    /\ incl (confirmadas st) (confirmadas st1).
Proof.
  intros anteriores chunk resto n total st total1 st1 Hl H Hr.
  split; [rewrite laco_app, H; apply laco_rejeitado; exact Hr|].
  clear Hr. revert n total st Hl H.
  induction anteriores as [|c cs IH]; intros n total st Hl H.
  - injection H as _ <-. split; [exact Hl | apply incl_refl].
  - cbn [laco] in H. unfold execute in H.
    destruct (rejeita (visao st) c); [discriminate H|].
    apply IH in H; [|reflexivity]. destruct H as [H1 H2].
    split; [exact H1|].
    intros v Hv. apply H2. cbn [logar commit confirmadas visao].
    apply inserir_mantem. rewrite Hl. exact Hv.
Qed.

End LoaderExtras.

Lemma carregar_protegido_transacional_witness :
  limpa (mkEstado [5%nat] [5%nat] [])
  /\ limpa (snd (carregar_protegido (fun _ c => Nat.eqb (length c) 1)
                   (fun _ _ => false) [7%nat] (mkEstado [5%nat] [5%nat] [])))
  /\ incl [5%nat]
       (confirmadas
          (snd (carregar_protegido (fun _ c => Nat.eqb (length c) 1)
                  (fun _ _ => false) [7%nat] (mkEstado [5%nat] [5%nat] [])))).
Proof.
  assert (Hl : limpa (mkEstado [5%nat] [5%nat] [])) by reflexivity.
  split; [exact Hl|].
  exact (@carregar_protegido_transacional nat
           (fun _ c => Nat.eqb (length c) 1) (fun _ _ => false) [7%nat] _ Hl).
Defined.

Lemma carregar_conta_submetidos_witness :
  nunca_rejeita (fun (_ _ : list nat) => false)
  /\ limpa (mkEstado [5%nat] [5%nat] [])
  /\ sempre_conflita (fun (_ : list nat) (_ : nat) => true)
  /\ fst (carregar (fun _ _ => false) (fun _ _ => true) [7%nat; 8%nat]
            (mkEstado [5%nat] [5%nat] []))
     = Ok 2%nat
  /\ confirmadas (snd (carregar (fun _ _ => false) (fun _ _ => true)
                         [7%nat; 8%nat] (mkEstado [5%nat] [5%nat] [])))
     = [5%nat].
Proof.
  assert (Hr : nunca_rejeita (fun (_ _ : list nat) => false)) by (intros t c; reflexivity).
  assert (Hl : limpa (mkEstado [5%nat] [5%nat] [])) by reflexivity.
  assert (Hc : sempre_conflita (fun (_ : list nat) (_ : nat) => true))
    by (intros t r; reflexivity).
  destruct (@carregar_conta_submetidos nat (fun _ _ => false) (fun _ _ => true)
              [7%nat; 8%nat] _ Hr Hl) as [H1 [_ [H2 _]]].
  split; [exact Hr|]. split; [exact Hl|]. split; [exact Hc|].
  split; [exact H1 | exact (H2 Hc)].
Defined.

Lemma laco_falha_parcial_witness :
  laco (fun _ c => Nat.eqb (length c) 2) (fun _ _ => false)
    ([[7%nat]] ++ [8%nat; 9%nat] :: [[10%nat]]) 1 0 (mkEstado [] [] [])
  = (Raise DBAPIError, mkEstado [7%nat] [7%nat] [LogLote 1 1])
  /\ limpa (mkEstado [7%nat] [7%nat] [LogLote 1 1]).
Proof.
  destruct (@laco_falha_parcial nat (fun _ c => Nat.eqb (length c) 2)
              (fun _ _ => false) [[7%nat]] [8%nat; 9%nat] [[10%nat]] 1 0
              (mkEstado [] [] []) 1%nat (mkEstado [7%nat] [7%nat] [LogLote 1 1])
              eq_refl eq_refl eq_refl) as [H1 [H2 _]].
  split; [exact H1 | exact H2].
Defined.

(** * Further properties of the normalisation *)

Lemma valor_digito_nao_negativo c : 0 <= PyStr.valor_digito c.
Proof. unfold PyStr.valor_digito. apply N2Z.is_nonneg. Qed.

Lemma parse_digitos_nao_negativo s : forall ultimo acc n v m,
  0 <= acc ->
  PyStr.parse_digitos s ultimo acc n = Some (v, m) -> 0 <= v.
Proof.
  induction s as [|c r IH]; intros ultimo acc n v m Hacc H.
  - cbn [PyStr.parse_digitos] in H. destruct ultimo; [|discriminate H].
    injection H as <- _. exact Hacc.
  - cbn [PyStr.parse_digitos] in H. destruct (PyStr.isdecimal_c c).
    + assert (Hacc' : 0 <= 10 * acc + PyStr.valor_digito c)
        by (pose proof (valor_digito_nao_negativo c); lia).
      apply (IH _ _ _ _ _ Hacc' H).
    + destruct (Ascii.eqb c "_" && ultimo); [|discriminate H].
      apply (IH _ _ _ _ _ Hacc H).
Qed.

(** On a text that passes [isnumeric], a successful [astype(int)]
    means decimal digits only, and gives a non-negative [int64]. *)
Lemma astype_int_numerico s z :
  PyStr.isnumeric s = true -> astype_int s = Ok z ->
  PyStr.isdecimal s = true /\ 0 <= z <= BIGINT_MAX.
Proof.
  intros Hn Hz. split.
  - destruct (PyStr.isdecimal s) eqn:Ed; [reflexivity|].
    destruct (astype_int_nao_decimal s Hn Ed) as [msg Hm].
    rewrite Hm in Hz. discriminate Hz.
  - unfold astype_int, PyStr.int in Hz.
    rewrite (strip_numero_numerico _ Hn), (sinal_numerico _ Hn) in Hz.
    destruct (PyStr.parse_digitos s false 0 0) as [[v m]|] eqn:Ep;
      cbn [bind] in Hz; [|discriminate Hz].
    destruct (Nat.ltb PyStr.max_str_digits m); cbn [bind] in Hz;
      [discriminate Hz|].
    destruct (em_bigint v) eqn:Eb; [|discriminate Hz].
    injection Hz as <-.
    unfold em_bigint in Eb. apply andb_prop in Eb. destruct Eb as [_ Hmax].
    apply Z.leb_le in Hmax.
    split; [|exact Hmax].
    apply (@parse_digitos_nao_negativo s false 0 0%nat v m); [lia | exact Ep].
Qed.

Lemma mapM_ok A B (f : A -> resultado B) l : forall out,
  mapM f l = Ok out -> Forall2 (fun x y => f x = Ok y) l out.
Proof.
  induction l as [|a l IH]; intros out H.
  - injection H as <-. constructor.
  - cbn [mapM] in H. destruct (f a) as [b|e] eqn:Ea; cbn [bind] in H; [|discriminate H].
    destruct (mapM f l) as [bs|e]; cbn [bind] in H; [|discriminate H].
    injection H as <-. constructor; [exact Ea | apply IH; reflexivity].
Qed.

Lemma converter_chaves_ok R (brutas : list (Chaves * R)) out :
  converter_chaves brutas = Ok out ->
  Forall2
    (fun (b : Chaves * R) (o : (Z * Z * Z) * R) =>
       astype_int (texto_id (fst b)) = Ok (fst (fst (fst o)))
       /\ astype_int (texto_ano (fst b)) = Ok (snd (fst (fst o)))
       /\ astype_int (texto_mes (fst b)) = Ok (snd (fst o))
       /\ snd o = snd b)
    (filter (fun r => PyStr.isnumeric (texto_id (fst r))) brutas) out.
Proof.
  unfold converter_chaves.
  set (numericas := filter _ brutas).
  destruct (mapM (fun r : Chaves * R => astype_int (texto_id (fst r))) numericas)
    as [ids|e] eqn:Ei; cbn [bind]; [|discriminate].
  destruct (mapM (fun r : Chaves * R => astype_int (texto_ano (fst r))) numericas)
    as [anos|e] eqn:Ea; cbn [bind]; [|discriminate].
  destruct (mapM (fun r : Chaves * R => astype_int (texto_mes (fst r))) numericas)
    as [meses|e] eqn:Em; cbn [bind]; [|discriminate].
  intros H. injection H as <-.
  apply mapM_ok in Ei, Ea, Em.
  clearbody numericas. revert ids anos meses Ei Ea Em.
  induction numericas as [|b bs IH]; intros ids anos meses Ei Ea Em.
  - inversion Ei; subst. constructor.
  - inversion Ei as [|? i ? ids' Hi Hids]; subst.
    inversion Ea as [|? a ? anos' Ha Hanos]; subst.
    inversion Em as [|? m ? meses' Hm Hmeses]; subst.
    cbn [combine map]. destruct b as [k r]. constructor.
    + cbn [fst snd]. auto.
    + apply IH; assumption.
Qed.

(** X6. When the normalisation of the pay frame succeeds, its records
    are, in order, the rows that have an id, a year and a month and
    whose id passes [isnumeric].  The id of each such row is then made
    of decimal digits only, the record holds its value, which is not
    negative and fits [int64], the year and the month are the [int] of
    their texts, and each pay figure is [to_float] of its cell, with
    "0,00" for a missing one. *)
Theorem remuneracoes_registros_validos :
  forall df registros,
    Remuneracoes.normalizar df = Ok registros ->
    Forall2
      (fun (b : Chaves * (cell * cell * cell * cell)) reg =>
         PyStr.isdecimal (texto_id (fst b)) = true
         /\ astype_int (texto_id (fst b)) = Ok (Remuneracoes.id_servidor reg)
         /\ 0 <= Remuneracoes.id_servidor reg <= BIGINT_MAX
         /\ astype_int (texto_ano (fst b)) = Ok (Remuneracoes.ano reg)
         /\ astype_int (texto_mes (fst b)) = Ok (Remuneracoes.mes reg)
         /\ Remuneracoes.remuneracao reg
            = Remuneracoes.moeda (fst (fst (fst (snd b))))
         /\ Remuneracoes.irrf reg = Remuneracoes.moeda (snd (fst (fst (snd b))))
         /\ Remuneracoes.pss_rpgs reg = Remuneracoes.moeda (snd (fst (snd b)))
         /\ Remuneracoes.remuneracao_final reg
            = Remuneracoes.moeda (snd (snd b)))
      (filter (fun r => PyStr.isnumeric (texto_id (fst r)))
         (dropna_chaves (Remuneracoes.bruta (columns df)) (linhas df)))
      registros.
Proof.
  intros df registros H. unfold Remuneracoes.normalizar in H.
  destruct (converter_chaves _) as [convertidas|e] eqn:Ec; cbn [bind] in H;
    [|discriminate H].
  injection H as <-. apply converter_chaves_ok in Ec.
  set (brutas := filter _ _) in *.
  assert (Hnum : Forall (fun b : Chaves * (cell * cell * cell * cell) =>
                           PyStr.isnumeric (texto_id (fst b)) = true) brutas).
  { apply Forall_forall. intros b Hb. unfold brutas in Hb.
    apply filter_In in Hb. apply Hb. }
  clearbody brutas. induction Ec as [|b o bs os [Hi [Ha [Hm Hs]]] _ IH].
  - constructor.
  - inversion Hnum as [|? ? Hb Hbs]; subst. cbn [map]. constructor; [|apply IH; exact Hbs].
    destruct o as [[[i a] m] [[[c1 c2] c3] c4]]. cbn [fst snd] in *.
    destruct (astype_int_numerico _ Hb Hi) as [Hd Hr].
    destruct b as [k [[[d1 d2] d3] d4]]. cbn [fst snd] in *.
    injection Hs as -> -> -> ->.
    repeat split; try assumption; apply Hr.
Qed.

Lemma remuneracoes_registros_validos_witness :
  Remuneracoes.normalizar df_um_pagamento
  = Ok [Remuneracoes.mkRemuneracao 12 2023 1 (PFin 1000) (PFin 0) (PFin 0)
          (PFin (1801 # 2))]
  /\ length (filter (fun r : Chaves * (cell * cell * cell * cell) =>
                       PyStr.isnumeric (texto_id (fst r)))
               (dropna_chaves (Remuneracoes.bruta (columns df_um_pagamento))
                  (linhas df_um_pagamento)))
     = 1%nat.
Proof.
  assert (H : Remuneracoes.normalizar df_um_pagamento
              = Ok [Remuneracoes.mkRemuneracao 12 2023 1 (PFin 1000) (PFin 0)
                      (PFin 0) (PFin (1801 # 2))])
    by (vm_compute; reflexivity).
  split; [exact H|].
  rewrite (Forall2_length (remuneracoes_registros_validos _ H)). reflexivity.
Defined.

(** ** Text cleaning *)

Lemma rstrip_cabeca c r :
  PyStr.isspace c = false ->
  PyStr.rstrip (String c r) = String c (PyStr.rstrip r).
Proof.
  intros Hc. cbn [PyStr.rstrip]. destruct (PyStr.rstrip r); [rewrite Hc|]; reflexivity.
Qed.

Lemma rstrip_passo c r :
  PyStr.rstrip (String c r)
  = match PyStr.rstrip r with
    | EmptyString => if PyStr.isspace c then EmptyString else String c EmptyString
    | String a s0 => String c (String a s0)
    end.
Proof. reflexivity. Qed.

Lemma rstrip_idempotente s : PyStr.rstrip (PyStr.rstrip s) = PyStr.rstrip s.
Proof.
  induction s as [|c r IH]; [reflexivity|].
  cbn [PyStr.rstrip]. destruct (PyStr.rstrip r) as [|c' r'] eqn:E.
  - destruct (PyStr.isspace c) eqn:Ec; [reflexivity|].
    cbn [PyStr.rstrip]. rewrite Ec. reflexivity.
  - rewrite rstrip_passo, IH. reflexivity.
Qed.

Lemma lstrip_forma s :
  PyStr.lstrip s = EmptyString
  \/ exists c r, PyStr.lstrip s = String c r /\ PyStr.isspace c = false.
Proof.
  induction s as [|c r IH]; [left; reflexivity|].
  cbn [PyStr.lstrip]. destruct (PyStr.isspace c) eqn:Ec; [exact IH|].
  right. exists c, r. split; [reflexivity | exact Ec].
Qed.

(** [strip] is idempotent. *)
Lemma strip_idempotente s : PyStr.strip (PyStr.strip s) = PyStr.strip s.
Proof.
  unfold PyStr.strip. destruct (lstrip_forma s) as [E|[c [r [E Hc]]]]; rewrite E.
  - reflexivity.
  - rewrite (@rstrip_cabeca c r Hc). cbn [PyStr.lstrip]. rewrite Hc.
    rewrite (@rstrip_cabeca c (PyStr.rstrip r) Hc), rstrip_idempotente. reflexivity.
Qed.

Lemma limpar_str_forma s v :
  CargosFuncoes.limpar_str (Some s) = Some v ->
  v = PyStr.strip s
  /\ v <> EmptyString
  /\ PyStr.lower v <> sem_informacao
  /\ PyStr.lower v <> sem_informac
  /\ PyStr.strip v = v
  /\ CargosFuncoes.limpar_str (Some v) = Some v.
Proof.
  intros H. unfold CargosFuncoes.limpar_str in H.
  destruct (PyStr.membro (PyStr.lower (PyStr.strip s)) _) eqn:Em; [discriminate H|].
  injection H as <-.
  assert (Hs : PyStr.strip (PyStr.strip s) = PyStr.strip s) by apply strip_idempotente.
  unfold PyStr.membro in Em. cbn [existsb] in Em.
  apply orb_false_elim in Em. destruct Em as [E1 Em].
  apply orb_false_elim in Em. destruct Em as [E2 Em].
  apply orb_false_elim in Em. destruct Em as [E3 _].
  apply String.eqb_neq in E1, E2, E3.
  split; [reflexivity|]. split.
  { intros H0. rewrite H0 in E3. apply E3. reflexivity. }
  split; [exact E1|]. split; [exact E2|]. split; [exact Hs|].
  unfold CargosFuncoes.limpar_str. rewrite Hs.
  unfold PyStr.membro. cbn [existsb].
  apply String.eqb_neq in E1, E2, E3. rewrite E1, E2, E3. reflexivity.
Qed.

(** X7. [limpar_str] gives no value for a missing cell; a value it
    gives is the cell's text without surrounding white space, is never
    empty nor one of the "no information" markers in any letter case,
    and cleaning it again changes nothing. *)
Theorem limpar_str_limpo :
  CargosFuncoes.limpar_str None = None
  /\ forall s v,
      CargosFuncoes.limpar_str (Some s) = Some v ->
      v = PyStr.strip s
      /\ v <> EmptyString
      /\ PyStr.lower v <> sem_informacao
      /\ PyStr.lower v <> sem_informac
      /\ PyStr.strip v = v
      /\ CargosFuncoes.limpar_str (Some v) = Some v.
Proof.
  split; [reflexivity | exact limpar_str_forma].
Qed.

Lemma limpar_str_limpo_witness :
  CargosFuncoes.limpar_str (Some "  Analista "%string) = Some "Analista"%string
  /\ "Analista"%string <> EmptyString
  /\ CargosFuncoes.limpar_str (Some "Analista"%string) = Some "Analista"%string.
Proof.
  assert (H : CargosFuncoes.limpar_str (Some "  Analista "%string)
              = Some "Analista"%string) by reflexivity.
  destruct (proj2 limpar_str_limpo _ _ H) as [_ [H1 [_ [_ [_ H2]]]]].
  split; [exact H|]. split; [exact H1 | exact H2].
Defined.

Lemma digito_numerico s : PyStr.isdigit s = true -> PyStr.isnumeric s = true.
Proof.
  unfold PyStr.isdigit, PyStr.isnumeric. intros H. apply andb_prop in H.
  destruct H as [Hne Hd]. rewrite Hne. cbn [andb]. clear Hne.
  induction s as [|c r IH]; [reflexivity|].
  cbn [PyStr.todos] in *. apply andb_prop in Hd. destruct Hd as [Hc Hr].
  rewrite (IH Hr). unfold PyStr.isnumeric_c. rewrite Hc. reflexivity.
Qed.

Lemma parse_digitos_decimal s : forall ultimo acc n,
  PyStr.todos PyStr.isdecimal_c s = true ->
  PyStr.nao_vazia s = true \/ ultimo = true ->
  exists v m, PyStr.parse_digitos s ultimo acc n = Some (v, m).
Proof.
  induction s as [|c r IH]; intros ultimo acc n Hd Hne.
  - destruct Hne as [Hne | Hu]; [discriminate Hne|]. subst ultimo. cbn. eauto.
  - cbn [PyStr.todos] in Hd. apply andb_prop in Hd. destruct Hd as [Hc Hr].
    cbn [PyStr.parse_digitos]. rewrite Hc. apply IH; [exact Hr | right; reflexivity].
Qed.

Lemma numerico_minusculo t : PyStr.isnumeric t = true -> PyStr.lower t = t.
Proof.
  intros Ht. unfold PyStr.isnumeric in Ht. apply andb_prop in Ht.
  destruct Ht as [_ Ht]. induction t as [|c r IH]; [reflexivity|].
  cbn [PyStr.todos] in Ht. apply andb_prop in Ht. destruct Ht as [Hc1 Hr].
  cbn [PyStr.lower]. rewrite (IH Hr). f_equal.
  clear - Hc1. destruct c as [[] [] [] [] [] [] [] []];
    vm_compute in Hc1; try discriminate Hc1; reflexivity.
Qed.

Lemma parse_digitos_conta s : forall ultimo acc n v m,
  PyStr.todos PyStr.isdecimal_c s = true ->
  PyStr.parse_digitos s ultimo acc n = Some (v, m) ->
  m = (n + String.length s)%nat.
Proof.
  induction s as [|c r IH]; intros ultimo acc n v m Hd Hp.
  - cbn in Hp. destruct ultimo; [|discriminate Hp]. injection Hp as _ <-.
    cbn. lia.
  - cbn [PyStr.todos] in Hd. apply andb_prop in Hd. destruct Hd as [Hc Hr].
    cbn [PyStr.parse_digitos] in Hp. rewrite Hc in Hp.
    rewrite (IH _ _ _ _ _ Hr Hp). cbn [String.length]. lia.
Qed.

(** [int] on a text that passes [isdigit]: a value, not negative, when
    the digits are decimal and no more than the limit; [ValueError]
    otherwise. *)
Lemma int_digito s :
  PyStr.isdigit s = true ->
  (PyStr.isdecimal s = true
   /\ (String.length s <= PyStr.max_str_digits)%nat
   /\ exists z, PyStr.int s = Ok z /\ 0 <= z)
  \/ ((PyStr.isdecimal s = false
       \/ (PyStr.max_str_digits < String.length s)%nat)
      /\ exists msg, PyStr.int s = Raise (ValueError msg)).
Proof.
  intros Hd. pose proof (digito_numerico _ Hd) as Hn.
  unfold PyStr.int. rewrite (strip_numero_numerico _ Hn), (sinal_numerico _ Hn).
  destruct (PyStr.isdecimal s) eqn:Ed.
  - unfold PyStr.isdecimal in Ed. apply andb_prop in Ed. destruct Ed as [Hne Hdec].
    destruct (@parse_digitos_decimal s false 0 0%nat Hdec (or_introl Hne)) as [v [m Hp]].
    rewrite Hp.
    pose proof (@parse_digitos_conta s false 0 0%nat v m Hdec Hp) as Hm.
    cbn [Nat.add] in Hm. subst m.
    destruct (Nat.ltb_spec PyStr.max_str_digits (String.length s)) as [Hlim|Hlim].
    + right. split; [right; exact Hlim | eexists; reflexivity].
    + left. split; [reflexivity|]. split; [exact Hlim|].
      exists v. split; [reflexivity|].
      apply (@parse_digitos_nao_negativo s false 0 0%nat v (String.length s));
        [lia | exact Hp].
  - right. split; [left; reflexivity|].
    unfold PyStr.isnumeric, PyStr.isdecimal in *.
    apply andb_prop in Hn. destruct Hn as [Hne Hn]. rewrite Hne in Ed.
    rewrite (@parse_digitos_nao_decimal s false 0 0%nat Hn Ed).
    eexists. reflexivity.
Qed.

(** X8. [limpar_valor] gives no value for a missing cell.  For a text
    field it never raises, and a value it gives is the stripped text,
    never empty and never "-1".  For a numeric field a value it gives
    is a non-negative integer read from decimal digits, no more than
    the 4300 that [int] accepts; a text that does not pass [isdigit]
    gives no value; and it raises, a [ValueError], exactly on a text
    that passes [isdigit] and either is not made of decimal digits (a
    superscript digit) or has more than 4300 of them, the [int] being
    outside any [try]. *)
Theorem limpar_valor_casos :
  (forall campo, FuncaoCargo.limpar_valor None campo = Ok None)
  /\ (forall s campo,
         PyStr.membro campo FuncaoCargo.campos_numericos = false ->
         exists o,
           FuncaoCargo.limpar_valor (Some s) campo = Ok o
           /\ forall r, o = Some r ->
                r = FuncaoCargo.VStr (PyStr.strip s)
                /\ PyStr.strip s <> EmptyString
                /\ PyStr.strip s <> "-1"%string)
  /\ (forall s campo,
         PyStr.membro campo FuncaoCargo.campos_numericos = true ->
         (forall r,
             FuncaoCargo.limpar_valor (Some s) campo = Ok (Some r) ->
             exists z, r = FuncaoCargo.VInt z /\ 0 <= z
                       /\ PyStr.isdecimal (PyStr.strip s) = true
                       /\ (String.length (PyStr.strip s)
                           <= PyStr.max_str_digits)%nat)
         /\ (forall e,
                FuncaoCargo.limpar_valor (Some s) campo = Raise e ->
                PyStr.isdigit (PyStr.strip s) = true
                /\ (PyStr.isdecimal (PyStr.strip s) = false
                    \/ (PyStr.max_str_digits
                        < String.length (PyStr.strip s))%nat)
                /\ exists msg, e = ValueError msg)
         /\ (PyStr.isdigit (PyStr.strip s) = false ->
             FuncaoCargo.limpar_valor (Some s) campo = Ok None)
         /\ (PyStr.isdigit (PyStr.strip s) = true ->
             PyStr.isdecimal (PyStr.strip s) = false
             \/ (PyStr.max_str_digits < String.length (PyStr.strip s))%nat ->
             exists msg,
               FuncaoCargo.limpar_valor (Some s) campo = Raise (ValueError msg))).
Proof.
  split; [reflexivity|]. split.
  - intros s campo Hc. unfold FuncaoCargo.limpar_valor. rewrite Hc.
    destruct (PyStr.membro (PyStr.lower (PyStr.strip s)) _) eqn:Em.
    + exists None. split; [reflexivity | discriminate].
    + eexists. split; [reflexivity|]. intros r Hr. injection Hr as <-.
      split; [reflexivity|].
      unfold PyStr.membro in Em. cbn [existsb] in Em.
      apply orb_false_elim in Em. destruct Em as [_ Em].
      apply orb_false_elim in Em. destruct Em as [_ Em].
      apply orb_false_elim in Em. destruct Em as [E3 Em].
      apply orb_false_elim in Em. destruct Em as [E4 _].
      apply String.eqb_neq in E3, E4. split.
      * intros H0. rewrite H0 in E3. apply E3. reflexivity.
      * intros H0. rewrite H0 in E4. apply E4. reflexivity.
  - intros s campo Hc. unfold FuncaoCargo.limpar_valor. rewrite Hc.
    destruct (PyStr.membro (PyStr.lower (PyStr.strip s)) _) eqn:Em.
    + split; [discriminate|]. split; [discriminate|]. split; [reflexivity|].
      intros Hd _. exfalso.
      pose proof (digito_numerico _ Hd) as Hn.
      unfold PyStr.membro in Em. cbn [existsb] in Em.
      rewrite (numerico_minusculo _ Hn) in Em.
      repeat (apply orb_prop in Em; destruct Em as [Em|Em]);
        try (apply String.eqb_eq in Em; rewrite Em in Hd;
             vm_compute in Hd; discriminate Hd).
      discriminate Em.
    + destruct (PyStr.isdigit (PyStr.strip s)) eqn:Ed; cbn [negb].
      * destruct (int_digito _ Ed) as [[Hdec [Hlim [z [Hz Hpos]]]]|[Hou [msg Hz]]];
          rewrite Hz; cbn [bind].
        -- split; [|split; [discriminate|split; [discriminate|]]].
           ++ intros r Hr. injection Hr as <-. exists z. auto.
           ++ intros _ [H0|H0]; [rewrite Hdec in H0; discriminate H0 | lia].
        -- split; [discriminate|]. split.
           ++ intros e He. injection He as <-.
              split; [reflexivity|]. split; [exact Hou|]. exists msg. reflexivity.
           ++ split; [discriminate|]. intros _ _. exists msg. reflexivity.
      * split; [discriminate|]. split; [discriminate|]. split; [reflexivity|].
        discriminate.
Qed.

Lemma limpar_valor_casos_witness :
  PyStr.membro "padrao_cargo" FuncaoCargo.campos_numericos = true
  /\ FuncaoCargo.limpar_valor (Some " 0012 "%string) "padrao_cargo"
     = Ok (Some (FuncaoCargo.VInt 12))
  /\ (exists z, FuncaoCargo.VInt 12 = FuncaoCargo.VInt z /\ 0 <= z
                /\ PyStr.isdecimal (PyStr.strip " 0012 ") = true
                /\ (String.length (PyStr.strip " 0012 ")
                    <= PyStr.max_str_digits)%nat)
  /\ PyStr.isdigit (PyStr.strip muitos_digitos) = true
  /\ (PyStr.max_str_digits < String.length (PyStr.strip muitos_digitos))%nat
  /\ (exists msg,
        FuncaoCargo.limpar_valor (Some muitos_digitos) "padrao_cargo"
        = Raise (ValueError msg))
  /\ PyStr.isdigit (PyStr.strip (lat 178)) = true
  /\ PyStr.isdecimal (PyStr.strip (lat 178)) = false
  /\ (exists msg,
        FuncaoCargo.limpar_valor (Some (lat 178)) "padrao_cargo"
        = Raise (ValueError msg)).
Proof.
  assert (Hc : PyStr.membro "padrao_cargo" FuncaoCargo.campos_numericos = true)
    by reflexivity.
  assert (H : FuncaoCargo.limpar_valor (Some " 0012 "%string) "padrao_cargo"
              = Ok (Some (FuncaoCargo.VInt 12))) by reflexivity.
  assert (Hd : PyStr.isdigit (PyStr.strip muitos_digitos) = true)
    by (vm_compute; reflexivity).
  assert (Hm : (PyStr.max_str_digits < String.length (PyStr.strip muitos_digitos))%nat)
    by (apply Nat.ltb_lt; vm_compute; reflexivity).
  assert (Hd2 : PyStr.isdigit (PyStr.strip (lat 178)) = true)
    by (vm_compute; reflexivity).
  assert (Hn2 : PyStr.isdecimal (PyStr.strip (lat 178)) = false)
    by (vm_compute; reflexivity).
  destruct limpar_valor_casos as [_ [_ Hnum]].
  destruct (Hnum " 0012 "%string "padrao_cargo"%string Hc) as [H1 _].
  destruct (Hnum muitos_digitos "padrao_cargo"%string Hc) as [_ [_ [_ H2]]].
  destruct (Hnum (lat 178) "padrao_cargo"%string Hc) as [_ [_ [_ H3]]].
  split; [exact Hc|]. split; [exact H|]. split; [exact (H1 _ H)|].
  split; [exact Hd|]. split; [exact Hm|].
  split; [exact (H2 Hd (or_intror Hm))|].
  split; [exact Hd2|]. split; [exact Hn2|].
  exact (H3 Hd2 (or_introl Hn2)).
Defined.

(** ** The lookup map and the resolution loop of
    [importar_funcaocargo_dataframe] *)

Lemma atribuir_chaves m k v :
  map fst (FuncaoCargo.atribuir m k v)
  = if existsb (FuncaoCargo.chave_eqb k) (map fst m) then map fst m
    else map fst m ++ [k].
Proof.
  induction m as [|[k' v'] m IH]; [reflexivity|].
  cbn [FuncaoCargo.atribuir map fst existsb].
  destruct (FuncaoCargo.chave_eqb k k') eqn:E; cbn [orb map fst].
  - reflexivity.
  - rewrite IH. destruct (existsb _ (map fst m)); reflexivity.
Qed.

Lemma atribuir_nodup m k v :
  NoDup (map fst m) -> NoDup (map fst (FuncaoCargo.atribuir m k v)).
Proof.
  intros H. rewrite atribuir_chaves.
  destruct (existsb (FuncaoCargo.chave_eqb k) (map fst m)) eqn:E; [exact H|].
  apply NoDup_app; [exact H | repeat constructor; intros [] |].
  intros x Hx [Hk|[]]. subst x.
  assert (Ht : existsb (FuncaoCargo.chave_eqb k) (map fst m) = true).
  { apply existsb_exists. exists k. split; [exact Hx | apply chave_eqb_refl]. }
  rewrite Ht in E. discriminate E.
Qed.

Lemma atribuir_tamanho m k v :
  (length (FuncaoCargo.atribuir m k v) <= S (length m))%nat.
Proof.
  induction m as [|[k' v'] m IH]; cbn [FuncaoCargo.atribuir length]; [lia|].
  destruct (FuncaoCargo.chave_eqb k k'); cbn [length]; lia.
Qed.

(** X9. The lookup map built from the catalogue: a tuple is absent
    exactly when no entry has it; an id it gives belongs to an entry
    with that tuple; a tuple without a description is never found,
    since every entry has one; the map holds each tuple once and no
    more tuples than the catalogue has entries. *)
Theorem mapa_cargos_busca :
  forall todos k,
    (FuncaoCargo.get (FuncaoCargo.mapa_cargos todos) k = None <->
     forall c, In c todos -> FuncaoCargo.chave_cargo c <> k)
    /\ (forall i,
          FuncaoCargo.get (FuncaoCargo.mapa_cargos todos) k = Some i ->
          exists c, In c todos /\ FuncaoCargo.chave_cargo c = k
                    /\ Catalogo.id_cargo_funcao c = i)
    /\ (forall c p n,
          FuncaoCargo.get (FuncaoCargo.mapa_cargos todos) (c, p, n, None) = None)
    /\ NoDup (map fst (FuncaoCargo.mapa_cargos todos))
    /\ (length (FuncaoCargo.mapa_cargos todos) <= length todos)%nat.
Proof.
  intros todos k.
  assert (Hnone : forall k',
    FuncaoCargo.get (FuncaoCargo.mapa_cargos todos) k' = None <->
    forall c, In c todos -> FuncaoCargo.chave_cargo c <> k').
  { intros k'. rewrite get_mapa_cargos. rewrite <- ultimo_none.
    destruct (ultimo k' todos); cbn [option_map]; split; congruence. }
  split; [apply Hnone|]. split.
  { intros i Hi. rewrite get_mapa_cargos in Hi.
    destruct (ultimo k todos) as [c|] eqn:Eu; [|discriminate Hi].
    cbn [option_map] in Hi. injection Hi as Hi.
    destruct (ultimo_some _ _ Eu) as [Hin Hk]. exists c. auto. }
  split.
  { intros c p n. apply Hnone. intros c0 _ H. unfold FuncaoCargo.chave_cargo in H.
    discriminate H. }
  split.
  - induction todos as [|c todos IH] using rev_ind; [constructor|].
    rewrite mapa_cargos_snoc. apply atribuir_nodup. apply IH.
    intros k'. rewrite get_mapa_cargos, <- ultimo_none.
    destruct (ultimo k' todos); cbn [option_map]; split; congruence.
  - clear Hnone. induction todos as [|c todos IH] using rev_ind; [cbn; lia|].
    rewrite mapa_cargos_snoc, length_app. cbn [length].
    pose proof (atribuir_tamanho (FuncaoCargo.mapa_cargos todos)
                  (FuncaoCargo.chave_cargo c) (Catalogo.id_cargo_funcao c)).
    lia.
Qed.

Lemma int_valueerror s e :
  PyStr.int s = Raise e -> exists msg, e = ValueError msg.
Proof.
  unfold PyStr.int. destruct (PyStr.sinal (PyStr.strip_numero s)) as [neg r].
  destruct (PyStr.parse_digitos r false 0 0) as [[v m]|].
  - destruct (Nat.ltb PyStr.max_str_digits m); [|discriminate].
    intros H. injection H as <-. eexists. reflexivity.
  - intros H. injection H as <-. eexists. reflexivity.
Qed.

Lemma valueerror_de_dados e :
  (exists msg, e = ValueError msg) -> erro_de_dados e.
Proof. intros [msg ->]. exact I. Qed.

Lemma int_excecao s e : PyStr.int s = Raise e -> erro_de_dados e.
Proof. intros H. apply valueerror_de_dados. exact (int_valueerror _ H). Qed.

Lemma astype_int_excecao s e : astype_int s = Raise e -> erro_de_dados e.
Proof.
  unfold astype_int. destruct (PyStr.int s) as [z|e'] eqn:Ei; cbn [bind].
  - destruct (em_bigint z); [discriminate|]. intros H. injection H as <-. exact I.
  - intros H. injection H as <-. exact (int_excecao _ Ei).
Qed.

Lemma mapM_excecao A B (f : A -> resultado B) (P : excecao -> Prop) :
  (forall a e, f a = Raise e -> P e) ->
  forall l e, mapM f l = Raise e -> P e.
Proof.
  intros Hf. induction l as [|a l IH]; intros e H; [discriminate H|].
  cbn [mapM] in H. destruct (f a) as [b|e1] eqn:Ea; cbn [bind] in H.
  - destruct (mapM f l) as [bs|e2]; cbn [bind] in H; [discriminate H|].
    injection H as <-. apply IH. reflexivity.
  - injection H as <-. exact (Hf _ _ Ea).
Qed.

Lemma verificar_colunas_excecao df necessarias e :
  verificar_colunas df necessarias = Raise e -> erro_de_dados e.
Proof.
  induction necessarias as [|c cs IH]; cbn [verificar_colunas]; [discriminate|].
  destruct (tem_coluna df c); [exact IH|].
  intros H. injection H as <-. exact I.
Qed.

Lemma limpar_valor_valueerror val campo e :
  FuncaoCargo.limpar_valor val campo = Raise e -> exists msg, e = ValueError msg.
Proof.
  unfold FuncaoCargo.limpar_valor. destruct val as [s|]; [|discriminate].
  destruct (PyStr.membro _ _); [discriminate|].
  destruct (PyStr.membro campo _); [|discriminate].
  destruct (negb _); [discriminate|].
  destruct (PyStr.int (PyStr.strip s)) as [z|e'] eqn:Ei; cbn [bind]; [discriminate|].
  intros H. injection H as <-. exact (int_valueerror _ Ei).
Qed.

Section FuncaoCargoExtras.

Variable data : Type.
Variable strptime : string -> string -> resultado data.
Variables (rejeita : list (FuncaoCargo.Vinculo data) -> list (FuncaoCargo.Vinculo data) -> bool)
          (conflita : list (FuncaoCargo.Vinculo data) -> FuncaoCargo.Vinculo data -> bool).

Lemma valores_valueerror (row : FuncaoCargo.Linha data) e :
  FuncaoCargo.valores row = Raise e -> exists msg, e = ValueError msg.
Proof.
  unfold FuncaoCargo.valores.
  destruct (FuncaoCargo.limpar_valor (FuncaoCargo.l_classe_cargo row) _) eqn:E1;
    cbn [bind]; [|intros H; injection H as <-; exact (limpar_valor_valueerror _ _ E1)].
  destruct (FuncaoCargo.limpar_valor (FuncaoCargo.l_padrao_cargo row) _) eqn:E2;
    cbn [bind]; [|intros H; injection H as <-; exact (limpar_valor_valueerror _ _ E2)].
  destruct (FuncaoCargo.limpar_valor (FuncaoCargo.l_nivel_cargo row) _) eqn:E3;
    cbn [bind]; [|intros H; injection H as <-; exact (limpar_valor_valueerror _ _ E3)].
  destruct (FuncaoCargo.limpar_valor (FuncaoCargo.l_descricao_cargo row) _) eqn:E4;
    cbn [bind]; [discriminate|intros H; injection H as <-; exact (limpar_valor_valueerror _ _ E4)].
Qed.

(** The loop raises only what the cleaning of a cell raised, on the
    first row whose cleaning raises. *)
Lemma resolver_excecao mapa (rows : list (FuncaoCargo.Linha data)) :
  forall registros st e,
    fst (FuncaoCargo.resolver mapa rows registros st) = Raise e ->
    exists antes row depois,
      rows = antes ++ row :: depois
      /\ FuncaoCargo.valores row = Raise e
      /\ Forall (fun r => exists k, FuncaoCargo.valores r = Ok k) antes.
Proof.
  induction rows as [|row resto IH]; intros registros st e H.
  - discriminate H.
  - cbn [FuncaoCargo.resolver] in H.
    destruct (FuncaoCargo.valores row) as [k|e0] eqn:Ev.
    + assert (Hk : exists k0, FuncaoCargo.valores row = Ok k0) by (exists k; exact Ev).
      destruct (FuncaoCargo.verdadeiro (FuncaoCargo.get mapa k)).
      * destruct (IH _ _ _ H) as [antes [r [depois [E [Hr Ha]]]]].
        exists (row :: antes), r, depois. rewrite E.
        split; [reflexivity|]. split; [exact Hr|]. constructor; assumption.
      * destruct k as [[[c p] n] d].
        destruct (IH _ _ _ H) as [antes [r [depois [E [Hr Ha]]]]].
        exists (row :: antes), r, depois. rewrite E.
        split; [reflexivity|]. split; [exact Hr|]. constructor; assumption.
    + cbn [fst] in H. injection H as <-.
      exists [], row, resto. split; [reflexivity|]. split; [exact Ev|]. constructor.
Qed.

(** What the loop does when it does not raise, and to the session in
    any case. *)
Lemma resolver_passos mapa (rows : list (FuncaoCargo.Linha data)) :
  forall registros st,
    confirmadas (snd (FuncaoCargo.resolver mapa rows registros st)) = confirmadas st
    /\ visao (snd (FuncaoCargo.resolver mapa rows registros st)) = visao st
    /\ exists avisos,
        log (snd (FuncaoCargo.resolver mapa rows registros st)) = log st ++ avisos
        /\ Forall e_aviso avisos
        /\ forall registros',
            fst (FuncaoCargo.resolver mapa rows registros st) = Ok registros' ->
            exists novos,
              registros' = registros ++ novos
              /\ (length novos + length avisos = length rows)%nat
              /\ Forall (fun v =>
                           FuncaoCargo.id_cargo_funcao v <> 0
                           /\ exists k, FuncaoCargo.get mapa k
                                        = Some (FuncaoCargo.id_cargo_funcao v))
                   novos.
Proof.
  induction rows as [|row resto IH]; intros registros st.
  - cbn [FuncaoCargo.resolver fst snd].
    split; [reflexivity|]. split; [reflexivity|].
    exists []. split; [rewrite app_nil_r; reflexivity|]. split; [constructor|].
    intros registros' H. injection H as <-. exists [].
    split; [rewrite app_nil_r; reflexivity|]. split; [reflexivity | constructor].
  - cbn [FuncaoCargo.resolver].
    destruct (FuncaoCargo.valores row) as [k|e0] eqn:Ev.
    + destruct (FuncaoCargo.verdadeiro (FuncaoCargo.get mapa k)) eqn:Hv.
      * destruct (FuncaoCargo.get mapa k) as [i|] eqn:Eg; [|discriminate Hv].
        match goal with
        | |- context [FuncaoCargo.resolver mapa resto ?r st] =>
            destruct (IH r st) as [H1 [H2 [avisos [H4 [H5 H6]]]]]
        end.
        split; [exact H1|]. split; [exact H2|].
        exists avisos. split; [exact H4|]. split; [exact H5|].
        intros registros' Hr. destruct (H6 _ Hr) as [novos [Hn [Hlen Hf]]].
        eexists (_ :: novos). split; [rewrite Hn, <- app_assoc; reflexivity|].
        split; [cbn [length]; lia|]. constructor; [|exact Hf].
        cbn [FuncaoCargo.id_cargo_funcao]. split.
        -- unfold FuncaoCargo.verdadeiro in Hv.
           destruct (Z.eqb_spec i 0); [discriminate Hv | assumption].
        -- exists k. exact Eg.
      * destruct k as [[[c p] n] d].
        match goal with
        | |- context [FuncaoCargo.resolver mapa resto registros ?s] =>
            destruct (IH registros s) as [H1 [H2 [avisos [H4 [H5 H6]]]]]
        end.
        split; [exact H1|]. split; [exact H2|].
        eexists (_ :: avisos). split.
        { rewrite H4. cbn [logar log]. rewrite <- app_assoc. reflexivity. }
        split; [constructor; [exact I | exact H5]|].
        intros registros' Hr. destruct (H6 _ Hr) as [novos [Hn [Hlen Hf]]].
        exists novos. split; [exact Hn|]. split; [cbn [length]; lia | exact Hf].
    + cbn [fst snd]. split; [reflexivity|]. split; [reflexivity|].
      exists []. split; [rewrite app_nil_r; reflexivity|]. split; [constructor|].
      discriminate.
Qed.

(** X10. The resolution loop never touches the store and only adds
    warnings to the log.  When it ends without an exception, what it
    hands on is the records it was given followed by the new ones, one
    row gives either a record or a warning, and each new record carries
    an id that is not 0 and that the map holds.  An exception it raises
    is a [ValueError], the one the cleaning of a cell raised on the
    first row whose cleaning raises. *)
Theorem resolver_contabiliza :
  forall mapa (rows : list (FuncaoCargo.Linha data)) registros st,
    confirmadas (snd (FuncaoCargo.resolver mapa rows registros st)) = confirmadas st
    /\ visao (snd (FuncaoCargo.resolver mapa rows registros st)) = visao st
    /\ (forall e, fst (FuncaoCargo.resolver mapa rows registros st) = Raise e ->
        (exists msg, e = ValueError msg)
        /\ exists antes row depois,
            rows = antes ++ row :: depois
            /\ FuncaoCargo.valores row = Raise e
            /\ Forall (fun r => exists k, FuncaoCargo.valores r = Ok k) antes)
    /\ exists avisos,
        log (snd (FuncaoCargo.resolver mapa rows registros st)) = log st ++ avisos
        /\ Forall e_aviso avisos
        /\ forall registros',
            fst (FuncaoCargo.resolver mapa rows registros st) = Ok registros' ->
            exists novos,
              registros' = registros ++ novos
              /\ (length novos + length avisos = length rows)%nat
              /\ Forall (fun v =>
                           FuncaoCargo.id_cargo_funcao v <> 0
                           /\ exists k, FuncaoCargo.get mapa k
                                        = Some (FuncaoCargo.id_cargo_funcao v))
                   novos.
Proof.
  intros mapa rows registros st.
  destruct (resolver_passos mapa rows registros st) as [H1 [H2 H3]].
  split; [exact H1|]. split; [exact H2|]. split; [|exact H3].
  intros e H.
  destruct (resolver_excecao _ _ _ _ H) as [antes [r [depois [E [Hr Ha]]]]].
  split; [exact (valores_valueerror _ Hr)|].
  exists antes, r, depois. auto.
Qed.

Lemma normalizar_funcaocargo_excecao df e :
  FuncaoCargo.normalizar strptime df = Raise e -> erro_de_dados e.
Proof.
  unfold FuncaoCargo.normalizar.
  match goal with
  | |- context [mapM ?f ?l] => destruct (mapM f l) as [ids|e'] eqn:Em
  end; cbn [bind]; [discriminate|].
  intros H. injection H as <-.
  revert Em. apply mapM_excecao. intros a e0. apply astype_int_excecao.
Qed.

(** X11. Whatever [importar_funcaocargo_dataframe] meets, it leaves no
    open transaction and removes no committed row.  A failure of an
    insert never reaches its caller: what it raises comes from the
    input data, or is the exception of the catalogue query, which
    nothing catches and which reaches the caller whenever the columns
    are there and the frame normalises.  With an empty catalogue it
    persists nothing and, unless it raises, reports 0. *)
Theorem importar_funcaocargo_transacional :
  forall consulta df st,
    limpa st ->
    limpa (snd (FuncaoCargo.importar_funcaocargo_dataframe strptime rejeita
                  conflita consulta df st))
    /\ incl (confirmadas st)
         (confirmadas (snd (FuncaoCargo.importar_funcaocargo_dataframe strptime
                              rejeita conflita consulta df st)))
    /\ (forall e,
          fst (FuncaoCargo.importar_funcaocargo_dataframe strptime rejeita
                 conflita consulta df st) = Raise e ->
          erro_de_dados e \/ consulta = Raise e)
    /\ (forall e rows,
          consulta = Raise e ->
          verificar_colunas df (map fst (FuncaoCargo.colunas_necessarias)) = Ok tt ->
          FuncaoCargo.normalizar strptime df = Ok rows ->
          FuncaoCargo.importar_funcaocargo_dataframe strptime rejeita
            conflita consulta df st = (Raise e, st))
    /\ (consulta = Ok [] ->
        confirmadas (snd (FuncaoCargo.importar_funcaocargo_dataframe strptime
                            rejeita conflita consulta df st))
        = confirmadas st
        /\ forall total,
            fst (FuncaoCargo.importar_funcaocargo_dataframe strptime rejeita
                   conflita consulta df st) = Ok total ->
            total = O).
Proof.
  intros consulta df st Hl.
  assert (Hq : forall e rows,
             consulta = Raise e ->
             verificar_colunas df (map fst (FuncaoCargo.colunas_necessarias)) = Ok tt ->
             FuncaoCargo.normalizar strptime df = Ok rows ->
             FuncaoCargo.importar_funcaocargo_dataframe strptime rejeita
               conflita consulta df st = (Raise e, st)).
  { intros e rows Hc Hv Hn. unfold FuncaoCargo.importar_funcaocargo_dataframe.
    rewrite Hv, Hn, Hc. reflexivity. }
  split; [|split; [|split; [|split; [exact Hq|]]]]; clear Hq;
    unfold FuncaoCargo.importar_funcaocargo_dataframe;
    (destruct (verificar_colunas df _) as [[]|e0] eqn:Ev;
     [|cbn [fst snd];
       first [ exact Hl | apply incl_refl
             | intros e H; injection H as <-; left;
               exact (verificar_colunas_excecao _ _ Ev)
             | intros _; split; [reflexivity | discriminate] ]]);
    (destruct (FuncaoCargo.normalizar strptime df) as [rows|e0] eqn:En;
     [|cbn [fst snd];
       first [ exact Hl | apply incl_refl
             | intros e H; injection H as <-; left;
               exact (normalizar_funcaocargo_excecao _ En)
             | intros _; split; [reflexivity | discriminate] ]]);
    (destruct consulta as [todos|e0];
     [|cbn [fst snd];
       first [ exact Hl | apply incl_refl
             | intros e H; injection H as <-; right; reflexivity
             | intros Hc; discriminate Hc ]]);
    destruct (resolver_passos (FuncaoCargo.mapa_cargos todos) rows [] st)
      as [H1 [H2 [avisos [H4 [H5 H6]]]]];
    pose proof (resolver_excecao (FuncaoCargo.mapa_cargos todos) rows [] st) as H3;
    (destruct (FuncaoCargo.resolver (FuncaoCargo.mapa_cargos todos) rows [] st)
       as [[registros|e0] st1] eqn:Er; cbn [fst snd] in *;
     [|first [ unfold limpa; rewrite H1, H2; exact Hl
             | rewrite H1; apply incl_refl
             | intros e H; injection H as <-; left;
               destruct (H3 _ eq_refl) as [antes [r [depois [_ [Hr _]]]]];
               exact (valueerror_de_dados (valores_valueerror _ Hr))
             | intros _; split; [exact H1 | discriminate] ]]);
    assert (Hl1 : limpa st1) by (unfold limpa; rewrite H1, H2; exact Hl);
    (destruct registros as [|v registros];
     [cbn [fst snd logar confirmadas visao];
      first [ exact Hl1 | rewrite H1; apply incl_refl | discriminate
            | intros _; split; [exact H1|];
              intros total H; injection H as <-; reflexivity ]|]);
    destruct (H6 _ eq_refl) as [novos [Hn [_ Hf]]]; cbn [app] in Hn; subst novos;
    unfold carregar_protegido;
    pose proof (laco_protegido_limpa rejeita conflita
                  (fatiar chunk_size (v :: registros)) 1 0 Hl1) as L1;
    pose proof (fun x => @laco_protegido_mantem _ rejeita conflita
                  (fatiar chunk_size (v :: registros)) 1 0 st1 x Hl1) as L2;
    destruct (laco_protegido rejeita conflita (fatiar chunk_size (v :: registros)) 1 0 st1)
      as [total st2]; cbn [fst snd logar confirmadas visao] in *.
  - exact L1.
  - rewrite <- H1. exact L2.
  - discriminate.
  - intros Hc. injection Hc as ->. exfalso.
    inversion Hf as [|? ? [_ [k Hk]] _]; subst.
    cbn in Hk. discriminate Hk.
Qed.

End FuncaoCargoExtras.

Lemma importar_funcaocargo_transacional_witness :
  limpa (snd (FuncaoCargo.importar_funcaocargo_dataframe sem_data
                (fun _ _ => false) (fun _ _ => false) (Ok catalogo_exemplo)
                df_vinculos (mkEstado [] [] [])))
  /\ incl []
       (confirmadas (snd (FuncaoCargo.importar_funcaocargo_dataframe sem_data
                            (fun _ _ => false) (fun _ _ => false)
                            (Ok catalogo_exemplo) df_vinculos (mkEstado [] [] []))))
  /\ FuncaoCargo.importar_funcaocargo_dataframe sem_data
       (fun _ _ => false) (fun _ _ => false) (Raise DBAPIError)
       df_vinculos (mkEstado [] [] [])
     = (Raise DBAPIError, mkEstado [] [] []).
Proof.
  assert (Hl : limpa (mkEstado ([] : list (FuncaoCargo.Vinculo unit)) [] []))
    by reflexivity.
  destruct (@importar_funcaocargo_transacional unit sem_data (fun _ _ => false)
              (fun _ _ => false) (Ok catalogo_exemplo) df_vinculos
              (mkEstado [] [] []) Hl)
    as [H1 [H2 _]].
  destruct (@importar_funcaocargo_transacional unit sem_data (fun _ _ => false)
              (fun _ _ => false) (Raise DBAPIError) df_vinculos
              (mkEstado [] [] []) Hl)
    as [_ [_ [_ [H3 _]]]].
  split; [exact H1|]. split; [exact H2|].
  eapply H3; [reflexivity | reflexivity | vm_compute; reflexivity].
Defined.

(** ** The report of [ServidorAnalytics] *)

Lemma round2_zero q : (q == 0)%Q -> Insights.round2 q = 0%Q.
Proof.
  intros H. unfold Insights.round2.
  assert (E : (inject_Z (PyFloat.round_half_even (q * 100)) / 100 == 0)%Q).
  { assert (Hq : (q * 100 == 0)%Q) by (rewrite H; reflexivity).
    unfold PyFloat.round_half_even.
    rewrite (Qfloor_comp _ _ Hq). change (Qfloor 0) with 0%Z.
    assert (Hc : Qcompare (q * 100 - inject_Z 0)%Q (1 # 2)%Q = Lt).
    { assert (Hx : (q * 100 - inject_Z 0 == 0)%Q) by (rewrite Hq; reflexivity).
      rewrite Hx. reflexivity. }
    rewrite Hc. reflexivity. }
  rewrite (Qred_complete _ _ E). reflexivity.
Qed.

Lemma ou_zero_avg_zero l :
  (fold_left Qplus l 0 == 0)%Q ->
  (Insights.ou_zero (Insights.sql_avg l) == 0)%Q.
Proof.
  intros H. destruct l as [|x r]; [reflexivity|].
  unfold Insights.sql_avg, Insights.ou_zero.
  destruct (Qeq_bool _ 0) eqn:E; [reflexivity|].
  apply Qeq_bool_neq in E. exfalso. apply E.
  rewrite Qred_correct, H. reflexivity.
Qed.

Lemma media_sem_pagamento b ano insights :
  sem_pagamento b ano ->
  Relatorio.media_remuneracao (fst (Relatorio._resumo_geral b ano insights)) = 0%Q.
Proof.
  intros H. cbn [Relatorio._resumo_geral fst Relatorio.media_remuneracao].
  apply round2_zero. apply ou_zero_avg_zero. exact H.
Qed.

Lemma relatorio_resumo b ano acumulado :
  Relatorio.resumo_geral (fst (Relatorio.gerar_relatorio_completo b ano acumulado))
  = fst (Relatorio._resumo_geral b ano acumulado).
Proof.
  unfold Relatorio.gerar_relatorio_completo.
  destruct (Relatorio._resumo_geral b ano acumulado) as [resumo i1].
  destruct (Insights._analise_remuneracao b ano i1) as [est i2].
  destruct (Insights._analise_afastamentos b ano i2) as [af i3].
  reflexivity.
Qed.

(** X12. [comparativo_anos] answers with status 500 whenever the first
    year has no pay value, or pay values that add up to zero: the mean
    it divides by is then 0 and nothing guards the division.  This
    holds whatever the second year is and whatever else the two
    reports meet. *)
Theorem comparativo_sem_pagamento :
  forall falha b ano1 ano2,
    sem_pagamento b ano1 ->
    Api.comparativo_anos falha b ano1 ano2 = Api.Http500.
Proof.
  intros falha b ano1 ano2 H. unfold Api.comparativo_anos.
  destruct (falha ano1); [reflexivity|].
  destruct (falha ano2); [reflexivity|].
  rewrite relatorio_resumo, (media_sem_pagamento _ H). reflexivity.
Qed.

Lemma comparativo_sem_pagamento_witness :
  sem_pagamento base_um_pagamento 2022
  /\ Api.comparativo_anos (fun _ => false) base_um_pagamento 2022 2023
     = Api.Http500.
Proof.
  assert (H : sem_pagamento base_um_pagamento 2022) by reflexivity.
  split; [exact H|].
  exact (@comparativo_sem_pagamento (fun _ => false) base_um_pagamento 2022 2023 H).
Defined.

(** X13. When [comparativo_anos] compares a year with itself and
    answers, the two summaries are the same and every difference it
    reports is zero. *)
Theorem comparativo_mesmo_ano :
  forall falha b ano c,
    Api.comparativo_anos falha b ano ano = Api.Http200 c ->
    Api.resumo_ano1 c = Api.resumo_ano2 c
    /\ Api.resumo_ano1 c = fst (Relatorio._resumo_geral b ano [])
    /\ Api.diferenca_servidores_ativos c = 0
    /\ Api.diferenca_remuneracao_media c = 0%Q
    /\ Api.percentual_variacao_remuneracao c = 0%Q.
Proof.
  intros falha b ano c H. unfold Api.comparativo_anos in H.
  destruct (falha ano); [discriminate H|].
  rewrite relatorio_resumo in H.
  destruct (Qeq_bool _ 0) eqn:E; [discriminate H|].
  injection H as <-. cbn [Api.resumo_ano1 Api.resumo_ano2
    Api.diferenca_servidores_ativos Api.diferenca_remuneracao_media
    Api.percentual_variacao_remuneracao].
  apply Qeq_bool_neq in E.
  split; [reflexivity|]. split; [reflexivity|]. split; [lia|].
  split; apply round2_zero.
  - ring.
  - field. exact E.
Qed.

Lemma comparativo_mesmo_ano_witness :
  exists c,
    Api.comparativo_anos (fun _ => false) base_um_pagamento 2023 2023
    = Api.Http200 c
    /\ Api.diferenca_servidores_ativos c = 0
    /\ Api.diferenca_remuneracao_media c = 0%Q.
Proof.
  destruct (Api.comparativo_anos (fun _ => false) base_um_pagamento 2023 2023)
    as [c|] eqn:E; [|vm_compute in E; discriminate E].
  exists c. split; [reflexivity|].
  destruct (@comparativo_mesmo_ano (fun _ => false) base_um_pagamento 2023 c E)
    as [_ [_ [H1 [H2 _]]]].
  split; [exact H1 | exact H2].
Defined.

Lemma analise_remuneracao_acumula b ano insights :
  snd (Insights._analise_remuneracao b ano insights)
  = insights ++ snd (Insights._analise_remuneracao b ano []).
Proof.
  unfold Insights._analise_remuneracao. cbv zeta. fold (pagos b ano). cbn [snd].
  destruct (Insights.verdade (Insights.sql_max (pagos b ano))
            && Insights.verdade (Insights.sql_min (pagos b ano))).
  - destruct (Insights.sql_max (pagos b ano)), (Insights.sql_min (pagos b ano));
      cbn [app]; try rewrite app_nil_r; reflexivity.
  - rewrite app_nil_r. reflexivity.
Qed.

Lemma analise_remuneracao_novos b ano :
  snd (Insights._analise_remuneracao b ano []) = []
  \/ exists mx mn,
       snd (Insights._analise_remuneracao b ano [])
       = [Insights.insight_disparidade ano mx mn].
Proof.
  unfold Insights._analise_remuneracao. cbv zeta. fold (pagos b ano). cbn [snd].
  destruct (Insights.verdade (Insights.sql_max (pagos b ano))
            && Insights.verdade (Insights.sql_min (pagos b ano)));
    [|left; reflexivity].
  destruct (Insights.sql_max (pagos b ano)) as [mx|],
           (Insights.sql_min (pagos b ano)) as [mn|];
    try (left; reflexivity).
  right. exists mx, mn. reflexivity.
Qed.

(** X14. The insights of [gerar_relatorio_completo]: the report's
    entry is the object's accumulator itself; the call keeps what the
    accumulator held and adds, in this order, the general insight, the
    pay disparity insight when there is one, and the absence rate
    insight, two or three in all, each stamped with the year.  What
    is added does not depend on what was there, so that a second
    report on the same object without [clear] carries the insights of
    the first. *)
Theorem relatorio_insights :
  forall b ano acumulado,
    Relatorio.insights (fst (Relatorio.gerar_relatorio_completo b ano acumulado))
    = snd (Relatorio.gerar_relatorio_completo b ano acumulado)
    /\ snd (Relatorio.gerar_relatorio_completo b ano acumulado)
       = acumulado ++ snd (Relatorio.gerar_relatorio_completo b ano [])
    /\ (map Insights.tipo (snd (Relatorio.gerar_relatorio_completo b ano []))
        = ["geral"; "afastamento"]%string
        \/ map Insights.tipo (snd (Relatorio.gerar_relatorio_completo b ano []))
           = ["geral"; "remuneracao"; "afastamento"]%string)
    /\ Forall (fun i => Insights.periodo i = Some (PyStr.str_int ano))
         (snd (Relatorio.gerar_relatorio_completo b ano []))
    /\ forall ano2,
        exists novos,
          snd (Relatorio.gerar_relatorio_completo b ano2
                 (snd (Relatorio.gerar_relatorio_completo b ano acumulado)))
          = acumulado ++ snd (Relatorio.gerar_relatorio_completo b ano []) ++ novos
          /\ (2 <= length novos <= 3)%nat.
Proof.
  assert (Hforma : forall b ano acumulado,
    snd (Relatorio.gerar_relatorio_completo b ano acumulado)
    = acumulado
        ++ [Relatorio.insight_geral (length (Insights.servidores b))
              (Insights.servidores_ativos b ano) ano]
        ++ snd (Insights._analise_remuneracao b ano [])
        ++ snd (Insights._analise_afastamentos b ano [])
    /\ Relatorio.insights (fst (Relatorio.gerar_relatorio_completo b ano acumulado))
       = snd (Relatorio.gerar_relatorio_completo b ano acumulado)).
  { intros b ano acumulado. unfold Relatorio.gerar_relatorio_completo.
    cbn [Relatorio._resumo_geral].
    pose proof (analise_remuneracao_acumula b ano
      (acumulado ++ [Relatorio.insight_geral (length (Insights.servidores b))
                       (Insights.servidores_ativos b ano) ano])) as H2.
    destruct (Insights._analise_remuneracao b ano _) as [est i2].
    cbn [snd] in H2. subst i2.
    cbn [Insights._analise_afastamentos fst snd Relatorio.insights].
    split; [|reflexivity].
    rewrite <- !app_assoc. reflexivity. }
  intros b ano acumulado.
  destruct (Hforma b ano acumulado) as [H1 H0].
  destruct (Hforma b ano []) as [H2 _]. cbn [app] in H2.
  split; [exact H0|]. split; [rewrite H1, H2; reflexivity|].
  split.
  { rewrite H2.
    destruct (analise_remuneracao_novos b ano) as [E|[mx [mn E]]]; rewrite E.
    - left. reflexivity.
    - right. reflexivity. }
  split.
  { rewrite H2.
    destruct (analise_remuneracao_novos b ano) as [E|[mx [mn E]]]; rewrite E;
      repeat constructor. }
  intros ano2. destruct (Hforma b ano2
    (snd (Relatorio.gerar_relatorio_completo b ano acumulado))) as [H3 _].
  exists ([Relatorio.insight_geral (length (Insights.servidores b))
             (Insights.servidores_ativos b ano2) ano2]
          ++ snd (Insights._analise_remuneracao b ano2 [])
          ++ snd (Insights._analise_afastamentos b ano2 [])).
  split.
  { rewrite H3, H1, H2. rewrite <- app_assoc. reflexivity. }
  destruct (analise_remuneracao_novos b ano2) as [E|[mx [mn E]]]; rewrite E;
    cbn; lia.
Qed.

Lemma ativos_limite b ano :
  (Insights.servidores_ativos b ano <= length (Insights.servidores b))%nat.
Proof.
  unfold Insights.servidores_ativos.
  apply NoDup_incl_length; [apply NoDup_nodup|].
  intros x Hx. apply nodup_In in Hx. apply filter_In in Hx. tauto.
Qed.

Lemma atividade_limite ativos total :
  (ativos <= total)%nat ->
  exists q, Relatorio.atividade ativos total = PFin q
            /\ (0 <= q)%Q /\ (q <= 100)%Q.
Proof.
  intros Hle. unfold Relatorio.atividade.
  destruct (Nat.ltb_spec 0 total) as [Ht|Ht].
  2:{ exists 0%Q. split; [reflexivity|]. split; [apply Qle_refl | discriminate]. }
  assert (Ht' : (0 < inject_Z (Z.of_nat total))%Q) by (rewrite <- (Zlt_Qlt 0); lia).
  assert (Ha' : (0 <= inject_Z (Z.of_nat ativos))%Q) by (rewrite <- (Zle_Qle 0); lia).
  destruct (@b64_limite (inject_Z (Z.of_nat ativos) / inject_Z (Z.of_nat total))%Q 1)
    as [q1 [E1 [L1 U1]]].
  - apply Qle_shift_div_l; [exact Ht'|]. rewrite Qmult_0_l. exact Ha'.
  - apply Qle_shift_div_r; [exact Ht'|]. rewrite Qmult_1_l.
    rewrite <- Zle_Qle. lia.
  - reflexivity.
  - unfold PyFloat.div. rewrite E1.
    destruct (@b64_limite (q1 * 100)%Q 100) as [q2 [E2 [L2 U2]]].
    + apply Qmult_le_0_compat; [exact L1 | discriminate].
    + setoid_replace (inject_Z 100) with (1 * 100)%Q by reflexivity.
      apply Qmult_le_compat_r; [exact U1 | discriminate].
    + reflexivity.
    + unfold PyFloat.mul. rewrite E2. unfold Insights.round2_float.
      apply (@b64_limite _ 100).
      * apply Qle_shift_div_l; [reflexivity|]. rewrite Qmult_0_l.
        rewrite <- (Zle_Qle 0). apply round_half_even_nao_negativo.
        apply Qmult_le_0_compat; [exact L2 | discriminate].
      * apply Qle_shift_div_r; [reflexivity|].
        change (inject_Z 100 * 100)%Q with (inject_Z 10000).
        rewrite <- Zle_Qle. apply round_half_even_limite.
        setoid_replace (inject_Z 10000) with (inject_Z 100 * 100)%Q by reflexivity.
        apply Qmult_le_compat_r; [exact U2 | discriminate].
      * reflexivity.
Qed.

(** X15. The summary of [_resumo_geral]: the active persons are never
    more than the registered ones; the activity rate is a finite float
    between 0 and 100, and 0 when nobody is registered, no division
    taking place then; a year without pay values has a total and a
    mean pay of 0; and the accumulator gains exactly the general
    insight, stamped with the year. *)
Theorem resumo_geral_limites :
  forall b ano insights,
    (Relatorio.servidores_ativos (fst (Relatorio._resumo_geral b ano insights))
     <= Relatorio.total_servidores (fst (Relatorio._resumo_geral b ano insights)))%nat
    /\ (exists q,
          Relatorio.taxa_atividade (fst (Relatorio._resumo_geral b ano insights))
          = PFin q
          /\ (0 <= q)%Q /\ (q <= 100)%Q)
    /\ (Insights.servidores b = [] ->
        Relatorio.taxa_atividade (fst (Relatorio._resumo_geral b ano insights))
        = PFin 0
        /\ Relatorio.servidores_ativos (fst (Relatorio._resumo_geral b ano insights))
           = O)
    /\ (pagos b ano = [] ->
        Relatorio.total_remuneracao (fst (Relatorio._resumo_geral b ano insights))
        = 0%Q
        /\ Relatorio.media_remuneracao (fst (Relatorio._resumo_geral b ano insights))
           = 0%Q)
    /\ exists i,
        snd (Relatorio._resumo_geral b ano insights) = insights ++ [i]
        /\ Insights.tipo i = "geral"%string
        /\ Insights.valor i
           = PyStr.str_int (Z.of_nat (Insights.servidores_ativos b ano))
        /\ Insights.periodo i = Some (PyStr.str_int ano).
Proof.
  intros b ano insights.
  cbn [Relatorio._resumo_geral fst snd Relatorio.servidores_ativos
       Relatorio.total_servidores Relatorio.taxa_atividade
       Relatorio.total_remuneracao Relatorio.media_remuneracao].
  split; [apply ativos_limite|].
  split; [apply atividade_limite; apply ativos_limite|].
  split.
  { intros Hs. pose proof (ativos_limite b ano) as Ha. rewrite Hs in *.
    cbn [length] in *. assert (E : Insights.servidores_ativos b ano = O) by lia.
    rewrite E. split; reflexivity. }
  split.
  { intros Hp. fold (pagos b ano). rewrite Hp. split; reflexivity. }
  eexists. split; [reflexivity|]. repeat split.
Qed.

(** ** [_interpretar_correlacao] *)

Lemma abs_neg x : Api.abs (Api.neg x) = Api.abs x.
Proof.
  destruct x as [[a d]|s|]; cbn; [|reflexivity|reflexivity].
  unfold Qabs, Qopp. cbn. rewrite Z.abs_opp. reflexivity.
Qed.

Lemma limiar_passa r a1 a2 :
  (a1 <= a2)%Q -> Qle_bool r a1 = true -> Qle_bool r a2 = true.
Proof.
  intros H H1. apply Qle_bool_iff. apply Qle_bool_iff in H1.
  apply (Qle_trans _ a1); assumption.
Qed.

Lemma intensidade_monotona q1 q2 :
  (Qabs q1 <= Qabs q2)%Q ->
  (grau (Api.intensidade (PFin q1)) <= grau (Api.intensidade (PFin q2)))%nat.
Proof.
  intros H. unfold Api.intensidade, Api.abs.
  set (t9 := PyFloat.literal (9 # 10)). vm_compute in t9.
  set (t7 := PyFloat.literal (7 # 10)). vm_compute in t7.
  set (t5 := PyFloat.literal (5 # 10)). vm_compute in t5.
  set (t3 := PyFloat.literal (3 # 10)). vm_compute in t3.
  subst t9 t7 t5 t3. cbn [Api.ge].
  repeat match goal with
  | |- context [Qle_bool ?r (Qabs q1)] =>
      destruct (Qle_bool r (Qabs q1)) eqn:?;
      [rewrite (@limiar_passa r (Qabs q1) (Qabs q2) H) by assumption|]
  end;
  repeat match goal with
  | |- context [Qle_bool ?r (Qabs q2)] => destruct (Qle_bool r (Qabs q2))
  end; cbn; lia.
Qed.

Lemma direcao_oposta q :
  ~ (q == 0)%Q -> Api.direcao (PFin q) <> Api.direcao (PFin (- q)).
Proof.
  intros Hq. unfold Api.direcao, Api.gt.
  destruct (Qle_bool q 0) eqn:E1, (Qle_bool (- q) 0) eqn:E2; cbn [negb];
    try discriminate; exfalso.
  - apply Qle_bool_iff in E1, E2. apply Hq. apply Qle_antisym; [exact E1|].
    apply Qopp_le_compat in E2. rewrite Qopp_involutive in E2. exact E2.
  - assert (H1 : ~ (q <= 0)%Q) by (intros H; apply Qle_bool_iff in H; congruence).
    assert (H2 : ~ (- q <= 0)%Q) by (intros H; apply Qle_bool_iff in H; congruence).
    apply Qnot_le_lt in H1, H2.
    apply (Qlt_irrefl 0). apply (Qlt_trans _ q); [exact H1|].
    apply Qopp_lt_compat in H2. rewrite Qopp_involutive in H2. exact H2.
Qed.

(** X16. [_interpretar_correlacao]: the intensity depends on the
    magnitude only, a coefficient and its opposite getting the same
    one, and grows with the magnitude; two opposite coefficients other
    than zero get opposite directions; a coefficient of exactly zero,
    like NaN, is reported as a very weak negative correlation; and
    each threshold, written as a float, belongs to the stronger
    class. *)
Theorem interpretar_correlacao_casos :
  (forall x, Api.intensidade (Api.neg x) = Api.intensidade x)
  /\ (forall q1 q2,
        (Qabs q1 <= Qabs q2)%Q ->
        (grau (Api.intensidade (PFin q1)) <= grau (Api.intensidade (PFin q2)))%nat)
  /\ (forall q, ~ (q == 0)%Q ->
        Api.direcao (PFin q) <> Api.direcao (PFin (- q)))
  /\ (forall q, (q == 0)%Q ->
        Api._interpretar_correlacao (PFin q)
        = (Api.correlacao ++ " muito fraca negativa")%string)
  /\ Api._interpretar_correlacao PNan
     = (Api.correlacao ++ " muito fraca negativa")%string
  /\ Api.intensidade (PyFloat.literal (9 # 10)) = Api.MuitoForte
  /\ Api.intensidade (PyFloat.literal (7 # 10)) = Api.Forte
  /\ Api.intensidade (PyFloat.literal (5 # 10)) = Api.Moderada
  /\ Api.intensidade (PyFloat.literal (3 # 10)) = Api.Fraca.
Proof.
  split.
  { intros x. unfold Api.intensidade. rewrite abs_neg. reflexivity. }
  split; [exact intensidade_monotona|].
  split; [exact direcao_oposta|].
  split.
  { intros q Hq.
    assert (Hi : Api.intensidade (PFin q) = Api.MuitoFraca).
    { pose proof (@intensidade_monotona q 0) as H.
      assert (Hle : (Qabs q <= Qabs 0)%Q) by (rewrite Hq; apply Qle_refl).
      specialize (H Hle).
      replace (Api.intensidade (PFin 0)) with Api.MuitoFraca in H
        by (vm_compute; reflexivity).
      destruct (Api.intensidade (PFin q)); cbn in H; try lia. reflexivity. }
    assert (Hd : Api.direcao (PFin q) = "negativa"%string).
    { unfold Api.direcao, Api.gt.
      assert (E : Qle_bool q 0 = true)
        by (apply Qle_bool_iff; rewrite Hq; apply Qle_refl).
      rewrite E. reflexivity. }
    unfold Api._interpretar_correlacao. rewrite Hi, Hd. reflexivity. }
  split; [vm_compute; reflexivity|].
  repeat split; vm_compute; reflexivity.
Qed.

(** ** Bounds on the descriptive statistics *)

Section DescritivasExtras.

Local Open Scope Q_scope.

Variables stdev variance : list Q -> resultado Q.

Lemma fold_Qmax_limites (r : list Q) : forall x hi,
  x <= hi -> Forall (fun y => y <= hi) r ->
  x <= fold_left Qmax r x /\ fold_left Qmax r x <= hi.
Proof.
  induction r as [|y r IH]; intros x hi Hhi Hf.
  - cbn. split; [apply Qle_refl | exact Hhi].
  - inversion Hf as [|? ? Hy Hr]; subst. cbn [fold_left].
    destruct (IH (Qmax x y) hi) as [H1 H2];
      [apply Q.max_lub; assumption | exact Hr|].
    split; [|exact H2].
    apply (Qle_trans _ (Qmax x y)); [apply Q.le_max_l | exact H1].
Qed.

Lemma fold_Qmin_limites (r : list Q) : forall x lo,
  lo <= x -> Forall (fun y => lo <= y) r ->
  lo <= fold_left Qmin r x /\ fold_left Qmin r x <= x.
Proof.
  induction r as [|y r IH]; intros x lo Hlo Hf.
  - cbn. split; [exact Hlo | apply Qle_refl].
  - inversion Hf as [|? ? Hy Hr]; subst. cbn [fold_left].
    destruct (IH (Qmin x y) lo) as [H1 H2];
      [apply Q.min_glb; assumption | exact Hr|].
    split; [exact H1|].
    apply (Qle_trans _ (Qmin x y)); [exact H2 | apply Q.le_min_l].
Qed.

Lemma fold_Qmax_constante (r : list Q) : forall x,
  Forall (fun y => y == x) r -> fold_left Qmax r x == x.
Proof.
  induction r as [|y r IH]; intros x Hf; [reflexivity|].
  inversion Hf as [|? ? Hy Hr]; subst. cbn [fold_left].
  assert (E : Qmax x y == x) by (apply Q.max_l; rewrite Hy; apply Qle_refl).
  destruct (@fold_Qmax_limites r (Qmax x y) x) as [H1 H2].
  - rewrite E. apply Qle_refl.
  - apply Forall_forall. intros z Hz. rewrite Forall_forall in Hr.
    rewrite (Hr z Hz). apply Qle_refl.
  - apply Qle_antisym; [exact H2|].
    apply (Qle_trans _ (Qmax x y)); [rewrite E; apply Qle_refl | exact H1].
Qed.

Lemma fold_Qmin_constante (r : list Q) : forall x,
  Forall (fun y => y == x) r -> fold_left Qmin r x == x.
Proof.
  induction r as [|y r IH]; intros x Hf; [reflexivity|].
  inversion Hf as [|? ? Hy Hr]; subst. cbn [fold_left].
  assert (E : Qmin x y == x) by (apply Q.min_l; rewrite Hy; apply Qle_refl).
  destruct (@fold_Qmin_limites r (Qmin x y) x) as [H1 H2].
  - rewrite E. apply Qle_refl.
  - apply Forall_forall. intros z Hz. rewrite Forall_forall in Hr.
    rewrite (Hr z Hz). apply Qle_refl.
  - apply Qle_antisym; [|exact H1].
    apply (Qle_trans _ (Qmin x y)); [exact H2 | rewrite E; apply Qle_refl].
Qed.

(** The range of values between two bounds, the lower one not
    negative: not negative, and no more than the upper bound. *)
Lemma amplitude_limites (valores : list Q) (lo hi : Q) :
  valores <> [] -> 0 <= lo ->
  Forall (fun x => lo <= x /\ x <= hi) valores ->
  0 <= Estatisticas.maximo valores - Estatisticas.minimo valores
  /\ Estatisticas.maximo valores - Estatisticas.minimo valores <= hi.
Proof.
  intros Hne H0 Hf. destruct valores as [|x r]; [congruence|].
  inversion Hf as [|? ? [Hx1 Hx2] Hr]; subst.
  cbn [Estatisticas.maximo Estatisticas.minimo].
  destruct (@fold_Qmax_limites r x hi Hx2) as [M1 M2].
  { apply Forall_forall. intros y Hy. rewrite Forall_forall in Hr.
    exact (proj2 (Hr y Hy)). }
  destruct (@fold_Qmin_limites r x lo Hx1) as [N1 N2].
  { apply Forall_forall. intros y Hy. rewrite Forall_forall in Hr.
    exact (proj1 (Hr y Hy)). }
  split; lra.
Qed.

Lemma amplitude_constante (valores : list Q) :
  (forall x y, In x valores -> In y valores -> x == y) ->
  PyFloat.b64 (Estatisticas.maximo valores - Estatisticas.minimo valores)
  = PFin 0.
Proof.
  intros Hi.
  assert (E : Estatisticas.maximo valores - Estatisticas.minimo valores == 0).
  { destruct valores as [|x r]; [reflexivity|].
    cbn [Estatisticas.maximo Estatisticas.minimo].
    assert (Hf : Forall (fun y => y == x) r).
    { apply Forall_forall. intros y Hy. apply Hi; [right; exact Hy | left; reflexivity]. }
    rewrite (fold_Qmax_constante Hf), (fold_Qmin_constante Hf). ring. }
  unfold PyFloat.b64.
  assert (Ez : Qeq_bool (Estatisticas.maximo valores - Estatisticas.minimo valores) 0
               = true) by (apply Qeq_bool_iff; exact E).
  rewrite Ez. reflexivity.
Qed.

(** X17. On values that are positive floats and no more than 10^8
    (what the query gives from a column [Numeric(10, 2)] filtered by
    [> 0]), whatever the library's [stdev] and [variance] answer: the
    mean is a float, positive and no more than 10^8; the range is a
    float, not negative and no more than 10^8, and it is 0 when all
    the values are equal; the dict, when it is set, holds that mean
    and that range, with 0 for the standard deviation, the variance
    and the coefficient of variation when there is one value, and
    with the library's standard deviation and variance and the float
    quotient of the two, times 100, when there are more; and the
    only exception that leaves is one [stdev] or [variance] raised. *)
Theorem estatisticas_limites :
  forall valores,
    valores <> [] ->
    Forall (fun x => PyFloat.pow2 (-1074) <= x /\ x <= inject_Z (10 ^ 8)) valores ->
    (exists m,
        Estatisticas.mean valores = Ok m /\ 0 < m /\ m <= inject_Z (10 ^ 8))
    /\ (exists r,
           PyFloat.b64 (Estatisticas.maximo valores - Estatisticas.minimo valores)
           = PFin r
           /\ 0 <= r /\ r <= inject_Z (10 ^ 8))
    /\ ((forall x y, In x valores -> In y valores -> x == y) ->
        PyFloat.b64 (Estatisticas.maximo valores - Estatisticas.minimo valores)
        = PFin 0)
    /\ (forall d,
           Estatisticas.estatisticas_descritivas stdev variance valores
           = Ok (Some d) ->
           Estatisticas.mean valores = Ok (Estatisticas.media_remuneracao d)
           /\ Estatisticas.amplitude d
              = PyFloat.b64 (Estatisticas.maximo valores
                             - Estatisticas.minimo valores)
           /\ ((length valores < 2)%nat ->
               Estatisticas.desvio_padrao d = 0
               /\ Estatisticas.variancia d = 0
               /\ Estatisticas.coeficiente_variacao d = PFin 0)
           /\ ((1 < length valores)%nat ->
               stdev valores = Ok (Estatisticas.desvio_padrao d)
               /\ variance valores = Ok (Estatisticas.variancia d)
               /\ Estatisticas.coeficiente_variacao d
                  = PyFloat.vezes
                      (PyFloat.div (Estatisticas.desvio_padrao d)
                         (Estatisticas.media_remuneracao d)) 100))
    /\ (forall e,
           Estatisticas.estatisticas_descritivas stdev variance valores
           = Raise e ->
           (1 < length valores)%nat
           /\ (stdev valores = Raise e \/ variance valores = Raise e)).
Proof.
  intros valores Hne Hf.
  destruct (@mean_positiva valores (10 ^ 8) Hne eq_refl Hf) as [m [Hm [Hm0 Hm8]]].
  assert (Hlo : 0 <= PyFloat.pow2 (-1074))
    by (apply Qlt_le_weak; apply pow2_positivo).
  destruct (amplitude_limites Hne Hlo Hf) as [Ha0 Ha8].
  split; [exists m; auto|].
  split; [exact (b64_limite Ha0 Ha8 eq_refl)|].
  split; [apply amplitude_constante|].
  assert (Hcv : Estatisticas.coeficiente stdev valores
                = if Nat.ltb 1 (length valores)
                  then (s <- stdev valores ;;
                        Ok (PyFloat.vezes (PyFloat.div s m) 100))%res
                  else Ok (PFin 0)).
  { unfold Estatisticas.coeficiente. rewrite Hm.
    destruct (Nat.ltb 1 (length valores)); [|reflexivity]. cbn [bind].
    rewrite (positivo_verdadeiro Hm0).
    destruct (stdev valores) as [s|e]; cbn [bind]; [|reflexivity].
    rewrite (truediv_positivo s Hm0). reflexivity. }
  assert (Hd : Estatisticas.estatisticas_descritivas stdev variance valores
               = (dp <- (if Nat.ltb 1 (length valores)
                         then stdev valores else Ok 0) ;;
                  var <- (if Nat.ltb 1 (length valores)
                          then variance valores else Ok 0) ;;
                  cv <- Estatisticas.coeficiente stdev valores ;;
                  Ok (Some (Estatisticas.mkDescritivas m dp var
                              (PyFloat.b64 (Estatisticas.maximo valores
                                            - Estatisticas.minimo valores))
                              cv)))%res).
  { unfold Estatisticas.estatisticas_descritivas.
    destruct valores; [congruence|]. rewrite Hm. reflexivity. }
  rewrite Hd, Hcv. clear Hd Hcv.
  destruct (Nat.ltb_spec 1 (length valores)) as [Hn|Hn].
  - destruct (stdev valores) as [s|e1] eqn:Es; cbn [bind].
    + destruct (variance valores) as [v|e2] eqn:Ev; cbn [bind].
      * split; [|discriminate].
        intros d H. injection H as <-.
        cbn [Estatisticas.media_remuneracao Estatisticas.amplitude
             Estatisticas.desvio_padrao Estatisticas.variancia
             Estatisticas.coeficiente_variacao].
        split; [exact Hm|]. split; [reflexivity|].
        split; [intros Hlt; lia|]. intros _. repeat split; reflexivity.
      * split; [discriminate|]. intros e H. injection H as <-.
        split; [exact Hn|]. right. reflexivity.
    + split; [discriminate|]. intros e H. injection H as <-.
      split; [exact Hn|]. left. reflexivity.
  - cbn [bind]. split; [|discriminate].
    intros d H. injection H as <-.
    cbn [Estatisticas.media_remuneracao Estatisticas.amplitude
         Estatisticas.desvio_padrao Estatisticas.variancia
         Estatisticas.coeficiente_variacao].
    split; [exact Hm|]. split; [reflexivity|].
    split; [intros _; repeat split; reflexivity|]. intros Hgt. lia.
Qed.

End DescritivasExtras.

Lemma estatisticas_limites_witness :
  (exists m, Estatisticas.mean [1500%Q; 9000%Q] = Ok m
             /\ (0 < m)%Q /\ (m <= inject_Z (10 ^ 8))%Q)
  /\ (exists r,
        PyFloat.b64 (Estatisticas.maximo [1500%Q; 9000%Q]
                     - Estatisticas.minimo [1500%Q; 9000%Q])%Q = PFin r
        /\ (0 <= r)%Q /\ (r <= inject_Z (10 ^ 8))%Q)
  /\ PyFloat.b64 (Estatisticas.maximo [1500%Q; 9000%Q]
                  - Estatisticas.minimo [1500%Q; 9000%Q])%Q = PFin 7500.
Proof.
  assert (Hne : [1500%Q; 9000%Q] <> []) by discriminate.
  assert (Hf : Forall (fun x => (PyFloat.pow2 (-1074) <= x)%Q
                                /\ (x <= inject_Z (10 ^ 8))%Q)
                 [1500%Q; 9000%Q]).
  { repeat constructor; unfold Qle; cbn; lia. }
  destruct (@estatisticas_limites (fun _ => Ok 0%Q) (fun _ => Ok 0%Q)
              [1500%Q; 9000%Q] Hne Hf) as [H1 [H2 _]].
  split; [exact H1|]. split; [exact H2|]. vm_compute. reflexivity.
Defined.

(** ** Failures caused by the input and failures of the store *)

Lemma converter_chaves_excecao R (brutas : list (Chaves * R)) e :
  converter_chaves brutas = Raise e -> erro_de_dados e.
Proof.
  unfold converter_chaves.
  set (numericas := filter _ brutas).
  destruct (mapM (fun r : Chaves * R => astype_int (texto_id (fst r))) numericas)
    as [ids|e1] eqn:Ei; cbn [bind].
  2:{ intros H. injection H as <-. revert Ei. apply mapM_excecao.
      intros a e0. apply astype_int_excecao. }
  destruct (mapM (fun r : Chaves * R => astype_int (texto_ano (fst r))) numericas)
    as [anos|e1] eqn:Ea; cbn [bind].
  2:{ intros H. injection H as <-. revert Ea. apply mapM_excecao.
      intros a e0. apply astype_int_excecao. }
  destruct (mapM (fun r : Chaves * R => astype_int (texto_mes (fst r))) numericas)
    as [meses|e1] eqn:Em; cbn [bind]; [discriminate|].
  intros H. injection H as <-. revert Em. apply mapM_excecao.
  intros a e0. apply astype_int_excecao.
Qed.

Lemma normalizar_remuneracoes_excecao df e :
  Remuneracoes.normalizar df = Raise e -> erro_de_dados e.
Proof.
  unfold Remuneracoes.normalizar.
  destruct (converter_chaves _) as [c|e1] eqn:Ec; cbn [bind]; [discriminate|].
  intros H. injection H as <-. exact (converter_chaves_excecao _ Ec).
Qed.

Lemma normalizar_afastamentos_excecao data
    (strptime : string -> string -> resultado data) df e :
  Afastamentos.normalizar strptime df = Raise e -> erro_de_dados e.
Proof.
  unfold Afastamentos.normalizar.
  destruct (converter_chaves _) as [c|e1] eqn:Ec; cbn [bind]; [discriminate|].
  intros H. injection H as <-. exact (converter_chaves_excecao _ Ec).
Qed.

Lemma normalizar_observacoes_excecao upper df e :
  Observacoes.normalizar upper df = Raise e -> erro_de_dados e.
Proof.
  unfold Observacoes.normalizar.
  destruct (converter_chaves _) as [c|e1] eqn:Ec; cbn [bind]; [discriminate|].
  intros H. injection H as <-. exact (converter_chaves_excecao _ Ec).
Qed.

Lemma normalizar_servidores_excecao upper df e :
  Servidores.normalizar upper df = Raise e -> erro_de_dados e.
Proof.
  unfold Servidores.normalizar.
  destruct (filtrar_mascara _ _) as [numericas|e1] eqn:Ef; cbn [bind].
  2:{ intros H. injection H as <-. unfold filtrar_mascara in Ef.
      destruct (existsb _ _); [|discriminate Ef]. injection Ef as <-. exact I. }
  match goal with
  | |- context [mapM ?f ?l] => destruct (mapM f l) as [ids|e1] eqn:Em
  end; cbn [bind]; [discriminate|].
  intros H. injection H as <-. revert Em. apply mapM_excecao.
  intros a e0. apply astype_int_excecao.
Qed.

Section ErrosDeDados.

Variable A : Type.
Variables (rejeita : list A -> list A -> bool)
          (conflita : list A -> A -> bool).

Lemma laco_excecao lotes : forall n total (st : Estado A) e st',
  laco rejeita conflita lotes n total st = (Raise e, st') -> e = DBAPIError.
Proof.
  induction lotes as [|chunk resto IH]; intros n total st e st' H.
  - discriminate H.
  - cbn [laco] in H. unfold execute in H.
    destruct (rejeita (visao st) chunk).
    + injection H as <- _. reflexivity.
    + exact (IH _ _ _ _ _ H).
Qed.

Lemma carregar_excecao registros (st : Estado A) e st' :
  carregar rejeita conflita registros st = (Raise e, st') -> e = DBAPIError.
Proof.
  unfold carregar.
  destruct (laco rejeita conflita (fatiar chunk_size registros) 1 0 st)
    as [[t|e1] st1] eqn:El; [discriminate|].
  intros H. injection H as <- _. exact (laco_excecao _ _ _ _ El).
Qed.

(** An importer of the unguarded kind that raises: either the input is
    at fault, and then the session is exactly as it was, or the store
    is. *)
Lemma importar_excecao necessarias
    (normalizar : DataFrame -> resultado (list A)) df (st : Estado A) e :
  (forall e0, normalizar df = Raise e0 -> erro_de_dados e0) ->
  fst (importar necessarias normalizar (carregar rejeita conflita) df st)
  = Raise e ->
  (erro_de_dados e
   /\ snd (importar necessarias normalizar (carregar rejeita conflita) df st) = st
   /\ (verificar_colunas df necessarias = Raise e \/ normalizar df = Raise e))
  \/ (e = DBAPIError
      /\ verificar_colunas df necessarias = Ok tt
      /\ exists registros, normalizar df = Ok registros /\ registros <> []).
Proof.
  intros Hn. unfold importar.
  destruct (verificar_colunas df necessarias) as [[]|e1] eqn:Ev.
  2:{ cbn [fst snd]. intros H. injection H as <-. left.
      split; [exact (verificar_colunas_excecao _ _ Ev)|]. auto. }
  destruct (normalizar df) as [registros|e1] eqn:En.
  2:{ cbn [fst snd]. intros H. injection H as <-. left.
      split; [exact (Hn _ eq_refl)|]. auto. }
  destruct (carregar rejeita conflita registros st) as [[t|e1] st1] eqn:Ec;
    cbn [fst]; [discriminate|].
  intros H. injection H as <-. right.
  split; [exact (carregar_excecao _ _ Ec)|]. split; [reflexivity|].
  exists registros. split; [reflexivity|].
  intros ->. cbn in Ec. discriminate Ec.
Qed.

End ErrosDeDados.

(** X18. The four importers without a guarded loop validate before
    they write.  When one of them raises, either the exception comes
    from the input (a missing column, a key that is not an integer, an
    id column with a missing value in the person file), and then
    nothing was submitted: the session, the store and the log are
    exactly as before the call; or it is the store's, and then the
    frame had passed the column check and the normalisation with at
    least one record. *)
Theorem erro_de_dados_nada_persiste :
  forall (upper : string -> string) (data : Type)
         (strptime : string -> string -> resultado data),
    (forall rejeita conflita df st e,
        fst (Servidores.importar_servidores_dataframe upper rejeita conflita df st)
        = Raise e ->
        (erro_de_dados e
         /\ snd (Servidores.importar_servidores_dataframe upper rejeita conflita
                   df st) = st)
        \/ (e = DBAPIError
            /\ verificar_colunas df (map fst Servidores.colunas_necessarias) = Ok tt
            /\ exists registros,
                Servidores.normalizar upper df = Ok registros /\ registros <> []))
    /\ (forall rejeita conflita df st e,
          fst (Remuneracoes.importar_remuneracoes_dataframe rejeita conflita df st)
          = Raise e ->
          (erro_de_dados e
           /\ snd (Remuneracoes.importar_remuneracoes_dataframe rejeita conflita
                     df st) = st)
          \/ (e = DBAPIError
              /\ verificar_colunas df (map fst Remuneracoes.colunas_necessarias)
                 = Ok tt
              /\ exists registros,
                  Remuneracoes.normalizar df = Ok registros /\ registros <> []))
    /\ (forall rejeita conflita df st e,
          fst (Afastamentos.importar_afastamentos_dataframe strptime rejeita
                 conflita df st) = Raise e ->
          (erro_de_dados e
           /\ snd (Afastamentos.importar_afastamentos_dataframe strptime rejeita
                     conflita df st) = st)
          \/ (e = DBAPIError
              /\ verificar_colunas df (map fst Afastamentos.colunas_necessarias)
                 = Ok tt
              /\ exists registros,
                  Afastamentos.normalizar strptime df = Ok registros
                  /\ registros <> []))
    /\ (forall rejeita conflita df st e,
          fst (Observacoes.importar_observacoes_dataframe upper rejeita conflita
                 df st) = Raise e ->
          (erro_de_dados e
           /\ snd (Observacoes.importar_observacoes_dataframe upper rejeita
                     conflita df st) = st)
          \/ (e = DBAPIError
              /\ verificar_colunas df (map fst Observacoes.colunas_necessarias)
                 = Ok tt
              /\ exists registros,
                  Observacoes.normalizar upper df = Ok registros
                  /\ registros <> [])).
Proof.
  intros upper data strptime.
  split; [|split; [|split]]; intros rejeita conflita df st e H.
  - destruct (@importar_excecao _ rejeita conflita
                (map fst Servidores.colunas_necessarias)
                (Servidores.normalizar upper) df st e
                (fun e0 => @normalizar_servidores_excecao upper df e0) H)
      as [[H1 [H2 _]]|H3]; [left; split; assumption | right; exact H3].
  - destruct (@importar_excecao _ rejeita conflita
                (map fst Remuneracoes.colunas_necessarias)
                Remuneracoes.normalizar df st e
                (fun e0 => @normalizar_remuneracoes_excecao df e0) H)
      as [[H1 [H2 _]]|H3]; [left; split; assumption | right; exact H3].
  - destruct (@importar_excecao _ rejeita conflita
                (map fst (Afastamentos.colunas_necessarias))
                (Afastamentos.normalizar strptime) df st e
                (fun e0 => @normalizar_afastamentos_excecao data strptime df e0) H)
      as [[H1 [H2 _]]|H3]; [left; split; assumption | right; exact H3].
  - destruct (@importar_excecao _ rejeita conflita
                (map fst Observacoes.colunas_necessarias)
                (Observacoes.normalizar upper) df st e
                (fun e0 => @normalizar_observacoes_excecao upper df e0) H)
      as [[H1 [H2 _]]|H3]; [left; split; assumption | right; exact H3].
Qed.

(** ** [limpar_int] of the role importer *)

Lemma decimal_digito s : PyStr.isdecimal s = true -> PyStr.isdigit s = true.
Proof.
  unfold PyStr.isdecimal, PyStr.isdigit. intros H. apply andb_prop in H.
  destruct H as [Hne Hd]. rewrite Hne. cbn [andb]. clear Hne.
  induction s as [|c r IH]; [reflexivity|].
  cbn [PyStr.todos] in *. apply andb_prop in Hd. destruct Hd as [Hc Hr].
  rewrite (IH Hr). unfold PyStr.isdigit_c. rewrite Hc. reflexivity.
Qed.

Lemma span_decimal s :
  PyStr.todos PyStr.isdecimal_c s = true ->
  PyFloat.span PyFloat.e_corrida s = (s, EmptyString).
Proof.
  induction s as [|c r IH]; [reflexivity|].
  cbn [PyStr.todos PyFloat.span]. intros H. apply andb_prop in H.
  destruct H as [Hc Hr]. unfold PyFloat.e_corrida at 1. rewrite Hc.
  cbn [orb]. rewrite (IH Hr). reflexivity.
Qed.

Lemma round_half_even_inteiro x k :
  (x == inject_Z k)%Q -> PyFloat.round_half_even x = k.
Proof.
  intros H. unfold PyFloat.round_half_even.
  rewrite (Qfloor_comp _ _ H), Qfloor_Z.
  assert (Hx : (x - inject_Z k == 0)%Q) by (rewrite H; ring).
  rewrite Hx. reflexivity.
Qed.

(** An integer below [2^53] is a float: rounding leaves it as it
    is. *)
Lemma b64_exato q n :
  (q == inject_Z n)%Q -> 0 <= n < 2 ^ 53 ->
  exists r, PyFloat.b64 q = PFin r /\ (r == inject_Z n)%Q.
Proof.
  intros Hq [Hn0 H53].
  unfold PyFloat.b64. destruct (Qeq_bool q 0) eqn:Ez.
  { exists 0%Q. split; [reflexivity|]. apply Qeq_bool_iff in Ez.
    rewrite <- Hq, Ez. reflexivity. }
  apply Qeq_bool_neq in Ez.
  assert (Hpos : (0 < q)%Q).
  { rewrite Hq. rewrite <- (Zlt_Qlt 0).
    destruct (Z.eq_dec n 0) as [->|Hne]; [exfalso; apply Ez; exact Hq | lia]. }
  assert (Habs : Qabs q = q).
  { destruct q as [a d]. unfold Qlt in Hpos. cbn in Hpos. cbn.
    rewrite Z.abs_eq by lia. reflexivity. }
  rewrite Habs.
  set (u := Z.max (PyFloat.ilog2 q - 52) (-1074)).
  assert (Hu : u <= 0).
  { assert (Hl : PyFloat.ilog2 q <= 52).
    { apply ilog2_limite; [exact Hpos|]. rewrite Hq, <- Zlt_Qlt. exact H53. }
    unfold u. lia. }
  pose proof (pow2_positivo u) as HP.
  pose proof (pow2_inverso Hu) as HK.
  set (P := PyFloat.pow2 u) in *.
  set (K := 2 ^ (- u)) in *.
  assert (Hdiv : (q / P == inject_Z (n * K))%Q).
  { rewrite inject_Z_mult, <- Hq. unfold Qdiv. apply Qmult_inj_r with (z := P).
    - intros E. rewrite E in HP. apply (Qlt_irrefl 0). exact HP.
    - rewrite <- !Qmult_assoc. rewrite (Qmult_comm (/ P) P), (Qmult_comm (inject_Z K) P).
      rewrite Qmult_inv_r, HK; [reflexivity|].
      intros E. rewrite E in HP. apply (Qlt_irrefl 0). exact HP. }
  rewrite (round_half_even_inteiro Hdiv).
  assert (Hv : (inject_Z (n * K) * P == inject_Z n)%Q).
  { rewrite inject_Z_mult, <- Qmult_assoc, (Qmult_comm (inject_Z K) P), HK.
    apply Qmult_1_r. }
  assert (Hover : Qle_bool (PyFloat.pow2 1024) (inject_Z (n * K) * P)%Q = false).
  { destruct (Qle_bool _ _) eqn:E; [|reflexivity]. exfalso.
    apply Qle_bool_iff in E. rewrite Hv in E.
    change (PyFloat.pow2 1024) with (inject_Z (2 ^ 1024)) in E.
    rewrite <- Zle_Qle in E.
    assert (2 ^ 53 < 2 ^ 1024) by reflexivity. lia. }
  rewrite Hover.
  assert (Hq0 : Qle_bool 0 q = true)
    by (apply Qle_bool_iff; apply Qlt_le_weak; exact Hpos).
  rewrite Hq0. eexists. split; [reflexivity|].
  rewrite Qred_correct. exact Hv.
Qed.

(** [float] and [int] agree on a text of decimal digits that denotes an
    integer below [2^53]. *)
Lemma float_inteiro s n :
  PyStr.isdecimal s = true -> PyStr.int s = Ok n -> n < 2 ^ 53 ->
  0 <= n /\ exists r, PyFloat.float s = Ok (PFin r) /\ (r == inject_Z n)%Q.
Proof.
  intros Hd Hi H53.
  pose proof (digito_numerico _ (decimal_digito _ Hd)) as Hn.
  unfold PyStr.int in Hi. unfold PyFloat.float.
  rewrite (strip_numero_numerico _ Hn), (sinal_numerico _ Hn) in *.
  destruct (PyStr.parse_digitos s false 0 0) as [[v m]|] eqn:Ep; [|discriminate Hi].
  destruct (Nat.ltb PyStr.max_str_digits m); [discriminate Hi|].
  injection Hi as <-.
  assert (Hv0 : 0 <= v).
  { apply (@parse_digitos_nao_negativo s false 0 0%nat v m); [lia | exact Ep]. }
  split; [exact Hv0|].
  rewrite (numerico_minusculo _ Hn).
  assert (Hinf : PyStr.membro s ["inf"; "infinity"]%string = false).
  { unfold PyStr.membro. cbn [existsb].
    destruct (String.eqb_spec s "inf") as [E|_];
      [rewrite E in Hd; vm_compute in Hd; discriminate Hd|].
    destruct (String.eqb_spec s "infinity") as [E|_];
      [rewrite E in Hd; vm_compute in Hd; discriminate Hd|].
    reflexivity. }
  rewrite Hinf.
  destruct (String.eqb_spec s "nan") as [E|_];
    [rewrite E in Hd; vm_compute in Hd; discriminate Hd|].
  unfold PyStr.isdecimal in Hd. apply andb_prop in Hd. destruct Hd as [Hne Hdec].
  assert (Hm : m = String.length s).
  { rewrite (@parse_digitos_conta s false 0 0%nat v m Hdec Ep). reflexivity. }
  assert (Hdecimal : PyFloat.decimal s
                     = Some (inject_Z (v * 10 ^ Z.of_nat 0 + 0)
                             * PyFloat.pow10 (0 - Z.of_nat 0))%Q).
  { unfold PyFloat.decimal, PyFloat.ler_digitos.
    rewrite (span_decimal _ Hdec).
    destruct s as [|c r]; [discriminate Hne|]. rewrite Ep.
    cbn [PyFloat.parte_fracao PyFloat.parte_expoente].
    rewrite Hm. cbn [String.length Nat.add Nat.eqb]. reflexivity. }
  rewrite Hdecimal.
  destruct (@b64_exato (inject_Z (v * 10 ^ Z.of_nat 0 + 0)
                        * PyFloat.pow10 (0 - Z.of_nat 0))%Q v) as [r [Hr1 Hr2]].
  - cbn [Z.of_nat]. change (PyFloat.pow10 (0 - 0)) with (inject_Z 1).
    rewrite Z.pow_0_r, Z.mul_1_r, Z.add_0_r. apply Qmult_1_r.
  - lia.
  - exists r. rewrite Hr1. split; [reflexivity | exact Hr2].
Qed.

(** X19. [limpar_int] never raises and gives nothing for a missing
    cell.  A value it gives lies within BIGINT.  On a text of decimal
    digits that denotes an integer below [2^53], the passage through
    [float] loses nothing: the value is that integer, except that 0
    gives nothing.  The exclusion of 0 and -1 is made on the float
    before it is truncated, so that a fraction can still give 0, and
    -1: "0.5" gives 0 and "-1.5" gives -1. *)
Theorem limpar_int_casos :
  CargosFuncoes.limpar_int None = None
  /\ (forall val z,
        CargosFuncoes.limpar_int val = Some z -> em_bigint z = true)
  /\ (forall s n,
        PyStr.isdecimal s = true -> PyStr.int s = Ok n -> n < 2 ^ 53 ->
        CargosFuncoes.limpar_int (Some s)
        = if Z.eqb n 0 then None else Some n)
  /\ CargosFuncoes.limpar_int (Some "-1"%string) = None
  /\ CargosFuncoes.limpar_int (Some "0.5"%string) = Some 0
  /\ CargosFuncoes.limpar_int (Some "-1.5"%string) = Some (-1).
Proof.
  split; [reflexivity|]. split.
  { intros val z. unfold CargosFuncoes.limpar_int.
    destruct (match val with None => Ok PNan | Some s => PyFloat.float s end)
      as [[q|sg|]|e]; cbn [bind try_except]; try discriminate.
    destruct (Qeq_bool q (-1) || Qeq_bool q 0); cbn [try_except]; [discriminate|].
    destruct (em_bigint (PyFloat.trunc q)) eqn:E; [|discriminate].
    intros H. injection H as <-. exact E. }
  split.
  { intros s n Hd Hi H53.
    destruct (float_inteiro s Hd Hi H53) as [Hn0 [r [Hf Hr]]].
    unfold CargosFuncoes.limpar_int. rewrite Hf. cbn [bind].
    assert (Hm1 : Qeq_bool r (-1) = false).
    { destruct (Qeq_bool r (-1)) eqn:E; [|reflexivity]. exfalso.
      apply Qeq_bool_iff in E. rewrite Hr in E.
      unfold Qeq in E. cbn in E. lia. }
    rewrite Hm1. cbn [orb].
    destruct (Z.eqb_spec n 0) as [->|Hne].
    - assert (H0 : Qeq_bool r 0 = true) by (apply Qeq_bool_iff; exact Hr).
      rewrite H0. reflexivity.
    - assert (H0 : Qeq_bool r 0 = false).
      { destruct (Qeq_bool r 0) eqn:E; [|reflexivity]. exfalso.
        apply Qeq_bool_iff in E. rewrite Hr in E.
        unfold Qeq in E. cbn in E. lia. }
      rewrite H0. cbn [try_except].
      assert (Ht : PyFloat.trunc r = n).
      { unfold PyFloat.trunc.
        assert (Hle : Qle_bool 0 r = true).
        { apply Qle_bool_iff. rewrite Hr. rewrite <- (Zle_Qle 0). exact Hn0. }
        rewrite Hle, (Qfloor_comp _ _ Hr). apply Qfloor_Z. }
      rewrite Ht.
      assert (Hb : em_bigint n = true).
      { unfold em_bigint, BIGINT_MIN, BIGINT_MAX.
        apply andb_true_intro. split; apply Z.leb_le; [lia|].
        assert (2 ^ 53 < 9223372036854775807) by reflexivity. lia. }
      rewrite Hb. reflexivity. }
  repeat split; vm_compute; reflexivity.
Qed.

Lemma limpar_int_casos_witness :
  CargosFuncoes.limpar_int (Some "0042"%string) = Some 42.
Proof.
  destruct limpar_int_casos as [_ [_ [H _]]].
  exact (H "0042"%string 42 eq_refl eq_refl eq_refl).
Defined.

(** ** [importar_cargosfuncoes_dataframe] as a whole *)

Lemma aux_tamanho A K (eqb : K -> K -> bool) (chave : A -> K) l : forall v,
  (length (drop_duplicates_aux eqb chave v l) <= length l)%nat.
Proof.
  induction l as [|a l IH]; intros v; [apply Nat.le_refl|].
  cbn [drop_duplicates_aux length].
  destruct (existsb (eqb (chave a)) v).
  - specialize (IH v). lia.
  - specialize (IH (chave a :: v)). cbn [length]. lia.
Qed.

Section ProtegidoInvariante.

Variable A : Type.
Variable P : A -> Prop.
Variables (rejeita : list A -> list A -> bool)
          (conflita : list A -> A -> bool).

Lemma laco_protegido_forall lotes : forall n total (st : Estado A),
  Forall P (confirmadas st) -> Forall P (visao st) ->
  Forall (Forall P) lotes ->
  Forall P (confirmadas (snd (laco_protegido rejeita conflita lotes n total st))).
Proof.
  induction lotes as [|chunk resto IH]; intros n total st Hc Hv Hl.
  - exact Hc.
  - inversion Hl; subst. cbn [laco_protegido]. unfold execute.
    destruct (rejeita (visao st) chunk).
    + apply IH; assumption.
    + apply IH; try assumption; simpl; apply inserir_forall; assumption.
Qed.

Lemma laco_protegido_total lotes : forall n total (st : Estado A),
  (fst (laco_protegido rejeita conflita lotes n total st)
   <= total + length (concat lotes))%nat.
Proof.
  induction lotes as [|chunk resto IH]; intros n total st.
  - cbn. lia.
  - cbn [laco_protegido concat]. rewrite length_app. unfold execute.
    destruct (rejeita (visao st) chunk).
    + match goal with |- (fst (laco_protegido _ _ _ ?n1 ?t1 ?s1) <= _)%nat =>
        specialize (IH n1 t1 s1) end. lia.
    + match goal with |- (fst (laco_protegido _ _ _ ?n1 ?t1 ?s1) <= _)%nat =>
        specialize (IH n1 t1 s1) end. lia.
Qed.

End ProtegidoInvariante.

Lemma limpar_texto_limpo cols row :
  texto_limpo (CargosFuncoes.sanitizar (CargosFuncoes.limpar cols row)).
Proof.
  unfold texto_limpo, CargosFuncoes.sanitizar, CargosFuncoes.limpar.
  cbn [CargosFuncoes.descricao_cargo CargosFuncoes.classe_cargo
       CargosFuncoes.funcao].
  split; [apply strip_idempotente|].
  split; intros v Hv.
  - destruct (campo cols row "CLASSE_CARGO") as [s|]; [|discriminate Hv].
    apply (limpar_str_forma _ Hv).
  - destruct (campo cols row "FUNCAO") as [s|]; [|discriminate Hv].
    apply (limpar_str_forma _ Hv).
Qed.

(** X20. [importar_cargosfuncoes_dataframe], started with no open
    transaction: it ends with none and removes no committed row.  It
    raises in two cases only, with the session untouched: a missing
    column, reported by name; and a frame that has the columns and no
    row, on which the assignment of the key raises [ValueError].  On a
    frame that has the columns and a row it returns a count, never more
    than the number of rows of the frame; and every row it commits has
    clean text fields: a stripped description, and a class and a
    function that are absent or a fixed point of [limpar_str]. *)
Theorem importar_cargosfuncoes_resultados :
  forall str_coluna rejeita conflita df st,
    limpa st ->
    limpa (snd (CargosFuncoes.importar_cargosfuncoes_dataframe str_coluna
                  rejeita conflita df st))
    /\ incl (confirmadas st)
         (confirmadas (snd (CargosFuncoes.importar_cargosfuncoes_dataframe
                              str_coluna rejeita conflita df st)))
    /\ (forall e,
          fst (CargosFuncoes.importar_cargosfuncoes_dataframe str_coluna rejeita
                 conflita df st) = Raise e ->
          snd (CargosFuncoes.importar_cargosfuncoes_dataframe str_coluna rejeita
                 conflita df st) = st
          /\ ((exists col,
                  In col (map fst CargosFuncoes.colunas_necessarias)
                  /\ tem_coluna df col = false
                  /\ e = mensagem_coluna col)
              \/ (verificar_colunas df (map fst CargosFuncoes.colunas_necessarias)
                  = Ok tt
                  /\ linhas df = []
                  /\ exists msg, e = ValueError msg)))
    /\ (verificar_colunas df (map fst CargosFuncoes.colunas_necessarias) = Ok tt ->
        linhas df = [] ->
        exists msg,
          CargosFuncoes.importar_cargosfuncoes_dataframe str_coluna rejeita
            conflita df st = (Raise (ValueError msg), st))
    /\ (verificar_colunas df (map fst CargosFuncoes.colunas_necessarias) = Ok tt ->
        linhas df <> [] ->
        exists total,
          fst (CargosFuncoes.importar_cargosfuncoes_dataframe str_coluna rejeita
                 conflita df st) = Ok total)
    /\ (forall total,
          fst (CargosFuncoes.importar_cargosfuncoes_dataframe str_coluna rejeita
                 conflita df st) = Ok total ->
          (total <= length (linhas df))%nat)
    /\ forall r,
        In r (confirmadas (snd (CargosFuncoes.importar_cargosfuncoes_dataframe
                                  str_coluna rejeita conflita df st))) ->
        In r (confirmadas st) \/ texto_limpo r.
Proof.
  intros str_coluna rejeita conflita df st Hl.
  unfold CargosFuncoes.importar_cargosfuncoes_dataframe, importar.
  destruct (verificar_colunas df (map fst CargosFuncoes.colunas_necessarias))
    as [[]|e0] eqn:Ev.
  2:{ cbn [fst snd]. split; [exact Hl|]. split; [apply incl_refl|].
      split.
      { intros e H. injection H as <-. split; [reflexivity|]. left.
        assert (Hf : falta df (map fst CargosFuncoes.colunas_necessarias)).
        { clear - Ev. induction (map fst CargosFuncoes.colunas_necessarias)
            as [|c cs IH]; [discriminate Ev|].
          cbn [verificar_colunas] in Ev.
          destruct (tem_coluna df c) eqn:Ec.
          - destruct (IH Ev) as [col [Hin Hcol]]. exists col. split; [right|]; auto.
          - exists c. split; [left; reflexivity | exact Ec]. }
        destruct (verificar_colunas_falta Hf) as [col [Hin [Hcol Hv]]].
        exists col. split; [exact Hin|]. split; [exact Hcol|].
        rewrite Ev in Hv. injection Hv as ->. reflexivity. }
      split; [discriminate|]. split; [discriminate|].
      split; [discriminate|]. intros r Hr. left. exact Hr. }
  unfold CargosFuncoes.normalizar.
  destruct (linhas df) as [|l0 ls] eqn:El.
  { cbn [fst snd]. split; [exact Hl|]. split; [apply incl_refl|].
    split.
    { intros e H. injection H as <-. split; [reflexivity|]. right.
      split; [reflexivity|]. split; [reflexivity|]. eexists. reflexivity. }
    split; [intros _ _; eexists; reflexivity|].
    split; [intros _ Hne; exfalso; apply Hne; reflexivity|].
    split; [discriminate|]. intros r Hr. left. exact Hr. }
  set (registros := map CargosFuncoes.sanitizar _).
  assert (Hlen : (length registros <= length (l0 :: ls))%nat).
  { unfold registros, CargosFuncoes.deduplicar, drop_duplicates.
    rewrite length_map.
    etransitivity; [apply aux_tamanho|]. rewrite length_map. apply Nat.le_refl. }
  assert (Hlimpos : Forall (fun r => In r (confirmadas st) \/ texto_limpo r)
                      registros).
  { apply Forall_forall. intros r Hr. right. unfold registros in Hr.
    apply in_map_iff in Hr. destruct Hr as [r0 [<- Hr0]].
    unfold CargosFuncoes.deduplicar, drop_duplicates in Hr0.
    apply (@aux_in _ _ String.eqb _ String.eqb_eq) in Hr0.
    destruct Hr0 as [Hr0 _]. apply in_map_iff in Hr0.
    destruct Hr0 as [row [<- _]]. apply limpar_texto_limpo. }
  unfold carregar_protegido.
  pose proof (laco_protegido_limpa rejeita conflita
                (fatiar chunk_size registros) 1 0 Hl) as L1.
  pose proof (fun x => @laco_protegido_mantem _ rejeita conflita
                (fatiar chunk_size registros) 1 0 st x Hl) as L2.
  pose proof (@laco_protegido_total _ rejeita conflita
                (fatiar chunk_size registros) 1 0 st) as L3.
  rewrite fatiar_concat in L3.
  assert (Hst : Forall (fun r => In r (confirmadas st) \/ texto_limpo r)
                  (confirmadas st)).
  { apply Forall_forall. intros r Hr. left. exact Hr. }
  assert (Hvis : Forall (fun r => In r (confirmadas st) \/ texto_limpo r)
                   (visao st)) by (rewrite Hl; exact Hst).
  pose proof (@laco_protegido_forall _
                (fun r => In r (confirmadas st) \/ texto_limpo r)
                rejeita conflita (fatiar chunk_size registros) 1 0 st Hst Hvis
                (@fatiar_aux_forall _ _ _ _ _ Hlimpos)) as L4.
  destruct (laco_protegido rejeita conflita (fatiar chunk_size registros) 1 0 st)
    as [total st1]. cbn [fst snd logar confirmadas visao] in *.
  split; [exact L1|]. split; [exact L2|]. split; [discriminate|].
  split; [intros _ Hv; discriminate Hv|].
  split; [intros _ _; exists total; reflexivity|].
  split.
  { intros t H. injection H as <-. lia. }
  apply Forall_forall. exact L4.
Qed.

Lemma importar_cargosfuncoes_resultados_witness :
  limpa (snd (CargosFuncoes.importar_cargosfuncoes_dataframe
                (fun _ _ => EmptyString) (fun _ _ => false) (fun _ _ => false)
                df_um_cargo (mkEstado [] [] [])))
  /\ (forall r,
      In r (confirmadas
              (snd (CargosFuncoes.importar_cargosfuncoes_dataframe
                      (fun _ _ => EmptyString) (fun _ _ => false)
                      (fun _ _ => false) df_um_cargo (mkEstado [] [] [])))) ->
      In r [] \/ texto_limpo r)
  /\ (exists total,
        fst (CargosFuncoes.importar_cargosfuncoes_dataframe
               (fun _ _ => EmptyString) (fun _ _ => false) (fun _ _ => false)
               df_um_cargo (mkEstado [] [] [])) = Ok total)
  /\ verificar_colunas df_cargos_sem_linhas
       (map fst CargosFuncoes.colunas_necessarias) = Ok tt
  /\ linhas df_cargos_sem_linhas = []
  /\ exists msg,
      CargosFuncoes.importar_cargosfuncoes_dataframe
        (fun _ _ => EmptyString) (fun _ _ => false) (fun _ _ => false)
        df_cargos_sem_linhas (mkEstado [] [] [])
      = (Raise (ValueError msg), mkEstado [] [] []).
Proof.
  assert (Hl : limpa (mkEstado ([] : list CargosFuncoes.Registro) [] []))
    by reflexivity.
  destruct (@importar_cargosfuncoes_resultados (fun _ _ => EmptyString)
              (fun _ _ => false) (fun _ _ => false) df_um_cargo
              (mkEstado [] [] []) Hl) as [H1 [_ [_ [_ [H4 [_ H5]]]]]].
  destruct (@importar_cargosfuncoes_resultados (fun _ _ => EmptyString)
              (fun _ _ => false) (fun _ _ => false) df_cargos_sem_linhas
              (mkEstado [] [] []) Hl) as [_ [_ [_ [H3 _]]]].
  assert (Hv : verificar_colunas df_cargos_sem_linhas
                 (map fst CargosFuncoes.colunas_necessarias) = Ok tt)
    by reflexivity.
  split; [exact H1|]. split; [exact H5|].
  split; [apply H4; [reflexivity | discriminate]|].
  split; [exact Hv|]. split; [reflexivity|].
  exact (H3 Hv eq_refl).
Defined.

(** ** The records of [importar_servidores_dataframe] *)

Lemma combine_forall A B C (R : A -> B -> Prop) (P : C -> Prop)
    (g : A * B -> C) (l1 : list A) (l2 : list B) :
  Forall2 R l1 l2 ->
  (forall a b, In a l1 -> R a b -> P (g (a, b))) ->
  Forall P (map g (combine l1 l2)).
Proof.
  induction 1 as [|a b l1 l2 Hab _ IH]; intros Hg; [constructor|].
  cbn [combine map]. constructor.
  - apply Hg; [left; reflexivity | exact Hab].
  - apply IH. intros a' b' Hin. apply Hg. right. exact Hin.
Qed.

(** X21. The normalisation of the person importer.  A row whose id is
    missing makes it raise [ValueError] at the [isnumeric] mask: this
    importer has no [dropna].  When it succeeds no id is missing, there
    are no more records than rows, and each record comes from a row
    whose id is written in decimal digits, carries that integer, between
    0 and the BIGINT maximum, and has a stripped name, CPF and role
    description.  Duplicates are dropped on the text of the id, before
    it becomes an integer: "7" and "07" both survive, as two records
    with the id 7. *)
Theorem servidores_registros_validos :
  forall upper : string -> string,
    (forall df row,
        In row (linhas df) ->
        campo (columns df) row "Id_SERVIDOR_PORTAL" = None ->
        exists msg, Servidores.normalizar upper df = Raise (ValueError msg))
    /\ (forall df registros,
          Servidores.normalizar upper df = Ok registros ->
          Forall (fun row => campo (columns df) row "Id_SERVIDOR_PORTAL" <> None)
            (linhas df)
          /\ (length registros <= length (linhas df))%nat
          /\ Forall
               (fun r =>
                  0 <= Servidores.id_servidor r <= BIGINT_MAX
                  /\ PyStr.strip (Servidores.nome r) = Servidores.nome r
                  /\ PyStr.strip (Servidores.cpf r) = Servidores.cpf r
                  /\ PyStr.strip (Servidores.descr_cargo r) = Servidores.descr_cargo r
                  /\ exists row s,
                      In row (linhas df)
                      /\ campo (columns df) row "Id_SERVIDOR_PORTAL" = Some s
                      /\ PyStr.isdecimal s = true
                      /\ astype_int s = Ok (Servidores.id_servidor r))
               registros)
    /\ exists r1 r2,
        Servidores.normalizar upper df_id_com_zero = Ok [r1; r2]
        /\ Servidores.id_servidor r1 = 7
        /\ Servidores.id_servidor r2 = 7.
Proof.
  intros upper. split; [|split].
  - intros df row Hin Hnone. unfold Servidores.normalizar, filtrar_mascara.
    match goal with
    | |- context [existsb ?f ?l] => assert (Hex : existsb f l = true)
    end.
    { apply existsb_exists. exists (Servidores.limpar upper (columns df) row).
      split; [apply in_map; exact Hin|].
      unfold Servidores.limpar. cbn [fst]. rewrite Hnone. reflexivity. }
    rewrite Hex. cbn [bind]. eexists. reflexivity.
  - intros df registros H. unfold Servidores.normalizar, filtrar_mascara in H.
    set (limpas := map (Servidores.limpar upper (columns df)) (linhas df)) in *.
    match type of H with
    | context [existsb ?f limpas] => destruct (existsb f limpas) eqn:Hex
    end; cbn [bind] in H; [discriminate H|].
    set (numericas := filter _ limpas) in *.
    set (unicas := drop_duplicates String.eqb _ numericas) in *.
    match type of H with
    | context [mapM ?f unicas] => destruct (mapM f unicas) as [ids|e] eqn:Em
    end; cbn [bind] in H; [|discriminate H].
    injection H as <-.
    split.
    { apply Forall_forall. intros row Hin Hnone.
      assert (Ht : existsb
                (fun a : cell * Servidores.Servidor =>
                   match mascara_isnumeric (fst a) with
                   | Some _ => false
                   | None => true
                   end) limpas = true).
      { apply existsb_exists. exists (Servidores.limpar upper (columns df) row).
        split; [apply in_map; exact Hin|].
        unfold Servidores.limpar. cbn [fst]. rewrite Hnone. reflexivity. }
      rewrite Ht in Hex. discriminate Hex. }
    assert (Hun : forall a, In a unicas -> In a numericas).
    { intros a Ha. unfold unicas, drop_duplicates in Ha.
      apply (@aux_in _ _ String.eqb _ String.eqb_eq) in Ha. tauto. }
    split.
    { rewrite length_map, length_combine.
      etransitivity; [apply Nat.le_min_l|].
      etransitivity; [apply aux_tamanho|].
      etransitivity; [apply filter_length_le|].
      unfold limpas. rewrite length_map. apply Nat.le_refl. }
    apply mapM_ok in Em.
    apply (combine_forall _ _ Em).
    intros a z Ha Hz. apply Hun in Ha. apply filter_In in Ha.
    destruct Ha as [Ha Hmask]. apply in_map_iff in Ha.
    destruct Ha as [row [<- Hrow]].
    unfold Servidores.limpar in Hmask, Hz |- *.
    cbn [fst snd Servidores.com_id Servidores.id_servidor Servidores.nome
         Servidores.cpf Servidores.descr_cargo] in *.
    destruct (campo (columns df) row "Id_SERVIDOR_PORTAL") as [s|] eqn:Ec;
      [|discriminate Hmask].
    cbn [mascara_isnumeric option_map fillna] in Hmask, Hz.
    destruct (astype_int_numerico s Hmask Hz) as [Hdec Hrange].
    split; [exact Hrange|].
    split; [apply strip_idempotente|].
    split; [apply strip_idempotente|].
    split; [apply strip_idempotente|].
    exists row, s. auto.
  - eexists. eexists. split; [cbv; reflexivity|]. split; reflexivity.
Qed.

Lemma servidores_registros_validos_witness :
  Forall (fun row => campo (columns df_id_com_zero) row "Id_SERVIDOR_PORTAL" <> None)
    (linhas df_id_com_zero).
Proof.
  destruct (servidores_registros_validos (fun s => s)) as [_ [H [r1 [r2 [E _]]]]].
  exact (proj1 (H df_id_com_zero [r1; r2] E)).
Defined.

(** ** The upload endpoint of the pay importer *)

Section LacoExtras.

Variable A : Type.
Variables (rejeita : list A -> list A -> bool)
          (conflita : list A -> A -> bool).

Lemma laco_limpa_incl lotes : forall n total (st : Estado A),
  limpa st ->
  limpa (snd (laco rejeita conflita lotes n total st))
  /\ incl (confirmadas st)
       (confirmadas (snd (laco rejeita conflita lotes n total st))).
Proof.
  induction lotes as [|chunk resto IH]; intros n total st Hl.
  - split; [exact Hl | apply incl_refl].
  - cbn [laco]. unfold execute.
    destruct (rejeita (visao st) chunk).
    + split; [exact Hl | apply incl_refl].
    + match goal with
      | |- context [laco _ _ resto ?n1 ?t1 ?s1] =>
          destruct (IH n1 t1 s1) as [H1 H2]; [reflexivity|]
      end.
      split; [exact H1|].
      intros x Hx. apply H2. cbn [logar commit confirmadas visao].
      apply inserir_mantem. rewrite Hl. exact Hx.
Qed.

Lemma laco_ok_total lotes : forall n total (st : Estado A) t st',
  laco rejeita conflita lotes n total st = (Ok t, st') ->
  t = (total + length (concat lotes))%nat.
Proof.
  induction lotes as [|chunk resto IH]; intros n total st t st' H.
  - injection H as <- _. cbn. lia.
  - cbn [laco] in H. unfold execute in H.
    destruct (rejeita (visao st) chunk); [discriminate H|].
    rewrite (IH _ _ _ _ _ H). cbn [concat]. rewrite length_app. lia.
Qed.

Lemma carregar_limpa_incl registros (st : Estado A) :
  limpa st ->
  limpa (snd (carregar rejeita conflita registros st))
  /\ incl (confirmadas st)
       (confirmadas (snd (carregar rejeita conflita registros st))).
Proof.
  intros Hl. unfold carregar.
  pose proof (@laco_limpa_incl (fatiar chunk_size registros) 1 0 st Hl) as H.
  destruct (laco rejeita conflita (fatiar chunk_size registros) 1 0 st)
    as [[t|e] st1]; exact H.
Qed.

Lemma carregar_ok_total registros (st : Estado A) t st' :
  carregar rejeita conflita registros st = (Ok t, st') ->
  t = length registros.
Proof.
  unfold carregar.
  destruct (laco rejeita conflita (fatiar chunk_size registros) 1 0 st)
    as [[t1|e] st1] eqn:El; [|discriminate].
  intros H. injection H as <- _.
  rewrite (laco_ok_total _ _ _ _ El), fatiar_concat. reflexivity.
Qed.

Lemma rollback_limpa (st : Estado A) : limpa st -> rollback st = st.
Proof.
  destruct st as [c v l]. unfold limpa. cbn. intros ->. reflexivity.
Qed.

End LacoExtras.

(** X22. The upload endpoint of the pay importer, on a session with no
    open transaction.  A file name that does not end in ".csv", in
    this letter case, is answered 400 without the file being read or
    the store touched.  Otherwise the answer is never a 400: a frame
    that lacks a required column is answered 500 with the importer's
    message, the store untouched, and so is any failure caused by the
    input.  A 200 reports the number of records the normalisation
    produced.  In every case the endpoint leaves no open transaction
    and removes no committed row. *)
Theorem api_importar_remuneracoes :
  forall read_csv rejeita conflita filename conteudo st,
    limpa st ->
    limpa (snd (Endpoint.importar_remuneracoes_csv_api read_csv rejeita conflita
                  filename conteudo st))
    /\ incl (confirmadas st)
         (confirmadas (snd (Endpoint.importar_remuneracoes_csv_api read_csv
                              rejeita conflita filename conteudo st)))
    /\ (Endpoint.endswith ".csv" filename = false ->
        Endpoint.importar_remuneracoes_csv_api read_csv rejeita conflita
          filename conteudo st
        = (Endpoint.Erro400 "O arquivo deve ser um CSV.", st))
    /\ (Endpoint.endswith ".csv" filename = true ->
        forall d,
          fst (Endpoint.importar_remuneracoes_csv_api read_csv rejeita conflita
                 filename conteudo st) <> Endpoint.Erro400 d)
    /\ (forall df,
          Endpoint.endswith ".csv" filename = true ->
          read_csv conteudo = Ok df ->
          falta df (map fst Remuneracoes.colunas_necessarias) ->
          exists col,
            In col (map fst Remuneracoes.colunas_necessarias)
            /\ tem_coluna df col = false
            /\ Endpoint.importar_remuneracoes_csv_api read_csv rejeita conflita
                 filename conteudo st
               = (Endpoint.Erro500 (mensagem_coluna col), st))
    /\ (forall e,
          fst (Endpoint.importar_remuneracoes_csv_api read_csv rejeita conflita
                 filename conteudo st) = Endpoint.Erro500 e ->
          erro_de_dados e ->
          snd (Endpoint.importar_remuneracoes_csv_api read_csv rejeita conflita
                 filename conteudo st) = st)
    /\ (forall m,
          fst (Endpoint.importar_remuneracoes_csv_api read_csv rejeita conflita
                 filename conteudo st) = Endpoint.Sucesso m ->
          exists df registros,
            read_csv conteudo = Ok df
            /\ Remuneracoes.normalizar df = Ok registros
            /\ m = Endpoint.mensagem_sucesso (length registros))
    /\ Endpoint.endswith ".csv" "DADOS.CSV" = false.
Proof.
  intros read_csv rejeita conflita filename conteudo st Hl.
  unfold Endpoint.importar_remuneracoes_csv_api.
  destruct (Endpoint.endswith ".csv" filename) eqn:Ef; cbn [negb].
  2:{ cbn [fst snd]. split; [exact Hl|]. split; [apply incl_refl|].
      split; [reflexivity|]. split; [discriminate|].
      split; [discriminate|]. split; [discriminate|].
      split; [discriminate | reflexivity]. }
  destruct (read_csv conteudo) as [df|e0] eqn:Er.
  2:{ cbn [fst snd]. split; [exact Hl|]. split; [apply incl_refl|].
      split; [discriminate|]. split; [discriminate|].
      split; [discriminate|]. split; [reflexivity|].
      split; [discriminate | reflexivity]. }
  assert (Hex : forall e,
             fst (Remuneracoes.importar_remuneracoes_dataframe rejeita conflita
                    df st) = Raise e ->
             (erro_de_dados e
              /\ snd (Remuneracoes.importar_remuneracoes_dataframe rejeita
                        conflita df st) = st)
             \/ e = DBAPIError).
  { intros e H.
    destruct (@importar_excecao _ rejeita conflita
                (map fst Remuneracoes.colunas_necessarias)
                Remuneracoes.normalizar df st e
                (fun e0 => @normalizar_remuneracoes_excecao df e0) H)
      as [[H1 [H2 _]]|[H3 _]]; [left; split; assumption | right; exact H3]. }
  assert (Hinv : limpa (snd (Remuneracoes.importar_remuneracoes_dataframe
                               rejeita conflita df st))
                 /\ incl (confirmadas st)
                      (confirmadas (snd (Remuneracoes.importar_remuneracoes_dataframe
                                           rejeita conflita df st)))).
  { unfold Remuneracoes.importar_remuneracoes_dataframe, importar.
    destruct (verificar_colunas df _) as [[]|e1];
      [|split; [exact Hl | apply incl_refl]].
    destruct (Remuneracoes.normalizar df) as [registros|e1];
      [|split; [exact Hl | apply incl_refl]].
    apply carregar_limpa_incl. exact Hl. }
  assert (Hfalta : falta df (map fst Remuneracoes.colunas_necessarias) ->
                   exists col,
                     In col (map fst Remuneracoes.colunas_necessarias)
                     /\ tem_coluna df col = false
                     /\ Remuneracoes.importar_remuneracoes_dataframe rejeita
                          conflita df st
                        = (Raise (mensagem_coluna col), st)).
  { intros Hf. destruct (verificar_colunas_falta Hf) as [col [Hin [Hcol Hv]]].
    exists col. split; [exact Hin|]. split; [exact Hcol|].
    unfold Remuneracoes.importar_remuneracoes_dataframe, importar.
    rewrite Hv. reflexivity. }
  assert (Hok : forall t st1,
             Remuneracoes.importar_remuneracoes_dataframe rejeita conflita df st
             = (Ok t, st1) ->
             exists registros,
               Remuneracoes.normalizar df = Ok registros /\ t = length registros).
  { unfold Remuneracoes.importar_remuneracoes_dataframe, importar.
    destruct (verificar_colunas df _) as [[]|e1]; [|discriminate].
    destruct (Remuneracoes.normalizar df) as [registros|e1]; [|discriminate].
    intros t st1 H. exists registros. split; [reflexivity|].
    exact (carregar_ok_total _ _ _ _ H). }
  destruct (Remuneracoes.importar_remuneracoes_dataframe rejeita conflita df st)
    as [[t|e1] st1] eqn:Ei; cbn [fst snd] in *;
    destruct Hinv as [I1 I2];
    (split; [reflexivity|]); (split; [exact I2|]);
    (split; [discriminate|]); (split; [discriminate|]).
  - split.
    { intros df0 _ Hdf Hf. injection Hdf as <-.
      destruct (Hfalta Hf) as [col [_ [_ H]]]. discriminate H. }
    split; [discriminate|]. split; [|reflexivity].
    intros m H. injection H as <-.
    destruct (Hok _ _ eq_refl) as [registros [Hn ->]].
    exists df, registros. auto.
  - split.
    { intros df0 _ Hdf Hf. injection Hdf as <-.
      destruct (Hfalta Hf) as [col [Hin [Hcol H]]].
      injection H as -> ->. exists col. split; [exact Hin|].
      split; [exact Hcol|]. rewrite (rollback_limpa Hl). reflexivity. }
    split.
    { intros e H Hd. injection H as <-.
      destruct (Hex e1 eq_refl) as [[_ H2]|H3].
      - rewrite H2. apply rollback_limpa. exact Hl.
      - rewrite H3 in Hd. destruct Hd. }
    split; [discriminate | reflexivity].
Qed.

Lemma api_importar_remuneracoes_witness :
  Endpoint.importar_remuneracoes_csv_api (fun _ => Ok df_sem_mes)
    (fun _ _ => false) (fun _ _ => false) "folha.xls" "" (mkEstado [] [] [])
  = (Endpoint.Erro400 "O arquivo deve ser um CSV.", mkEstado [] [] []).
Proof.
  assert (Hl : limpa (mkEstado ([] : list Remuneracoes.Remuneracao) [] []))
    by reflexivity.
  destruct (@api_importar_remuneracoes (fun _ => Ok df_sem_mes)
              (fun _ _ => false) (fun _ _ => false) "folha.xls"%string
              ""%string (mkEstado [] [] []) Hl) as [_ [_ [H _]]].
  exact (H eq_refl).
Defined.

(** ** The charts *)

Section GraficosProps.

Variable desenhar : Graficos.Metodo -> option Z -> resultado unit.

Lemma executar_prefixo ps ano : forall graficos,
  exists k,
    Graficos.executar desenhar ps ano graficos
    = graficos ++ firstn k (map snd ps)
    /\ (k <= length ps)%nat
    /\ Forall (fun p => Graficos.chamar desenhar (fst p) ano = Ok tt)
         (firstn k ps)
    /\ ((k < length ps)%nat ->
        exists m nome e,
          nth_error ps k = Some (m, nome)
          /\ Graficos.chamar desenhar m ano = Raise e)
    /\ (k = length ps <->
        Forall (fun p => Graficos.chamar desenhar (fst p) ano = Ok tt) ps).
Proof.
  induction ps as [|[m nome] resto IH]; intros graficos.
  - exists O. cbn. rewrite app_nil_r. split; [reflexivity|].
    split; [lia|]. split; [constructor|]. split; [lia|].
    split; [constructor | reflexivity].
  - cbn [Graficos.executar].
    destruct (Graficos.chamar desenhar m ano) as [[]|e] eqn:Ec.
    + destruct (IH (graficos ++ [nome])) as [k [H1 [H2 [H3 [H4 H5]]]]].
      exists (S k). cbn [map snd firstn length nth_error]. rewrite H1, <- app_assoc.
      split; [reflexivity|]. split; [lia|].
      split; [constructor; [exact Ec | exact H3]|].
      split; [intros Hk; apply H4; lia|]. split.
      * intros Hk. constructor; [exact Ec|]. apply H5. lia.
      * intros Hf. inversion Hf; subst. f_equal. apply H5. assumption.
    + exists O. cbn [firstn length nth_error]. rewrite app_nil_r.
      split; [reflexivity|]. split; [lia|]. split; [constructor|].
      split; [intros _; exists m, nome, e; split; [reflexivity | exact Ec]|].
      split; [discriminate|].
      intros Hf. inversion Hf as [|? ? Hc _]; subst. cbn [fst] in Hc.
      rewrite Ec in Hc. discriminate Hc.
Qed.

(** X23. The names [_gerar_graficos] returns are the names of the
    calls that returned before the first exception: the first [k] of
    the five file names, in order, where each of the first [k] calls
    returned and, when [k] is less than five, the call after them is
    the one that raised; all five exactly when no call raises.  A
    name is there whether or not the method found data to draw.
    [_gerar_grafico_especifico] gives no name exactly for a type that
    is not one of its five keys; a name it gives is the one
    [_gerar_graficos] appends after calling the same method, so the
    default name of its second lookup is never used; and it raises
    only when the method does. *)
Theorem graficos_nomes :
  forall ano,
    (exists k,
        Graficos._gerar_graficos desenhar ano
        = firstn k (map snd Graficos.passos)
        /\ (k <= 5)%nat
        /\ Forall (fun p => Graficos.chamar desenhar (fst p) ano = Ok tt)
             (firstn k Graficos.passos)
        /\ ((k < 5)%nat ->
            exists m nome e,
              nth_error Graficos.passos k = Some (m, nome)
              /\ Graficos.chamar desenhar m ano = Raise e)
        /\ (k = 5%nat <->
            Forall (fun p => Graficos.chamar desenhar (fst p) ano = Ok tt)
              Graficos.passos))
    /\ forall tipo,
        (Graficos._gerar_grafico_especifico desenhar ano tipo = Ok None <->
         Graficos.graficos_map tipo = None)
        /\ (forall nome,
              Graficos._gerar_grafico_especifico desenhar ano tipo = Ok (Some nome) ->
              exists m,
                Graficos.graficos_map tipo = Some m
                /\ In (m, nome) Graficos.passos
                /\ Graficos.chamar desenhar m ano = Ok tt)
        /\ (forall e,
              Graficos._gerar_grafico_especifico desenhar ano tipo = Raise e ->
              exists m,
                Graficos.graficos_map tipo = Some m
                /\ Graficos.chamar desenhar m ano = Raise e).
Proof.
  intros ano. split.
  { destruct (executar_prefixo Graficos.passos ano []) as [k [H1 [H2 [H3 [H4 H5]]]]].
    exists k. split; [exact H1|]. split; [exact H2|]. split; [exact H3|].
    split; [exact H4 | exact H5]. }
  intros tipo.
  unfold Graficos._gerar_grafico_especifico, Graficos.graficos_map,
         Graficos.arquivo_map.
  destruct (String.eqb_spec tipo "remuneracao") as [->|N1].
  { cbn [String.eqb Ascii.eqb Bool.eqb].
    destruct (desenhar Graficos.EvolucaoRemuneracao (Some ano)) as [[]|e0] eqn:Ed;
      cbn [bind]; (split; [split; discriminate|]); split;
      try discriminate.
    - intros nome H. injection H as <-. eexists. split; [reflexivity|].
      split; [cbn; auto | exact Ed].
    - intros e H. injection H as <-. eexists. split; [reflexivity | exact Ed]. }
  destruct (String.eqb_spec tipo "cargos") as [->|N2].
  { cbn [String.eqb Ascii.eqb Bool.eqb].
    destruct (desenhar Graficos.RemuneracaoPorCargo (Some ano)) as [[]|e0] eqn:Ed;
      cbn [bind]; (split; [split; discriminate|]); split;
      try discriminate.
    - intros nome H. injection H as <-. eexists. split; [reflexivity|].
      split; [cbn; auto | exact Ed].
    - intros e H. injection H as <-. eexists. split; [reflexivity | exact Ed]. }
  destruct (String.eqb_spec tipo "afastamentos") as [->|N3].
  { cbn [String.eqb Ascii.eqb Bool.eqb].
    destruct (desenhar Graficos.AfastamentosMensais (Some ano)) as [[]|e0] eqn:Ed;
      cbn [bind]; (split; [split; discriminate|]); split;
      try discriminate.
    - intros nome H. injection H as <-. eexists. split; [reflexivity|].
      split; [cbn; auto | exact Ed].
    - intros e H. injection H as <-. eexists. split; [reflexivity | exact Ed]. }
  destruct (String.eqb_spec tipo "organizacional") as [->|N4].
  { destruct (desenhar Graficos.DistribuicaoOrganizacional None) as [[]|e0] eqn:Ed;
      cbn [bind]; (split; [split; discriminate|]); split;
      try discriminate.
    - intros nome H. injection H as <-. eexists. split; [reflexivity|].
      split; [cbn; auto | exact Ed].
    - intros e H. injection H as <-. eexists. split; [reflexivity | exact Ed]. }
  destruct (String.eqb_spec tipo "correlacao") as [->|N5].
  { cbn [String.eqb Ascii.eqb Bool.eqb].
    destruct (desenhar Graficos.RemuneracaoVsAfastamentos (Some ano)) as [[]|e0] eqn:Ed;
      cbn [bind]; (split; [split; discriminate|]); split;
      try discriminate.
    - intros nome H. injection H as <-. eexists. split; [reflexivity|].
      split; [cbn; auto 10 | exact Ed].
    - intros e H. injection H as <-. eexists. split; [reflexivity | exact Ed]. }
  split; [split; reflexivity|]. split; discriminate.
Qed.

End GraficosProps.

Lemma graficos_nomes_witness :
  Graficos._gerar_graficos so_dois_desenhos 2023
  = ["evolucao_remuneracao_mensal.png"; "remuneracao_por_cargo.png"]%string.
Proof.
  destruct (graficos_nomes so_dois_desenhos 2023) as [[k [H1 [H2 [H3 [H4 _]]]]] _].
  rewrite H1.
  destruct k as [|[|[|k]]].
  - destruct H4 as [m [nome [e [Hn He]]]]; [lia|].
    cbn in Hn. injection Hn as <- _. discriminate He.
  - destruct H4 as [m [nome [e [Hn He]]]]; [lia|].
    cbn in Hn. injection Hn as <- _. discriminate He.
  - reflexivity.
  - exfalso. cbn [firstn Graficos.passos] in H3.
    inversion H3 as [|? ? _ H3']; subst. inversion H3' as [|? ? _ H3'']; subst.
    inversion H3'' as [|? ? Hc _]; subst. discriminate Hc.
Defined.

(** ** The statistics export *)

Lemma formato_br_cons c r :
  Csv.formato_br (String c r)
  = String (if Ascii.eqb c "," then "."%char
            else if Ascii.eqb c "." then ","%char
            else if Ascii.eqb c "X" then "."%char
            else c)
      (Csv.formato_br r).
Proof.
  unfold Csv.formato_br.
  destruct (Ascii.eqb_spec c ",") as [->|N1]; [reflexivity|].
  destruct (Ascii.eqb_spec c ".") as [->|N2]; [reflexivity|].
  destruct (Ascii.eqb_spec c "X") as [->|N3]; [reflexivity|].
  cbn [PyStr.replace].
  apply Ascii.eqb_neq in N1, N2, N3. rewrite N1. cbn [PyStr.replace].
  rewrite N2. cbn [PyStr.replace]. rewrite N3. reflexivity.
Qed.

Lemma formato_br_trocar s : sem_X s -> Csv.formato_br s = trocar s.
Proof.
  unfold sem_X. induction s as [|c r IH]; [reflexivity|].
  cbn [PyStr.todos trocar]. intros H. apply andb_prop in H. destruct H as [Hc Hr].
  rewrite formato_br_cons, (IH Hr). apply negb_true_iff in Hc.
  unfold trocar_c. rewrite Hc. reflexivity.
Qed.

Lemma trocar_sem_X s : sem_X s -> sem_X (trocar s).
Proof.
  unfold sem_X. induction s as [|c r IH]; [reflexivity|].
  cbn [PyStr.todos trocar]. intros H. apply andb_prop in H. destruct H as [Hc Hr].
  rewrite (IH Hr), andb_true_r. unfold trocar_c.
  destruct (Ascii.eqb c ","); [reflexivity|].
  destruct (Ascii.eqb c "."); [reflexivity | exact Hc].
Qed.

Lemma trocar_involutiva s : trocar (trocar s) = s.
Proof.
  induction s as [|c r IH]; [reflexivity|]. cbn [trocar]. rewrite IH. f_equal.
  unfold trocar_c.
  destruct (Ascii.eqb_spec c ",") as [->|N1]; [reflexivity|].
  destruct (Ascii.eqb_spec c ".") as [->|N2]; [reflexivity|].
  apply Ascii.eqb_neq in N1, N2. rewrite N1, N2. reflexivity.
Qed.

Lemma trocar_lido s :
  PyStr.replace "," "." (PyStr.replace "." "" (trocar s))
  = PyStr.replace "," "" s.
Proof.
  induction s as [|c r IH]; [reflexivity|]. cbn [trocar]. unfold trocar_c.
  destruct (Ascii.eqb_spec c ",") as [->|N1].
  { cbn [PyStr.replace Ascii.eqb Bool.eqb]. cbn. exact IH. }
  destruct (Ascii.eqb_spec c ".") as [->|N2].
  { cbn. rewrite IH. reflexivity. }
  apply Ascii.eqb_neq in N1, N2.
  cbn [PyStr.replace]. rewrite N2. cbn [PyStr.replace]. rewrite N1, IH.
  reflexivity.
Qed.

(** X24. The number formatting of the export puts a text in Brazilian
    form by three replacements through the letter X.  On a text
    without an X, which is what the formatting of a number gives,
    commas and dots trade places character by character, the length is
    kept and doing it twice gives the text back.  The text is then one
    [to_float] of the pay importer reads back: what [to_float] hands to
    [float] is the original text without its thousands commas.  An X
    in the text does not survive: it comes out as a dot. *)
Theorem formato_br_troca :
  (forall s,
      sem_X s ->
      Csv.formato_br s = trocar s
      /\ Csv.formato_br (Csv.formato_br s) = s
      /\ Remuneracoes.to_float (Csv.formato_br s)
         = try_except (PyFloat.float (PyStr.replace "," "" s)) (PFin 0))
  /\ (forall s, String.length (Csv.formato_br s) = String.length s)
  /\ (forall s, sem_X (Csv.formato_br s))
  /\ Csv.formato_br "1,234.56" = "1.234,56"%string.
Proof.
  split; [|split; [|split; [|reflexivity]]].
  - intros s Hs. split; [exact (formato_br_trocar Hs)|]. split.
    + rewrite (formato_br_trocar Hs).
      rewrite (formato_br_trocar (trocar_sem_X Hs)). apply trocar_involutiva.
    + unfold Remuneracoes.to_float.
      rewrite (formato_br_trocar Hs), trocar_lido. reflexivity.
  - induction s as [|c r IH]; [reflexivity|].
    rewrite formato_br_cons. cbn [String.length]. rewrite IH. reflexivity.
  - unfold sem_X. induction s as [|c r IH]; [reflexivity|].
    rewrite formato_br_cons. cbn [PyStr.todos]. rewrite IH, andb_true_r.
    destruct (Ascii.eqb_spec c ",") as [->|N1]; [reflexivity|].
    destruct (Ascii.eqb_spec c ".") as [->|N2]; [reflexivity|].
    destruct (Ascii.eqb_spec c "X") as [->|N3]; [reflexivity|].
    apply Ascii.eqb_neq in N3. rewrite N3. reflexivity.
Qed.

Lemma formato_br_troca_witness :
  Csv.formato_br (Csv.formato_br "12,345.60") = "12,345.60"%string
  /\ Remuneracoes.to_float (Csv.formato_br "12,345.60")
     = try_except (PyFloat.float (PyStr.replace "," "" "12,345.60")) (PFin 0).
Proof.
  assert (Hs : sem_X "12,345.60") by reflexivity.
  destruct formato_br_troca as [H _].
  destruct (H "12,345.60"%string Hs) as [_ [H2 H3]].
  split; [exact H2 | exact H3].
Defined.

(** X25. [download_estatisticas_csv] never answers 400.  Its check of
    the grouping raises an [HTTPException] with status 400 inside the
    endpoint's own [try], whose [except Exception] catches it and
    raises a 500 in its place, before anything is computed.  A file is
    answered only for one of the four groupings, each of which
    [_gerar_analise_por_grupo] knows, so that its answer for an
    unknown grouping is never asked for through this endpoint. *)
Theorem download_estatisticas_nunca_400 :
  forall gerar str agrupar_por,
    (forall d,
        Csv.download_estatisticas_csv gerar str agrupar_por <> Csv.Http 400 d)
    /\ (PyStr.membro agrupar_por Csv.agrupamentos_validos = false ->
        Csv.download_estatisticas_csv gerar str agrupar_por
        = Csv.Http 500
            (Csv.prefixo_erro
               ++ str (Csv.HTTPException 400 Csv.detalhe_agrupamento)))
    /\ (forall caminho,
          Csv.download_estatisticas_csv gerar str agrupar_por
          = Csv.Arquivo caminho ->
          In agrupar_por Csv.agrupamentos_validos
          /\ gerar agrupar_por = Ok caminho
          /\ Csv.mapeamento_colunas agrupar_por <> None).
Proof.
  intros gerar str agrupar_por.
  unfold Csv.download_estatisticas_csv, Csv.corpo.
  destruct (PyStr.membro agrupar_por Csv.agrupamentos_validos) eqn:Em; cbn [negb].
  - destruct (gerar agrupar_por) as [caminho|e] eqn:Eg.
    + split; [discriminate|]. split; [discriminate|].
      intros c H. injection H as <-.
      unfold PyStr.membro in Em. apply existsb_exists in Em.
      destruct Em as [x [Hin Hx]]. apply String.eqb_eq in Hx. subst x.
      split; [exact Hin|]. split; [reflexivity|].
      cbn in Hin.
      destruct Hin as [<-|[<-|[<-|[<-|[]]]]]; discriminate.
    + split; [discriminate|]. split; [discriminate | discriminate].
  - split; [discriminate|]. split; [reflexivity | discriminate].
Qed.

(** ** The key columns of the pay, absence and remark importers *)

Lemma filter_idempotente A (f : A -> bool) (l : list A) :
  filter f (filter f l) = filter f l.
Proof.
  induction l as [|a l IH]; [reflexivity|]. cbn [filter].
  destruct (f a) eqn:E; [|exact IH]. cbn [filter]. rewrite E, IH. reflexivity.
Qed.

Lemma mapM_todos_ok A B (f : A -> resultado B) (l : list A) :
  (forall a, In a l -> is_ok (f a) = true) -> exists bs, mapM f l = Ok bs.
Proof.
  induction l as [|a l IH]; intros H; [exists []; reflexivity|].
  cbn [mapM]. pose proof (H a (or_introl eq_refl)) as Ha.
  destruct (f a) as [b|e]; [|discriminate Ha].
  destruct IH as [bs Hbs]; [intros x Hx; apply H; right; exact Hx|].
  rewrite Hbs. cbn [bind]. eexists. reflexivity.
Qed.

(** X26. The key columns are converted all or nothing.  A row whose id
    fails [isnumeric] is dropped in silence and has no effect on the
    rest.  But the year and the month have no such mask: one kept row
    whose year or month [int] or the [int64] column rejects makes the
    whole normalisation raise, whatever the other rows hold.  When
    every kept row converts, there is one record for each kept row. *)
Theorem chaves_tudo_ou_nada :
  forall R (brutas : list (Chaves * R)),
    (forall r e,
        In r brutas ->
        PyStr.isnumeric (texto_id (fst r)) = true ->
        astype_int (texto_ano (fst r)) = Raise e
        \/ astype_int (texto_mes (fst r)) = Raise e ->
        exists e', converter_chaves brutas = Raise e')
    /\ converter_chaves
         (filter (fun r => PyStr.isnumeric (texto_id (fst r))) brutas)
       = converter_chaves brutas
    /\ (forall out,
          converter_chaves brutas = Ok out ->
          length out
          = length (filter (fun r => PyStr.isnumeric (texto_id (fst r))) brutas))
    /\ ((forall r,
            In r brutas ->
            PyStr.isnumeric (texto_id (fst r)) = true ->
            is_ok (astype_int (texto_id (fst r))) = true
            /\ is_ok (astype_int (texto_ano (fst r))) = true
            /\ is_ok (astype_int (texto_mes (fst r))) = true) ->
        exists out, converter_chaves brutas = Ok out).
Proof.
  intros R brutas. split; [|split; [|split]].
  - intros r e Hin Hn Hr. unfold converter_chaves.
    set (numericas := filter _ brutas).
    assert (Hk : In r numericas) by (apply filter_In; split; assumption).
    destruct (mapM (fun r0 : Chaves * R => astype_int (texto_id (fst r0))) numericas)
      as [ids|e1]; cbn [bind]; [|eexists; reflexivity].
    destruct Hr as [Ha|Hm].
    + destruct (@mapM_raise _ _
                  (fun r0 : Chaves * R => astype_int (texto_ano (fst r0)))
                  numericas r e Hk Ha) as [e' He'].
      rewrite He'. cbn [bind]. eexists. reflexivity.
    + destruct (mapM (fun r0 : Chaves * R => astype_int (texto_ano (fst r0)))
                  numericas) as [anos|e1]; cbn [bind]; [|eexists; reflexivity].
      destruct (@mapM_raise _ _
                  (fun r0 : Chaves * R => astype_int (texto_mes (fst r0)))
                  numericas r e Hk Hm) as [e' He'].
      rewrite He'. cbn [bind]. eexists. reflexivity.
  - unfold converter_chaves. rewrite filter_idempotente. reflexivity.
  - intros out H. apply converter_chaves_ok in H.
    symmetry. exact (Forall2_length H).
  - intros H. unfold converter_chaves.
    set (numericas := filter _ brutas).
    assert (Hk : forall r, In r numericas ->
                 is_ok (astype_int (texto_id (fst r))) = true
                 /\ is_ok (astype_int (texto_ano (fst r))) = true
                 /\ is_ok (astype_int (texto_mes (fst r))) = true).
    { intros r Hr. apply filter_In in Hr. destruct Hr as [Hin Hn].
      exact (H r Hin Hn). }
    destruct (@mapM_todos_ok _ _
                (fun r0 : Chaves * R => astype_int (texto_id (fst r0))) numericas)
      as [ids Hi]; [intros a Ha; apply (Hk a Ha)|].
    destruct (@mapM_todos_ok _ _
                (fun r0 : Chaves * R => astype_int (texto_ano (fst r0))) numericas)
      as [anos Ha]; [intros a Hin; apply (Hk a Hin)|].
    destruct (@mapM_todos_ok _ _
                (fun r0 : Chaves * R => astype_int (texto_mes (fst r0))) numericas)
      as [meses Hm]; [intros a Hin; apply (Hk a Hin)|].
    rewrite Hi, Ha, Hm. cbn [bind]. eexists. reflexivity.
Qed.

(** ** The [Afastamento] model on what the importer writes *)

Section ModeloImportado.

Variable data : Type.
Variable strptime : string -> string -> resultado data.
Variable mais_dias : data -> Z -> data.

(** Adding no day to a date gives the date. *)
Hypothesis mais_zero : forall d, mais_dias d 0 = d.

(** X27. On the records the absence importer produces, the methods of
    the model carry no information: the computed end date is the start
    date, absent when the start is, and no absence is long, for any
    limit of one day or more, such as the default of 30. *)
Theorem afastamento_importado_modelo :
  forall df registros,
    Afastamentos.normalizar strptime df = Ok registros ->
    Forall
      (fun a =>
         ModeloAfastamento.data_fim_calculada mais_dias a
         = Afastamentos.inicio_afastamento a
         /\ forall limite_dias,
             1 <= limite_dias ->
             ModeloAfastamento.is_afastamento_longo a limite_dias = false)
      registros.
Proof.
  intros df registros H.
  pose proof (normalizar_um_dia strptime df H) as Hum.
  apply Forall_forall. intros a Ha.
  rewrite Forall_forall in Hum. specialize (Hum a Ha).
  unfold ModeloAfastamento.data_fim_calculada,
         ModeloAfastamento.is_afastamento_longo.
  rewrite Hum. split.
  - destruct (Afastamentos.inicio_afastamento a) as [d|]; [|reflexivity].
    cbn. rewrite mais_zero. reflexivity.
  - intros limite Hl. apply Z.ltb_ge. exact Hl.
Qed.

End ModeloImportado.

Lemma afastamento_importado_modelo_witness :
  exists registros,
    Afastamentos.normalizar (fun _ _ => Ok 45000) df_afastamento_datado = Ok registros
    /\ registros <> []
    /\ Forall
         (fun a =>
            ModeloAfastamento.data_fim_calculada Z.add a
            = Afastamentos.inicio_afastamento a
            /\ forall limite_dias,
                1 <= limite_dias ->
                ModeloAfastamento.is_afastamento_longo a limite_dias = false)
         registros.
Proof.
  destruct (Afastamentos.normalizar (fun _ _ => Ok 45000) df_afastamento_datado)
    as [registros|e] eqn:E; [|vm_compute in E; discriminate E].
  exists registros. split; [reflexivity|]. split.
  - intros ->. vm_compute in E. discriminate E.
  - exact (@afastamento_importado_modelo Z (fun _ _ => Ok 45000) Z.add
             Z.add_0_r df_afastamento_datado registros E).
Defined.
